(** * A shallow embedding of [verifier.py]

    The Hilbert-style proof checker of the repository: formula helpers,
    the recursive parser, the three axiom-schema matchers and the per-line
    verifier loop.

    Conventions of the embedding.
    - A Python [str] is a [list ascii]; a character stands for the code
      point of the same number, so the strings covered are those over the
      code points 0..255.  On that range Python's [str.strip], the regex
      class [\s] (both [Py_UNICODE_ISSPACE]) and [\d] are the predicates
      [is_space] and [is_digit] below.
    - Python values reaching the matchers are strings and tuples: [pyobj].
    - Python exceptions are explicit: a computation returns an [outcome],
      either [Ok v] or [Raise e].  Integers and the recursion depth are
      unbounded there; the two exceptions the interpreter raises at its
      limits, [RecursionError] and [ValueError], are in the variants named
      [_limited], which take the limits as parameters.
    - [verify_proof] reports by printing and returns [None]; the printed
      report is the [verdict] value of the model. *)

From Stdlib Require Import Ascii String ZArith Lia.
From stdpp Require Import base option list gmap.

Local Open Scope char_scope.
Local Open Scope list_scope.

(** ** Strings *)

Definition str := list ascii.

(** A Python string literal. *)
Definition py (s : string) : str := list_ascii_of_string s.

Definition code (c : ascii) : N := N_of_ascii c.

(** [Py_UNICODE_ISSPACE] on the code points 0..255: [str.strip()] with no
    argument and the regex class [\s]. *)
Definition is_space (c : ascii) : bool :=
  let n := code c in
  ((9 <=? n) && (n <=? 13) || (28 <=? n) && (n <=? 32)
   || (n =? 133) || (n =? 160))%N.

(** The regex class [\d] on the code points 0..255. *)
Definition is_digit (c : ascii) : bool :=
  let n := code c in ((48 <=? n) && (n <=? 57))%N.

(** The regex class [[A-Z]]. *)
Definition is_upper (c : ascii) : bool :=
  let n := code c in ((65 <=? n) && (n <=? 90))%N.

(** The regex [.] (no DOTALL): anything but a line feed. *)
Definition is_dot (c : ascii) : bool := negb (c =? "010").

Fixpoint str_eqb (s t : str) : bool :=
  match s, t with
  | [], [] => true
  | c :: s', d :: t' => (c =? d) && str_eqb s' t'
  | _, _ => false
  end.

(** The longest prefix whose characters satisfy [p], and what follows it:
    a greedy [p*]. *)
Fixpoint span (p : ascii -> bool) (s : str) : str * str :=
  match s with
  | [] => ([], [])
  | c :: s' =>
      if p c then let '(a, b) := span p s' in (c :: a, b) else ([], s)
  end.

Definition lstrip (s : str) : str := snd (span is_space s).
Definition rstrip (s : str) : str := rev (lstrip (rev s)).

(** [s.strip()] *)
Definition strip (s : str) : str := rstrip (lstrip s).

(** [s.startswith(c)] and [s.endswith(c)] for a one-character [c]. *)
Definition startswith (s : str) (c : ascii) : bool :=
  match s with d :: _ => d =? c | [] => false end.

Definition endswith (s : str) (c : ascii) : bool := startswith (rev s) c.

(** [s.startswith(p)] for a string [p]. *)
Fixpoint startswith_str (s p : str) {struct p} : bool :=
  match p, s with
  | [], _ => true
  | c :: p', d :: s' => (d =? c) && startswith_str s' p'
  | _ :: _, [] => false
  end.

(** A Python slice [s[lo:hi]]: a negative bound counts from the end, and
    both bounds are clamped to the string. *)
Definition slice_bound (len x : Z) : nat :=
  Z.to_nat (if (x <? 0)%Z then Z.max 0 (len + x) else Z.min x len).

Definition slice (s : str) (lo hi : Z) : str :=
  let len := Z.of_nat (length s) in
  let a := slice_bound len lo in
  let b := slice_bound len hi in
  take (b - a) (drop a s).

(** [int(s)] on a run of decimal digits. *)
Definition digit_value (c : ascii) : N := (code c - 48)%N.

Definition int (s : str) : N :=
  fold_left (fun acc c => (10 * acc + digit_value c)%N) s 0%N.

(** ** Python values and exceptions *)

Local Unset Elimination Schemes.
Inductive pyobj : Type :=
  | PStr (s : str)
  | PTuple (items : list pyobj).
Local Set Elimination Schemes.

(** Induction on a Python value, with the hypothesis on every item of a
    tuple. *)
Fixpoint pyobj_ind' (P : pyobj -> Prop)
    (Hstr : forall s, P (PStr s))
    (Htuple : forall items, Forall P items -> P (PTuple items))
    (o : pyobj) : P o :=
  match o with
  | PStr s => Hstr s
  | PTuple items =>
      Htuple items
        ((fix all (l : list pyobj) : Forall P l :=
            match l with
            | [] => @List.Forall_nil _ P
            | x :: l' =>
                @List.Forall_cons _ P x l' (pyobj_ind' P Hstr Htuple x) (all l')
            end) items)
  end.

(** The three messages of [ParserError], each with the offending text. *)
Inductive parser_error : Type :=
  | MismatchedClosing (formula_string : str)
  | MalformedImplication (formula_string : str)
  | InvalidSyntax (formula_string : str).

Inductive exn : Type :=
  | ParserError (e : parser_error)
  | IndexError
  | TypeError
  | AttributeError.

Inductive outcome (A : Type) : Type :=
  | Ok (a : A)
  | Raise (e : exn).
Arguments Ok {A} a.
Arguments Raise {A} e.

Definition bind {A B : Type} (m : outcome A) (k : A -> outcome B) : outcome B :=
  match m with Ok a => k a | Raise e => Raise e end.

Notation "x <- m ;; k" := (bind m (fun x => k))
  (at level 20, m at level 99, k at level 200, only parsing).

(** Python's short-circuit [and] on two conditions that may raise. *)
Definition and_then (a b : outcome bool) : outcome bool :=
  x <- a ;; if x then b else Ok false.
Infix "&&&" := and_then (at level 40, left associativity).

(** [a == b] on strings and tuples: same kind, same length, equal items. *)
Fixpoint py_eqb (a b : pyobj) : bool :=
  match a, b with
  | PStr s, PStr t => str_eqb s t
  | PTuple l, PTuple m =>
      (fix items_eqb (l m : list pyobj) : bool :=
         match l, m with
         | [], [] => true
         | x :: l', y :: m' => py_eqb x y && items_eqb l' m'
         | _, _ => false
         end) l m
  | _, _ => false
  end.

(** [o[k]] for a non-negative [k]. *)
Definition getitem (o : pyobj) (k : nat) : outcome pyobj :=
  match o with
  | PTuple l =>
      match nth_error l k with Some x => Ok x | None => Raise IndexError end
  | PStr s =>
      match nth_error s k with
      | Some c => Ok (PStr [c])
      | None => Raise IndexError
      end
  end.

(** [o[k1][k2]...] *)
Fixpoint item (o : pyobj) (path : list nat) : outcome pyobj :=
  match path with
  | [] => Ok o
  | k :: path' => x <- getitem o k ;; item x path'
  end.

(** ** Part 1: formula helpers *)

Definition arrow_tag : pyobj := PStr (py "->").
Definition tilde_tag : pyobj := PStr (py "~").

(** [re.match(r"^[A-Z]$", formula)]: [$] also matches before a final
    line feed. *)
Definition is_variable (formula : pyobj) : bool :=
  match formula with
  | PStr [c] => is_upper c
  | PStr [c; d] => is_upper c && (d =? "010")
  | _ => false
  end.

Definition is_negation (formula : pyobj) : bool :=
  match formula with
  | PTuple items =>
      (length items =? 2)%nat
      && match items with x :: _ => py_eqb x tilde_tag | [] => false end
  | PStr _ => false
  end.

Definition is_implication (formula : pyobj) : bool :=
  match formula with
  | PTuple items =>
      (length items =? 3)%nat
      && match items with x :: _ => py_eqb x arrow_tag | [] => false end
  | PStr _ => false
  end.

(** The tuple of an implication, [('->', l, r)]. *)
Definition imp (l r : pyobj) : pyobj := PTuple [arrow_tag; l; r].

(** The tuple of a negation, [('~', x)]. *)
Definition neg (x : pyobj) : pyobj := PTuple [tilde_tag; x].

(** ** Part 3: axiom checkers *)

Definition implication_at (formula : pyobj) (path : list nat) : outcome bool :=
  x <- item formula path ;; Ok (is_implication x).

Definition negation_at (formula : pyobj) (path : list nat) : outcome bool :=
  x <- item formula path ;; Ok (is_negation x).

Definition is_axiom1 (formula : pyobj) : outcome bool :=
  shape <- implication_at formula [] &&& implication_at formula [2%nat] ;;
  if negb shape then Ok false else
  A <- item formula [1%nat] ;;
  A_prime <- item formula [2%nat; 2%nat] ;;
  Ok (py_eqb A A_prime).

Definition is_axiom2 (formula : pyobj) : outcome bool :=
  shape <- implication_at formula [] &&& implication_at formula [1%nat]
          &&& implication_at formula [1%nat; 2%nat]
          &&& implication_at formula [2%nat]
          &&& implication_at formula [2%nat; 1%nat]
          &&& implication_at formula [2%nat; 2%nat] ;;
  if negb shape then Ok false else
  A <- item formula [1%nat; 1%nat] ;;
  B <- item formula [1%nat; 2%nat; 1%nat] ;;
  C <- item formula [1%nat; 2%nat; 2%nat] ;;
  l <- item formula [2%nat; 1%nat] ;;
  if py_eqb l (PTuple [arrow_tag; A; B]) then
    r <- item formula [2%nat; 2%nat] ;;
    Ok (py_eqb r (PTuple [arrow_tag; A; C]))
  else Ok false.

Definition is_axiom3 (formula : pyobj) : outcome bool :=
  shape <- implication_at formula [] &&& implication_at formula [1%nat]
          &&& negation_at formula [1%nat; 1%nat]
          &&& negation_at formula [1%nat; 2%nat]
          &&& implication_at formula [2%nat] ;;
  if negb shape then Ok false else
  A <- item formula [2%nat; 1%nat] ;;
  B <- item formula [2%nat; 2%nat] ;;
  l <- item formula [1%nat] ;;
  Ok (py_eqb l
        (PTuple [arrow_tag; PTuple [tilde_tag; B]; PTuple [tilde_tag; A]])).

(** ** The formula terms of the specification and their Python encoding *)

Inductive formula : Type :=
  | Var (name : ascii)
  | Neg (inner : formula)
  | Imp (left right : formula).

Fixpoint encode (f : formula) : pyobj :=
  match f with
  | Var name => PStr [name]
  | Neg inner => PTuple [tilde_tag; encode inner]
  | Imp l r => PTuple [arrow_tag; encode l; encode r]
  end.

(** ** Part 2: parser *)

(** [formula_string[k]] for a non-negative [k]. *)
Definition char_at (s : str) (k : nat) : outcome ascii :=
  match nth_error s k with Some c => Ok c | None => Raise IndexError end.

(** The loop [for i, char in enumerate(formula_string[1:-1])] of [parse],
    entered at index [i] with the rest [interior] of the interior still to
    read.  The result is [split_index], [None] standing for its initial
    value [-1]. *)
Fixpoint scan (formula_string interior : str) (i : nat) (balance : Z)
  : outcome (option nat) :=
  match interior with
  | [] => Ok None
  | char :: interior' =>
      if char =? "(" then
        scan formula_string interior' (S i) (balance + 1)%Z
      else if char =? ")" then
        let balance := (balance - 1)%Z in
        if (balance <? 0)%Z then
          Raise (ParserError (MismatchedClosing formula_string))
        else scan formula_string interior' (S i) balance
      else
        found <- Ok (char =? "-")
                 &&& Ok (i + 2 <? length formula_string)%nat
                 &&& (c <- char_at formula_string (i + 2) ;; Ok (c =? ">"))
                 &&& Ok (balance =? 0)%Z ;;
        if found then Ok (Some (i + 1)%nat)
        else scan formula_string interior' (S i) balance
  end.

(** The body of [parse], over the function [parse_rec] that stands for its
    recursive calls; [None] is a recursive call that ran out of fuel. *)
Definition parse_body (parse_rec : str -> option (outcome pyobj))
    (formula_string : str) : option (outcome pyobj) :=
  let formula_string := strip formula_string in
  if is_variable (PStr formula_string) then Some (Ok (PStr formula_string))
  else if startswith formula_string "~" then
    match parse_rec (drop 1 formula_string) with
    | None => None
    | Some (Raise e) => Some (Raise e)
    | Some (Ok inner) => Some (Ok (PTuple [tilde_tag; inner]))
    end
  else if startswith formula_string "(" && endswith formula_string ")" then
    let malformed :=
      Some (Raise (ParserError (MalformedImplication formula_string))) in
    match scan formula_string (slice formula_string 1 (-1)) 0 0 with
    | Raise e => Some (Raise e)
    | Ok None => malformed
    | Ok (Some split_index) =>
        let left_str := slice formula_string 1 (Z.of_nat split_index) in
        let right_str :=
          slice formula_string (Z.of_nat split_index + 3) (-1) in
        match left_str, right_str with
        | _ :: _, _ :: _ =>
            match parse_rec left_str with
            | None => None
            | Some (Raise e) => Some (Raise e)
            | Some (Ok l) =>
                match parse_rec right_str with
                | None => None
                | Some (Raise e) => Some (Raise e)
                | Some (Ok r) => Some (Ok (PTuple [arrow_tag; l; r]))
                end
            end
        | _, _ => malformed
        end
    end
  else Some (Raise (ParserError (InvalidSyntax formula_string))).

Fixpoint parse_fuel (fuel : nat) (formula_string : str)
  : option (outcome pyobj) :=
  match fuel with
  | O => None
  | S fuel' => parse_body (parse_fuel fuel') formula_string
  end.

(** [parse(formula_string)].  Every recursive call is on a strictly shorter
    string, so the fuel given here never runs out ([parse_fuel_enough]
    below) and the default is never taken. *)
Definition parse (formula_string : str) : outcome pyobj :=
  default (Raise (ParserError (InvalidSyntax formula_string)))
          (parse_fuel (S (length formula_string)) formula_string).

(** ** Part 4: verifier *)

(** The texts given to [error_detail]; [NoDetail] is its initial [""]. *)
Inductive detail : Type :=
  | NoDetail
  | NotAX1
  | NotAX2
  | NotAX3
  | FutureLines (i j : N)
  | NonExistentLines (i j : N)
  | NotModusPonens (i j : N).

(** What [verify_proof] prints before it returns: the line ["VALID: ..."],
    or one of its four ["FAILED: ..."] lines with the values it formats. *)
Inductive verdict : Type :=
  | Valid
  | InvalidLineFormat (line_text : str)
  | MalformedJustification (line_num : N) (line_text : str)
  | SyntaxErrorOnLine (line_num : N) (details : parser_error)
  | InvalidJustification (line_num : N) (formula_str : str)
      (error_detail : detail).

(** [s] with the prefix [p] removed, when it starts with it. *)
Fixpoint remove_prefix (p s : str) {struct p} : option str :=
  match p, s with
  | [], _ => Some s
  | c :: p', d :: s' => if d =? c then remove_prefix p' s' else None
  | _ :: _, [] => None
  end.

(** [re.match(r"^\s*(\d+)\.\s*(.+)", line_text)]: the two groups.  Each
    greedy repetition is followed by something its class excludes, except
    [\s*] before [(.+)]: when only white space follows the dot, the match
    backtracks and the second group is the last character of that white
    space that is not a line feed, if there is one. *)
Definition match_line (line_text : str) : option (str * str) :=
  let '(_, s1) := span is_space line_text in
  let '(line_num_str, s2) := span is_digit s1 in
  match line_num_str, s2 with
  | _ :: _, c :: s3 =>
      if c =? "." then
        let '(ws, s4) := span is_space s3 in
        match fst (span is_dot s4) with
        | [] =>
            match List.filter is_dot (rev ws) with
            | d :: _ => Some (line_num_str, [d])
            | [] => None
            end
        | rest_of_line => Some (line_num_str, rest_of_line)
        end
      else None
  | _, _ => None
  end.

(** The regex [$]: the end of the string, or just before a final line
    feed. *)
Definition at_end (s : str) : bool :=
  match s with
  | [] => true
  | [c] => c =? "010"
  | _ => false
  end.

(** The three alternatives of [(Premise|AX[123]|MP\s*\d+,\d+)$] at the head
    of [t]; the result is the text matched by the group. *)
Definition alt_premise (t : str) : option str :=
  r ← remove_prefix (py "Premise") t;
  if at_end r then Some (py "Premise") else None.

Definition alt_ax (t : str) : option str :=
  r ← remove_prefix (py "AX") t;
  match r with
  | c :: r' =>
      if ((c =? "1") || (c =? "2") || (c =? "3")) && at_end r'
      then Some (py "AX" ++ [c]) else None
  | [] => None
  end.

Definition alt_mp (t : str) : option str :=
  r ← remove_prefix (py "MP") t;
  let '(ws, r1) := span is_space r in
  let '(d1, r2) := span is_digit r1 in
  match d1, r2 with
  | _ :: _, c :: r3 =>
      if c =? "," then
        let '(d2, r4) := span is_digit r3 in
        match d2 with
        | _ :: _ =>
            if at_end r4 then Some (py "MP" ++ ws ++ d1 ++ py "," ++ d2)
            else None
        | [] => None
        end
      else None
  | _, _ => None
  end.

Definition match_token (t : str) : option str :=
  match alt_premise t with
  | Some g => Some g
  | None => match alt_ax t with Some g => Some g | None => alt_mp t end
  end.

(** The justification pattern [\s+(Premise|AX[123]|MP\s*\d+,\d+)$] matched
    at the head of [s]: the whole match, [group(0)].  No alternative starts
    with white space, so [\s+] takes the whole run. *)
Definition match_justification_here (s : str) : option str :=
  let '(ws, t) := span is_space s in
  match ws with
  | [] => None
  | _ :: _ => g ← match_token t; Some (ws ++ g)
  end.

(** [re.search(justification_pattern, rest_of_line)]: the leftmost match,
    as its start offset and [group(0)]; [start] is the offset of [s]. *)
Fixpoint search_justification (s : str) (start : nat) : option (nat * str) :=
  match match_justification_here s with
  | Some g => Some (start, g)
  | None =>
      match s with
      | [] => None
      | _ :: s' => search_justification s' (S start)
      end
  end.

(** [re.match(r"MP\s*(\d+),(\d+)", justification)]: the two groups. *)
Definition match_mp (justification : str) : option (str * str) :=
  r ← remove_prefix (py "MP") justification;
  let '(_, r1) := span is_space r in
  let '(d1, r2) := span is_digit r1 in
  match d1, r2 with
  | _ :: _, c :: r3 =>
      if c =? "," then
        match fst (span is_digit r3) with
        | [] => None
        | d2 => Some (d1, d2)
        end
      else None
  | _, _ => None
  end.

(** Python's short-circuit [or] on two conditions that may raise. *)
Definition or_else (a b : outcome bool) : outcome bool :=
  x <- a ;; if x then Ok true else b.

(** [is_implication(f) and f[1] == g and f[2] == current_formula] *)
Definition detaches (f g current_formula : pyobj) : outcome bool :=
  Ok (is_implication f)
  &&& (x <- getitem f 1 ;; Ok (py_eqb x g))
  &&& (x <- getitem f 2 ;; Ok (py_eqb x current_formula)).

(** The justification dispatch of [verify_proof]: the values of [is_valid]
    and [error_detail] after it. *)
Definition check_justification (proven_formulas : gmap N pyobj) (line_num : N)
    (justification : str) (current_formula : pyobj) : outcome (bool * detail) :=
  if str_eqb justification (py "Premise") then Ok (true, NoDetail)
  else if str_eqb justification (py "AX1") then
    is_valid <- is_axiom1 current_formula ;;
    Ok (is_valid, if is_valid then NoDetail else NotAX1)
  else if str_eqb justification (py "AX2") then
    is_valid <- is_axiom2 current_formula ;;
    Ok (is_valid, if is_valid then NoDetail else NotAX2)
  else if str_eqb justification (py "AX3") then
    is_valid <- is_axiom3 current_formula ;;
    Ok (is_valid, if is_valid then NoDetail else NotAX3)
  else if startswith_str justification (py "MP") then
    match match_mp justification with
    | None => Raise AttributeError
    | Some (si, sj) =>
        let i := int si in
        let j := int sj in
        if (line_num <=? i)%N || (line_num <=? j)%N then
          Ok (false, FutureLines i j)
        else
          match proven_formulas !! i, proven_formulas !! j with
          | Some f_i, Some f_j =>
              follows <- or_else (detaches f_j f_i current_formula)
                                 (detaches f_i f_j current_formula) ;;
              if follows then Ok (true, NoDetail)
              else Ok (false, NotModusPonens i j)
          | _, _ => Ok (false, NonExistentLines i j)
          end
    end
  else Ok (false, NoDetail).

(** One iteration of the loop over [proof_content]: the loop goes on with
    the mapping, or the function prints a verdict and returns. *)
Inductive step : Type :=
  | Continue (proven_formulas : gmap N pyobj)
  | Return (v : verdict).

Definition process_line (proven_formulas : gmap N pyobj) (line_text : str)
  : outcome step :=
  let line_text := strip line_text in
  if bool_decide (line_text = []) || startswith line_text "#" then
    Ok (Continue proven_formulas)
  else
    match match_line line_text with
    | None => Ok (Return (InvalidLineFormat line_text))
    | Some (line_num_str, rest_of_line) =>
        let line_num := int line_num_str in
        match search_justification rest_of_line 0 with
        | None => Ok (Return (MalformedJustification line_num line_text))
        | Some (start, group0) =>
            let formula_str := strip (take start rest_of_line) in
            let justification := strip group0 in
            match parse formula_str with
            | Raise (ParserError e) =>
                Ok (Return (SyntaxErrorOnLine line_num e))
            | Raise e => Raise e
            | Ok current_formula =>
                checked <-
                  check_justification proven_formulas line_num justification
                                      current_formula ;;
                let '(is_valid, error_detail) := checked in
                if is_valid : bool then
                  Ok (Continue
                        (<[line_num := current_formula]> proven_formulas))
                else
                  Ok (Return (InvalidJustification line_num formula_str
                                                   error_detail))
            end
        end
    end.

(** The loop of [verify_proof], started with the mapping [proven_formulas]
    on the lines still to read. *)
Fixpoint run (proven_formulas : gmap N pyobj) (proof_content : list str)
  : outcome step :=
  match proof_content with
  | [] => Ok (Continue proven_formulas)
  | line_text :: rest =>
      s <- process_line proven_formulas line_text ;;
      match s with
      | Continue proven_formulas' => run proven_formulas' rest
      | Return v => Ok (Return v)
      end
  end.

(** [verify_proof(proof_content, proof_name)]; the name only labels the
    printed report. *)
Definition verify_proof (proof_content : list str) : outcome verdict :=
  s <- run ∅ proof_content ;;
  match s with
  | Continue _ => Ok Valid
  | Return v => Ok v
  end.

(** ** Formula terms: equality and shapes *)

(** Structural equality of formula terms. *)
Fixpoint formula_eqb (f g : formula) : bool :=
  match f, g with
  | Var a, Var b => a =? b
  | Neg f', Neg g' => formula_eqb f' g'
  | Imp f1 f2, Imp g1 g2 => formula_eqb f1 g1 && formula_eqb f2 g2
  | _, _ => false
  end.

(** The minimum shape each matcher asks for before it compares anything. *)
Definition has_shape1 (f : formula) : bool :=
  match f with Imp _ (Imp _ _) => true | _ => false end.

Definition has_shape2 (f : formula) : bool :=
  match f with
  | Imp (Imp _ (Imp _ _)) (Imp (Imp _ _) (Imp _ _)) => true
  | _ => false
  end.

Definition has_shape3 (f : formula) : bool :=
  match f with
  | Imp (Imp (Neg _) (Neg _)) (Imp _ _) => true
  | _ => false
  end.

(** ** Notions used in the statements *)

(** An outcome that raises nothing but a [ParserError]. *)
Definition parser_only {A : Type} (r : outcome A) : Prop :=
  match r with
  | Ok _ | Raise (ParserError _) => True
  | Raise _ => False
  end.

(** The line number [verify_proof] reads on a line, when it reads one. *)
Definition line_number (line_text : str) : option N :=
  match match_line (strip line_text) with
  | Some (line_num_str, _) => Some (int line_num_str)
  | None => None
  end.

(** The line number a verdict carries. *)
Definition reported_line (v : verdict) : option N :=
  match v with
  | Valid | InvalidLineFormat _ => None
  | MalformedJustification line_num _
  | SyntaxErrorOnLine line_num _
  | InvalidJustification line_num _ _ => Some line_num
  end.

(** The verdict [v] is a failure on the line [line_text]: it carries the
    number read on that line or, for a line on which none is read, the
    stripped text of the line. *)
Definition reported_at (v : verdict) (line_text : str) : Prop :=
  match v with
  | Valid => False
  | InvalidLineFormat t => t = strip line_text /\ line_number line_text = None
  | _ => reported_line v = line_number line_text
  end.

(** The texts of the group [(Premise|AX[123]|MP\s*\d+,\d+)]. *)
Inductive justification_token : str -> Prop :=
  | token_premise : justification_token (py "Premise")
  | token_ax (c : ascii) :
      c = "1" \/ c = "2" \/ c = "3" -> justification_token (py "AX" ++ [c])
  | token_mp (ws d1 d2 : str) :
      forallb is_space ws = true ->
      d1 <> [] -> forallb is_digit d1 = true ->
      d2 <> [] -> forallb is_digit d2 = true ->
      justification_token (py "MP" ++ ws ++ d1 ++ py "," ++ d2).

(** ** The batch runner *)

(** [s.replace(old, "")] for a non-empty [old]: the occurrences of [old]
    are removed from left to right, none overlapping the one before;
    [skip] counts the characters of the current occurrence still to drop. *)
Fixpoint remove_all_from (old s : str) (skip : nat) : str :=
  match s with
  | [] => []
  | c :: s' =>
      match skip with
      | S skip' => remove_all_from old s' skip'
      | O =>
          if startswith_str s old
          then remove_all_from old s' (length old - 1)
          else c :: remove_all_from old s' 0
      end
  end.

Definition remove_all (old s : str) : str := remove_all_from old s 0.

Definition DELIMITER : str := py "--- TEST:".

(** [line.replace(DELIMITER, "").strip().replace("---", "").strip()] *)
Definition proof_name_of (line : str) : str :=
  strip (remove_all (py "---") (strip (remove_all DELIMITER line))).

(** The call [verify_proof(current_proof_content, current_proof_name)]
    guarded by [if current_proof_content:], as the list of the calls made. *)
Definition flush (current_proof_content : list str) (current_proof_name : str)
  : list (str * list str) :=
  match current_proof_content with
  | [] => []
  | _ :: _ => [(current_proof_name, current_proof_content)]
  end.

(** The loop of [load_and_run_tests_from_file] over the lines of the file,
    and the flush after it: the calls of [verify_proof] it makes, in order,
    each with the name and the lines it is given. *)
Fixpoint split_proofs (lines : list str) (current_proof_content : list str)
    (current_proof_name : str) : list (str * list str) :=
  match lines with
  | [] => flush current_proof_content current_proof_name
  | line :: lines' =>
      if startswith_str line DELIMITER then
        flush current_proof_content current_proof_name
        ++ split_proofs lines' [] (proof_name_of line)
      else
        split_proofs lines' (current_proof_content ++ [line])
                     current_proof_name
  end.

(** The calls run one after the other; an exception of one would end the
    function. *)
Fixpoint run_proofs (proofs : list (str * list str))
  : outcome (list (str * verdict)) :=
  match proofs with
  | [] => Ok []
  | (name, content) :: proofs' =>
      v <- verify_proof content ;;
      reports <- run_proofs proofs' ;;
      Ok ((name, v) :: reports)
  end.

(** What [load_and_run_tests_from_file] prints. *)
Inductive batch_report : Type :=
  | FileNotFound
  | Verified (reports : list (str * verdict)).

(** [load_and_run_tests_from_file(filepath)], on what opening and reading
    the file gives: [None] when [open] raises [FileNotFoundError], else the
    result of [readlines()]. *)
Definition load_and_run_tests_from_file (file : option (list str))
  : outcome batch_report :=
  match file with
  | None => Ok FileNotFound
  | Some lines =>
      reports <- run_proofs (split_proofs lines [] (py "Unnamed Proof")) ;;
      Ok (Verified reports)
  end.

(** ** Further notions used in the statements *)

(** A formula term whose variables are capital letters. *)
Fixpoint well_formed (f : formula) : bool :=
  match f with
  | Var name => is_upper name
  | Neg inner => well_formed inner
  | Imp l r => well_formed l && well_formed r
  end.

(** A formula term written in the grammar the parser reads, each arrow
    between two spaces. *)
Fixpoint print (f : formula) : str :=
  match f with
  | Var name => [name]
  | Neg inner => "~" :: print inner
  | Imp l r => py "(" ++ print l ++ py " -> " ++ print r ++ py ")"
  end.

(** Derivations of the Hilbert system the verifier checks: premises, the
    three axiom schemas and Modus Ponens. *)
Inductive derivable (premises : list pyobj) : pyobj -> Prop :=
  | derivable_premise (f : pyobj) :
      f ∈ premises -> derivable premises f
  | derivable_ax1 (a b : pyobj) :
      derivable premises (imp a (imp b a))
  | derivable_ax2 (a b c : pyobj) :
      derivable premises
        (imp (imp a (imp b c)) (imp (imp a b) (imp a c)))
  | derivable_ax3 (a b : pyobj) :
      derivable premises (imp (imp (neg b) (neg a)) (imp a b))
  | derivable_mp (a b : pyobj) :
      derivable premises a -> derivable premises (imp a b) ->
      derivable premises b.

(** The line is blank or a comment: the loop skips it. *)
Definition skipped (line_text : str) : bool :=
  bool_decide (strip line_text = []) || startswith (strip line_text) "#".

(** The formula the verifier reads as a premise on a line: the line has a
    number, its justification is [Premise], and the formula is what the
    parser returns on its formula text. *)
Definition premise_of (line_text : str) : option pyobj :=
  if skipped line_text then None
  else
    match match_line (strip line_text) with
    | None => None
    | Some (_, rest_of_line) =>
        match search_justification rest_of_line 0 with
        | None => None
        | Some (start, group0) =>
            if str_eqb (strip group0) (py "Premise") then
              match parse (strip (take start rest_of_line)) with
              | Ok f => Some f
              | Raise _ => None
              end
            else None
        end
    end.

(** ** The limits of the interpreter

    Python bounds the depth of nested calls and, in its recent versions,
    the number of digits [int] converts from a string.  Past either limit
    it raises an exception that [verify_proof] does not catch.  The limits
    are parameters: [depth], the nested calls of [parse] that can still be
    entered, and [max_str_digits].  The comparisons of formula terms nest
    no deeper than the calls of [parse] that built the terms, and are taken
    to stay within the first limit. *)

Inductive limited (A : Type) : Type :=
  | Within (a : A)
  | RecursionError
  | ValueError.
Arguments Within {A} a.
Arguments RecursionError {A}.
Arguments ValueError {A}.

(** [int(s)] on a run of decimal digits, under the limit [max_str_digits]
    on their number; [0] is no limit. *)
Definition int_limited (max_str_digits : nat) (s : str) : limited N :=
  if (0 <? max_str_digits)%nat && (max_str_digits <? length s)%nat
  then ValueError
  else Within (int s).

(** [parse(formula_string)] when [depth] nested calls of [parse] can still
    be entered: the call that would be one too deep raises
    [RecursionError], which no call of [parse] catches. *)
Definition parse_limited (depth : nat) (formula_string : str)
  : limited (outcome pyobj) :=
  match parse_fuel depth formula_string with
  | Some r => Within r
  | None => RecursionError
  end.

(** The justification dispatch; [int] is called on the two groups of a
    Modus Ponens justification, the first one first. *)
Definition check_justification_limited (max_str_digits : nat)
    (proven_formulas : gmap N pyobj) (line_num : N) (justification : str)
    (current_formula : pyobj) : limited (outcome (bool * detail)) :=
  let checked :=
    check_justification proven_formulas line_num justification
                        current_formula in
  if startswith_str justification (py "MP") then
    match match_mp justification with
    | None => Within checked
    | Some (si, sj) =>
        match int_limited max_str_digits si with
        | Within _ =>
            match int_limited max_str_digits sj with
            | Within _ => Within checked
            | RecursionError => RecursionError
            | ValueError => ValueError
            end
        | RecursionError => RecursionError
        | ValueError => ValueError
        end
    end
  else Within checked.

(** One iteration of the loop of [verify_proof] under the two limits. *)
Definition process_line_limited (depth max_str_digits : nat)
    (proven_formulas : gmap N pyobj) (line_text : str)
  : limited (outcome step) :=
  let line_text := strip line_text in
  if bool_decide (line_text = []) || startswith line_text "#" then
    Within (Ok (Continue proven_formulas))
  else
    match match_line line_text with
    | None => Within (Ok (Return (InvalidLineFormat line_text)))
    | Some (line_num_str, rest_of_line) =>
        match int_limited max_str_digits line_num_str with
        | RecursionError => RecursionError
        | ValueError => ValueError
        | Within line_num =>
            match search_justification rest_of_line 0 with
            | None =>
                Within (Ok (Return (MalformedJustification line_num
                                                           line_text)))
            | Some (start, group0) =>
                let formula_str := strip (take start rest_of_line) in
                let justification := strip group0 in
                match parse_limited depth formula_str with
                | RecursionError => RecursionError
                | ValueError => ValueError
                | Within (Raise (ParserError e)) =>
                    Within (Ok (Return (SyntaxErrorOnLine line_num e)))
                | Within (Raise e) => Within (Raise e)
                | Within (Ok current_formula) =>
                    match check_justification_limited max_str_digits
                            proven_formulas line_num justification
                            current_formula with
                    | RecursionError => RecursionError
                    | ValueError => ValueError
                    | Within checked =>
                        Within
                          (checked <- checked ;;
                           let '(is_valid, error_detail) := checked in
                           if is_valid : bool then
                             Ok (Continue
                                   (<[line_num := current_formula]>
                                      proven_formulas))
                           else
                             Ok (Return
                                   (InvalidJustification line_num formula_str
                                                         error_detail)))
                    end
                end
            end
        end
    end.

Fixpoint run_limited (depth max_str_digits : nat)
    (proven_formulas : gmap N pyobj) (proof_content : list str)
  : limited (outcome step) :=
  match proof_content with
  | [] => Within (Ok (Continue proven_formulas))
  | line_text :: rest =>
      match process_line_limited depth max_str_digits proven_formulas
                                 line_text with
      | Within (Ok (Continue proven_formulas')) =>
          run_limited depth max_str_digits proven_formulas' rest
      | other => other
      end
  end.

Definition verify_proof_limited (depth max_str_digits : nat)
    (proof_content : list str) : limited (outcome verdict) :=
  match run_limited depth max_str_digits ∅ proof_content with
  | Within s =>
      Within (s <- s ;;
              match s with
              | Continue _ => Ok Valid
              | Return v => Ok v
              end)
  | RecursionError => RecursionError
  | ValueError => ValueError
  end.

(** The calls of [verify_proof] made by the batch runner, under the two
    limits: an exception that escapes one call ends the function. *)
Fixpoint run_proofs_limited (depth max_str_digits : nat)
    (proofs : list (str * list str)) : limited (outcome (list (str * verdict))) :=
  match proofs with
  | [] => Within (Ok [])
  | (name, content) :: proofs' =>
      match verify_proof_limited depth max_str_digits content with
      | Within (Ok v) =>
          match run_proofs_limited depth max_str_digits proofs' with
          | Within (Ok reports) => Within (Ok ((name, v) :: reports))
          | other => other
          end
      | Within (Raise e) => Within (Raise e)
      | RecursionError => RecursionError
      | ValueError => ValueError
      end
  end.

Definition load_and_run_tests_from_file_limited (depth max_str_digits : nat)
    (file : option (list str)) : limited (outcome batch_report) :=
  match file with
  | None => Within (Ok FileNotFound)
  | Some lines =>
      match run_proofs_limited depth max_str_digits
              (split_proofs lines [] (py "Unnamed Proof")) with
      | Within r => Within (reports <- r ;; Ok (Verified reports))
      | RecursionError => RecursionError
      | ValueError => ValueError
      end
  end.

(** The formula the verifier parses on a line: the line has a number and a
    justification, and the text before the justification is parsed. *)
Definition formula_of (line_text : str) : option pyobj :=
  match match_line (strip line_text) with
  | None => None
  | Some (_, rest_of_line) =>
      match search_justification rest_of_line 0 with
      | None => None
      | Some (start, _) =>
          match parse (strip (take start rest_of_line)) with
          | Ok f => Some f
          | Raise _ => None
          end
      end
  end.

(** * Properties *)

(** ** Characters and strings *)

Lemma str_eqb_eq (s t : str) : str_eqb s t = true <-> s = t.
Proof.
  revert t; induction s as [|c s IH]; intros [|d t]; simpl; try easy.
  rewrite andb_true_iff, Ascii.eqb_eq, IH. split.
  - intros [-> ->]; reflexivity.
  - intros [= -> ->]; auto.
Qed.

Lemma str_eqb_refl (s : str) : str_eqb s s = true.
Proof. apply str_eqb_eq; reflexivity. Qed.

(** ** Equality of Python values *)

Lemma py_eqb_eq (a b : pyobj) : py_eqb a b = true <-> a = b.
Proof.
  revert b; induction a as [s | l IH] using pyobj_ind'; intros [t | m];
    simpl; try easy.
  - rewrite str_eqb_eq. split; congruence.
  - revert m; induction IH as [| x l Hx _ IHl]; intros [| y m]; try easy.
    rewrite andb_true_iff, Hx, IHl. split.
    + intros [-> [= ->]]; reflexivity.
    + intros [= -> ->]; auto.
Qed.

Lemma py_eqb_refl (a : pyobj) : py_eqb a a = true.
Proof. apply py_eqb_eq; reflexivity. Qed.

Lemma py_eqb_neq (a b : pyobj) : py_eqb a b = false <-> a <> b.
Proof.
  rewrite <- py_eqb_eq. destruct (py_eqb a b); split; congruence.
Qed.

(** ** The formula helpers *)

Lemma is_implication_inv (v : pyobj) :
  is_implication v = true <-> exists l r, v = imp l r.
Proof.
  split.
  - destruct v as [s | [| x [| l [| r [| ? ?]]]]]; simpl; try easy.
    intros H%py_eqb_eq; subst x. eauto.
  - intros (l & r & ->). reflexivity.
Qed.

Lemma is_negation_inv (v : pyobj) :
  is_negation v = true <-> exists x, v = neg x.
Proof.
  split.
  - destruct v as [s | [| t [| x [| ? ?]]]]; simpl; try easy.
    intros H%py_eqb_eq; subst t. eauto.
  - intros (x & ->). reflexivity.
Qed.

Lemma formula_eqb_eq (f g : formula) : formula_eqb f g = true <-> f = g.
Proof.
  revert g; induction f as [a | f IH | f1 IH1 f2 IH2]; intros [b | g | g1 g2];
    simpl; try easy.
  - rewrite Ascii.eqb_eq. split; congruence.
  - rewrite IH. split; congruence.
  - rewrite andb_true_iff, IH1, IH2. split.
    + intros [-> ->]; reflexivity.
    + intros [= -> ->]; auto.
Qed.

Lemma encode_inj (f g : formula) : encode f = encode g -> f = g.
Proof.
  revert g; induction f as [a | f IH | f1 IH1 f2 IH2]; intros [b | g | g1 g2];
    simpl; try easy.
  - congruence.
  - intros [= H]. f_equal; auto.
  - intros [= H1 H2]. f_equal; auto.
Qed.

Lemma py_eqb_encode (f g : formula) :
  py_eqb (encode f) (encode g) = formula_eqb f g.
Proof.
  destruct (formula_eqb f g) eqn:E.
  - apply formula_eqb_eq in E as ->. apply py_eqb_refl.
  - apply py_eqb_neq. intros H%encode_inj. subst g.
    assert (formula_eqb f f = true) by (apply formula_eqb_eq; reflexivity).
    congruence.
Qed.

Lemma encode_imp_inv (f : formula) (x y : pyobj) :
  encode f = imp x y -> exists l r, f = Imp l r /\ encode l = x /\ encode r = y.
Proof.
  destruct f as [a | g | l r]; simpl; try easy.
  intros [= <- <-]. eauto.
Qed.

Lemma encode_neg_inv (f : formula) (x : pyobj) :
  encode f = neg x -> exists g, f = Neg g /\ encode g = x.
Proof.
  destruct f as [a | g | l r]; simpl; try easy.
  intros [= <-]. eauto.
Qed.

(** ** The axiom checkers *)

Lemma is_implication_tuple (l r : pyobj) :
  is_implication (PTuple [arrow_tag; l; r]) = true.
Proof. reflexivity. Qed.

Lemma is_negation_tuple (x : pyobj) :
  is_negation (PTuple [tilde_tag; x]) = true.
Proof. reflexivity. Qed.

(** Case analysis on what [is_implication] and [is_negation] answer. *)
Ltac probe v :=
  let E := fresh "E" in
  destruct (is_implication v) eqn:E;
  [ apply is_implication_inv in E as (? & ? & ->) | ].

Ltac probe_neg v :=
  let E := fresh "E" in
  destruct (is_negation v) eqn:E;
  [ apply is_negation_inv in E as (? & ->) | ].

(** Runs a matcher on a value whose shape is known as far as it is read. *)
Ltac run_matcher :=
  unfold imp, neg in *;
  repeat (progress
    (cbn [item getitem nth_error bind and_then implication_at negation_at negb];
     rewrite ?is_implication_tuple, ?is_negation_tuple;
     try match goal with H : _ = false |- _ => rewrite H end)).

Ltac off_shape :=
  right; split;
  [ intros *; unfold imp, neg; intros [=]; subst; discriminate
  | run_matcher; reflexivity ].

(** Each checker on an arbitrary Python value: either the value has the
    shape the guard asks for and the answer is the final comparison, or it
    has not and the answer is [False]; no subscript is ever out of range. *)
Lemma is_axiom1_eval (v : pyobj) :
  (exists a b c, v = imp a (imp b c) /\ is_axiom1 v = Ok (py_eqb a c))
  \/ ((forall a b c, v <> imp a (imp b c)) /\ is_axiom1 v = Ok false).
Proof.
  unfold is_axiom1.
  probe v; [| off_shape].
  probe x0; [| off_shape].
  left. do 3 eexists. split; [reflexivity |]. run_matcher. reflexivity.
Qed.

Lemma is_axiom2_eval (v : pyobj) :
  (exists a b c p q r s,
      v = imp (imp a (imp b c)) (imp (imp p q) (imp r s))
      /\ is_axiom2 v
         = Ok (py_eqb (imp p q) (imp a b) && py_eqb (imp r s) (imp a c)))
  \/ ((forall a b c p q r s,
          v <> imp (imp a (imp b c)) (imp (imp p q) (imp r s)))
      /\ is_axiom2 v = Ok false).
Proof.
  unfold is_axiom2.
  probe v; [| off_shape].
  rename x into x1, x0 into x2.
  probe x1; [| off_shape].
  rename x into a, x0 into x12.
  probe x12; [| off_shape].
  rename x into b, x0 into c.
  probe x2; [| off_shape].
  rename x into x21, x0 into x22.
  probe x21; [| off_shape].
  probe x22; [| off_shape].
  left. do 7 eexists. split; [reflexivity |]. run_matcher.
  destruct (py_eqb _ _); reflexivity.
Qed.

Lemma is_axiom3_eval (v : pyobj) :
  (exists x y a b,
      v = imp (imp (neg x) (neg y)) (imp a b)
      /\ is_axiom3 v
         = Ok (py_eqb (imp (neg x) (neg y)) (imp (neg b) (neg a))))
  \/ ((forall x y a b, v <> imp (imp (neg x) (neg y)) (imp a b))
      /\ is_axiom3 v = Ok false).
Proof.
  unfold is_axiom3.
  probe v; [| off_shape].
  rename x into x1, x0 into x2.
  probe x1; [| off_shape].
  probe_neg x; [| off_shape].
  probe_neg x0; [| off_shape].
  probe x2; [| off_shape].
  left. do 4 eexists. split; [reflexivity |]. run_matcher. reflexivity.
Qed.

Lemma is_axiom1_total (v : pyobj) : exists b, is_axiom1 v = Ok b.
Proof.
  destruct (is_axiom1_eval v) as [(? & ? & ? & _ & H) | [_ H]]; eauto.
Qed.

Lemma is_axiom2_total (v : pyobj) : exists b, is_axiom2 v = Ok b.
Proof.
  destruct (is_axiom2_eval v)
    as [(? & ? & ? & ? & ? & ? & ? & _ & H) | [_ H]]; eauto.
Qed.

Lemma is_axiom3_total (v : pyobj) : exists b, is_axiom3 v = Ok b.
Proof.
  destruct (is_axiom3_eval v) as [(? & ? & ? & ? & _ & H) | [_ H]]; eauto.
Qed.

(** Destructures a hypothesis [encode f = ('->', x, y)] or
    [encode f = ('~', x)]. *)
Ltac decode H :=
  first
    [ apply encode_imp_inv in H as (? & ? & -> & ? & ?)
    | apply encode_neg_inv in H as (? & -> & ?) ].

(** C2. For every formula term [f], [is_axiom2] answers [True] exactly when
    [f] is [(A -> (B -> C)) -> ((A -> B) -> (A -> C))] for some formulas
    [A], [B], [C]: both occurrences of [A -> B] and [A -> C] are built from
    the very sub-formulas bound on the left. *)
Theorem is_axiom2_iff_instance (f : formula) :
  is_axiom2 (encode f) = Ok true
  <-> exists A B C : formula,
        f = Imp (Imp A (Imp B C)) (Imp (Imp A B) (Imp A C)).
Proof.
  split.
  - destruct (is_axiom2_eval (encode f))
      as [(a & b & c & p & q & r & s & Hv & He) | [_ He]];
      rewrite He; [| discriminate].
    intros H.
    assert (Hb : py_eqb (imp p q) (imp a b) && py_eqb (imp r s) (imp a c)
                 = true) by congruence.
    clear H. apply andb_true_iff in Hb as [H1%py_eqb_eq H2%py_eqb_eq].
    injection H1 as -> ->. injection H2 as -> ->.
    decode Hv.
    repeat match goal with H : encode _ = imp _ _ |- _ => decode H end.
    subst.
    repeat match goal with
           | H : encode ?x = encode ?y |- _ => apply encode_inj in H; subst
           end.
    eauto.
  - intros (A & B & C & ->). simpl encode. unfold is_axiom2. run_matcher.
    rewrite !py_eqb_refl. reflexivity.
Qed.

(** C3. For every formula term [f], [is_axiom3] answers [True] exactly when
    [f] is [(~B -> ~A) -> (A -> B)] for some formulas [A] and [B]: the right
    operand gives [A] and [B], and the left operand is the implication from
    the negation of that [B] to the negation of that [A]. *)
Theorem is_axiom3_iff_instance (f : formula) :
  is_axiom3 (encode f) = Ok true
  <-> exists A B : formula, f = Imp (Imp (Neg B) (Neg A)) (Imp A B).
Proof.
  split.
  - destruct (is_axiom3_eval (encode f))
      as [(x & y & a & b & Hv & He) | [_ He]];
      rewrite He; [| discriminate].
    intros H.
    assert (Hb : py_eqb (imp (neg x) (neg y)) (imp (neg b) (neg a)) = true)
      by congruence.
    clear H. apply py_eqb_eq in Hb. injection Hb as -> ->.
    decode Hv.
    repeat match goal with
           | H : encode _ = imp _ _ |- _ => decode H
           | H : encode _ = neg _ |- _ => decode H
           end.
    subst.
    repeat match goal with
           | H : encode ?x = encode ?y |- _ => apply encode_inj in H; subst
           end.
    eauto.
  - intros (A & B & ->). simpl encode. unfold is_axiom3. run_matcher.
    rewrite !py_eqb_refl. reflexivity.
Qed.

Lemma has_shape1_encode (f : formula) :
  has_shape1 f = false -> forall a b c, encode f <> imp a (imp b c).
Proof.
  intros Hs a b c H. decode H.
  match goal with H : encode _ = imp _ _ |- _ => decode H end.
  discriminate.
Qed.

Lemma has_shape2_encode (f : formula) :
  has_shape2 f = false ->
  forall a b c p q r s,
    encode f <> imp (imp a (imp b c)) (imp (imp p q) (imp r s)).
Proof.
  intros Hs a b c p q r s H. decode H.
  repeat match goal with H : encode _ = imp _ _ |- _ => decode H end.
  discriminate.
Qed.

Lemma has_shape3_encode (f : formula) :
  has_shape3 f = false ->
  forall x y a b, encode f <> imp (imp (neg x) (neg y)) (imp a b).
Proof.
  intros Hs x y a b H. decode H.
  repeat match goal with
         | H : encode _ = imp _ _ |- _ => decode H
         | H : encode _ = neg _ |- _ => decode H
         end.
  discriminate.
Qed.

(** C8. On every formula term (variable, negation or implication, nested at
    will) each of the three checkers returns a boolean, no exception being
    raised by a subscript, and on a term that lacks the minimum shape the
    checker asks for that boolean is [False]. *)
Theorem axiom_checkers_never_raise (f : formula) :
  (exists b, is_axiom1 (encode f) = Ok b /\ (has_shape1 f = true \/ b = false))
  /\ (exists b,
        is_axiom2 (encode f) = Ok b /\ (has_shape2 f = true \/ b = false))
  /\ (exists b,
        is_axiom3 (encode f) = Ok b /\ (has_shape3 f = true \/ b = false)).
Proof.
  split; [| split].
  - destruct (has_shape1 f) eqn:Hs.
    + destruct (is_axiom1_total (encode f)) as [b Hb]; eauto.
    + exists false. split; [| auto].
      destruct (is_axiom1_eval (encode f)) as [(a & b & c & Hv & _) | [_ H]];
        [| exact H].
      exfalso. exact (has_shape1_encode f Hs _ _ _ Hv).
  - destruct (has_shape2 f) eqn:Hs.
    + destruct (is_axiom2_total (encode f)) as [b Hb]; eauto.
    + exists false. split; [| auto].
      destruct (is_axiom2_eval (encode f))
        as [(a & b & c & p & q & r & s & Hv & _) | [_ H]]; [| exact H].
      exfalso. exact (has_shape2_encode f Hs _ _ _ _ _ _ _ Hv).
  - destruct (has_shape3 f) eqn:Hs.
    + destruct (is_axiom3_total (encode f)) as [b Hb]; eauto.
    + exists false. split; [| auto].
      destruct (is_axiom3_eval (encode f))
        as [(x & y & a & b & Hv & _) | [_ H]]; [| exact H].
      exfalso. exact (has_shape3_encode f Hs _ _ _ _ Hv).
Qed.

(** ** Lengths, and the fuel of the parser *)

Lemma span_spec (p : ascii -> bool) (s : str) :
  s = (span p s).1 ++ (span p s).2
  /\ forallb p (span p s).1 = true
  /\ match (span p s).2 with [] => True | c :: _ => p c = false end.
Proof.
  induction s as [|c s IH]; simpl; [easy |].
  destruct (p c) eqn:E.
  - destruct (span p s) as [a b]; simpl in *.
    destruct IH as (-> & Ha & Hb). rewrite E. auto.
  - simpl. auto.
Qed.

Lemma span_length (p : ascii -> bool) (s : str) :
  length (span p s).1 + length (span p s).2 = length s.
Proof.
  destruct (span_spec p s) as (H & _). rewrite H at 3. rewrite length_app. lia.
Qed.

Lemma lstrip_length s : length (lstrip s) <= length s.
Proof. unfold lstrip. pose proof (span_length is_space s). lia. Qed.

Lemma rstrip_length s : length (rstrip s) <= length s.
Proof.
  unfold rstrip. rewrite length_rev.
  pose proof (lstrip_length (rev s)) as H. rewrite length_rev in H. lia.
Qed.

Lemma strip_length s : length (strip s) <= length s.
Proof.
  unfold strip. pose proof (rstrip_length (lstrip s)).
  pose proof (lstrip_length s). lia.
Qed.

Lemma slice_length (s : str) (lo hi : Z) :
  (0 < lo)%Z -> s <> [] -> length (slice s lo hi) < length s.
Proof.
  intros Hlo Hs. unfold slice. rewrite length_take, length_drop.
  assert (0 < length s) by (destruct s; simpl; [easy | lia]).
  assert (0 < slice_bound (Z.of_nat (length s)) lo).
  { unfold slice_bound. destruct (Z.ltb_spec lo 0); lia. }
  lia.
Qed.

Lemma startswith_nonempty s c : startswith s c = true -> s <> [].
Proof. destruct s; easy. Qed.

Lemma drop1_length (s : str) : s <> [] -> length (drop 1 s) < length s.
Proof. destruct s; simpl; [easy | rewrite drop_0; lia]. Qed.

Ltac shorter Hlen :=
  first
    [ eapply Nat.lt_le_trans; [apply drop1_length | exact Hlen];
      eapply startswith_nonempty; eassumption
    | eapply Nat.lt_le_trans; [apply slice_length; [lia |] | exact Hlen];
      eapply startswith_nonempty; eassumption ].

Lemma parse_body_ext (rec1 rec2 : str -> option (outcome pyobj)) (s : str) :
  (forall t, length t < length s -> rec1 t = rec2 t) ->
  parse_body rec1 s = parse_body rec2 s.
Proof.
  intros H. unfold parse_body.
  pose proof (strip_length s) as Hlen. set (fs := strip s) in *.
  destruct (is_variable (PStr fs)); [reflexivity |].
  destruct (startswith fs "~") eqn:E1.
  { rewrite H by shorter Hlen. reflexivity. }
  destruct (startswith fs "(") eqn:E2; [| reflexivity].
  destruct (endswith fs ")"); [| reflexivity]. cbn [andb].
  destruct (scan fs _ 0 0) as [[k |] | e]; try reflexivity.
  destruct (slice fs 1 (Z.of_nat k)) as [| c1 l1] eqn:El; [reflexivity |].
  destruct (slice fs (Z.of_nat k + 3) (-1)) as [| c2 l2] eqn:Er; [reflexivity |].
  rewrite <- El, <- Er.
  rewrite (H (slice fs 1 (Z.of_nat k))) by shorter Hlen.
  rewrite (H (slice fs (Z.of_nat k + 3) (-1))) by shorter Hlen.
  reflexivity.
Qed.

Lemma parse_body_some (rec : str -> option (outcome pyobj)) (s : str) :
  (forall t, length t < length s -> is_Some (rec t)) ->
  is_Some (parse_body rec s).
Proof.
  intros H. unfold parse_body.
  pose proof (strip_length s) as Hlen. set (fs := strip s) in *.
  destruct (is_variable (PStr fs)); [eauto |].
  destruct (startswith fs "~") eqn:E1.
  { destruct (H (drop 1 fs)) as [[v | e] ->]; [shorter Hlen | eauto ..]. }
  destruct (startswith fs "(") eqn:E2; [| eauto].
  destruct (endswith fs ")"); [| eauto]. cbn [andb].
  destruct (scan fs _ 0 0) as [[k |] | e]; eauto.
  destruct (slice fs 1 (Z.of_nat k)) as [| c1 l1] eqn:El; [eauto |].
  destruct (slice fs (Z.of_nat k + 3) (-1)) as [| c2 l2] eqn:Er; [eauto |].
  rewrite <- El, <- Er.
  destruct (H (slice fs 1 (Z.of_nat k))) as [[l | e] ->]; [shorter Hlen | | eauto].
  destruct (H (slice fs (Z.of_nat k + 3) (-1))) as [[r | e] ->];
    [shorter Hlen | eauto ..].
Qed.

Lemma parse_fuel_enough (fuel : nat) (s : str) :
  length s < fuel -> is_Some (parse_fuel fuel s).
Proof.
  revert s; induction fuel as [| n IH]; intros s Hs; [lia |].
  simpl. apply parse_body_some. intros t Ht. apply IH. lia.
Qed.

Lemma parse_fuel_stable (n m : nat) (s : str) :
  length s < n -> length s < m -> parse_fuel n s = parse_fuel m s.
Proof.
  revert m s; induction n as [| n IH]; intros [| m] s Hn Hm; try lia.
  simpl. apply parse_body_ext. intros t Ht. apply IH; lia.
Qed.

Lemma parse_fuel_parse (fuel : nat) (s : str) :
  length s < fuel -> parse_fuel fuel s = Some (parse s).
Proof.
  intros H. unfold parse.
  rewrite (parse_fuel_stable fuel (S (length s))) by lia.
  destruct (parse_fuel_enough (S (length s)) s) as [r ->]; [lia | reflexivity].
Qed.

Lemma parse_unfold (s : str) :
  Some (parse s) = parse_body (fun t => Some (parse t)) s.
Proof.
  rewrite <- (parse_fuel_parse (S (length s))) by lia.
  simpl. apply parse_body_ext. intros t Ht. apply parse_fuel_parse. lia.
Qed.


(** ** The parser raises nothing but [ParserError] *)

Lemma char_at_in_range (s : str) (k : nat) :
  k < length s -> exists c, char_at s k = Ok c.
Proof.
  intros H. unfold char_at.
  destruct (nth_error s k) as [c |] eqn:E; [eauto |].
  apply nth_error_None in E. lia.
Qed.

Lemma scan_parser_only (fs interior : str) (i : nat) (balance : Z) :
  parser_only (scan fs interior i balance).
Proof.
  revert i balance; induction interior as [| char tl IH]; intros i balance;
    simpl; [exact I |].
  destruct (char =? "("); [apply IH |].
  destruct (char =? ")").
  { destruct (_ <? 0)%Z; [exact I | apply IH]. }
  destruct (char =? "-"); cbn [and_then bind]; [| apply IH].
  destruct (i + 2 <? length fs)%nat eqn:E; cbn [and_then bind]; [| apply IH].
  apply Nat.ltb_lt in E. destruct (char_at_in_range fs (i + 2) E) as [c ->].
  cbn [and_then bind].
  destruct (c =? ">"); cbn [and_then bind]; [| apply IH].
  destruct (balance =? 0)%Z; [exact I | apply IH].
Qed.

Lemma parse_body_parser_only (rec : str -> option (outcome pyobj)) (s : str) :
  (forall t r, rec t = Some r -> parser_only r) ->
  forall r, parse_body rec s = Some r -> parser_only r.
Proof.
  intros H r. unfold parse_body. set (fs := strip s).
  destruct (is_variable (PStr fs)); [intros [= <-]; exact I |].
  destruct (startswith fs "~").
  { destruct (rec (drop 1 fs)) as [[v | e] |] eqn:E; intros [= <-];
      [exact I | exact (H _ _ E)]. }
  destruct (_ && _); [| intros [= <-]; exact I].
  pose proof (scan_parser_only fs (slice fs 1 (-1)) 0 0) as Hs.
  destruct (scan fs _ 0 0) as [[k |] | e];
    [| intros [= <-]; exact I | intros [= <-]; exact Hs].
  destruct (slice fs 1 (Z.of_nat k)) as [| c1 l1]; [intros [= <-]; exact I |].
  destruct (slice fs (Z.of_nat k + 3) (-1)) as [| c2 l2];
    [intros [= <-]; exact I |].
  destruct (rec (c1 :: l1)) as [[l | e] |] eqn:El; [| intros [= <-] | easy].
  - destruct (rec (c2 :: l2)) as [[v | e] |] eqn:Er; intros [= <-];
      [exact I | exact (H _ _ Er)].
  - exact (H _ _ El).
Qed.

Lemma parse_fuel_parser_only (fuel : nat) (s : str) (r : outcome pyobj) :
  parse_fuel fuel s = Some r -> parser_only r.
Proof.
  revert s r; induction fuel as [| n IH]; intros s r; simpl; [easy |].
  apply parse_body_parser_only. exact IH.
Qed.

Lemma parse_parser_only (s : str) : parser_only (parse s).
Proof.
  unfold parse.
  destruct (parse_fuel (S (length s)) s) as [r |] eqn:E; simpl; [| exact I].
  exact (parse_fuel_parser_only _ _ _ E).
Qed.

(** ** Character classes *)

Lemma space_not_digit (c : ascii) : is_space c = true -> is_digit c = false.
Proof.
  unfold is_space, is_digit. intros H.
  destruct (N.leb_spec 48 (code c)), (N.leb_spec (code c) 57); try reflexivity.
  exfalso. revert H.
  rewrite !orb_true_iff, !andb_true_iff, !N.leb_le, !N.eqb_eq. lia.
Qed.

Lemma digit_not_space (c : ascii) : is_digit c = true -> is_space c = false.
Proof.
  intros H. destruct (is_space c) eqn:E; [| reflexivity].
  apply space_not_digit in E. congruence.
Qed.

Lemma space_is_not (c d : ascii) :
  is_space d = false -> is_space c = true -> (c =? d) = false.
Proof.
  intros Hd Hc. destruct (Ascii.eqb_spec c d); [congruence | reflexivity].
Qed.

Lemma digit_is_not (c d : ascii) :
  is_digit d = false -> is_digit c = true -> (c =? d) = false.
Proof.
  intros Hd Hc. destruct (Ascii.eqb_spec c d); [congruence | reflexivity].
Qed.

(** ** Greedy runs *)

Lemma span_app (p : ascii -> bool) (a b : str) :
  forallb p a = true ->
  match b with [] => True | c :: _ => p c = false end ->
  span p (a ++ b) = (a, b).
Proof.
  intros Ha Hb. induction a as [| c a IH]; simpl in *.
  - destruct b as [| c b]; [reflexivity |]. simpl. rewrite Hb. reflexivity.
  - apply andb_true_iff in Ha as [-> Ha]. rewrite (IH Ha). reflexivity.
Qed.

Lemma span_all (p : ascii -> bool) (a : str) :
  forallb p a = true -> span p a = (a, []).
Proof.
  intros H. rewrite <- (app_nil_r a) at 1. apply span_app; [exact H | exact I].
Qed.

Lemma span_stop (p : ascii -> bool) (c : ascii) (s : str) :
  p c = false -> span p (c :: s) = ([], c :: s).
Proof. intros H. simpl. rewrite H. reflexivity. Qed.

Lemma forallb_fst_span (p q : ascii -> bool) (s : str) :
  forallb q s = true -> forallb q (span p s).1 = true.
Proof.
  intros H. destruct (span_spec p s) as (E & _). rewrite E in H.
  rewrite forallb_app in H. apply andb_true_iff in H as [H _]. exact H.
Qed.

Lemma forallb_snd_span (p q : ascii -> bool) (s : str) :
  forallb q s = true -> forallb q (span p s).2 = true.
Proof.
  intros H. destruct (span_spec p s) as (E & _). rewrite E in H.
  rewrite forallb_app in H. apply andb_true_iff in H as [_ H]. exact H.
Qed.

(** ** [strip] *)

Lemma lstrip_head (s : str) :
  match lstrip s with [] => True | c :: _ => is_space c = false end.
Proof. unfold lstrip. apply span_spec. Qed.

Lemma lstrip_id (s : str) :
  match s with [] => True | c :: _ => is_space c = false end -> lstrip s = s.
Proof.
  intros H. unfold lstrip.
  pose proof (span_app is_space [] s eq_refl H) as E. simpl in E.
  rewrite E. reflexivity.
Qed.

Lemma lstrip_app (ws s : str) :
  forallb is_space ws = true ->
  match s with [] => True | c :: _ => is_space c = false end ->
  lstrip (ws ++ s) = s.
Proof. intros Hw Hs. unfold lstrip. rewrite span_app; auto. Qed.

Lemma lstrip_snoc (s : str) (c : ascii) :
  is_space c = false -> exists x, lstrip (s ++ [c]) = x ++ [c].
Proof.
  intros Hc. unfold lstrip. induction s as [| d s [x IH]]; simpl.
  - rewrite Hc. exists []. reflexivity.
  - destruct (is_space d).
    + destruct (span is_space (s ++ [c])) as [a b]. simpl in *. eauto.
    + exists (d :: s). reflexivity.
Qed.

Lemma rstrip_app (s ws : str) (c : ascii) :
  is_space c = false -> forallb is_space ws = true ->
  rstrip (s ++ [c] ++ ws) = s ++ [c].
Proof.
  intros Hc Hw. unfold rstrip.
  assert (E : rev (s ++ [c] ++ ws) = rev ws ++ c :: rev s).
  { rewrite !rev_app_distr. simpl. rewrite <- app_assoc. reflexivity. }
  rewrite E, lstrip_app.
  - simpl. rewrite rev_involutive. reflexivity.
  - rewrite forallb_forall in *. intros x Hx. apply Hw.
    apply in_rev. exact Hx.
  - exact Hc.
Qed.

Lemma rstrip_head (s : str) (c : ascii) :
  is_space c = false -> exists x, rstrip (c :: s) = c :: x.
Proof.
  intros Hc. unfold rstrip. simpl rev.
  destruct (lstrip_snoc (rev s) c Hc) as [x ->].
  rewrite rev_app_distr. simpl. eauto.
Qed.

Lemma rstrip_last (s : str) :
  match rev (rstrip s) with [] => True | c :: _ => is_space c = false end.
Proof. unfold rstrip. rewrite rev_involutive. apply lstrip_head. Qed.

Lemma strip_head (s : str) :
  match strip s with [] => True | c :: _ => is_space c = false end.
Proof.
  unfold strip. pose proof (lstrip_head s) as H.
  destruct (lstrip s) as [| c u]; [exact I |].
  destruct (rstrip_head u c H) as [x ->]. exact H.
Qed.

Lemma strip_last (s : str) :
  match rev (strip s) with [] => True | c :: _ => is_space c = false end.
Proof. unfold strip. apply rstrip_last. Qed.

(** Stripping a text that neither starts nor ends with white space, written
    between two runs of white space. *)
Lemma strip_core (w0 w1 s : str) (c d : ascii) :
  forallb is_space w0 = true -> forallb is_space w1 = true ->
  is_space c = false -> is_space d = false ->
  strip (w0 ++ (c :: s ++ [d]) ++ w1) = c :: s ++ [d].
Proof.
  intros H0 H1 Hc Hd. unfold strip.
  rewrite lstrip_app; [| exact H0 | exact Hc].
  assert (E : (c :: s ++ [d]) ++ w1 = (c :: s) ++ [d] ++ w1).
  { simpl. rewrite <- app_assoc. reflexivity. }
  rewrite E, rstrip_app by assumption. reflexivity.
Qed.


(** ** The justification pattern *)

Lemma remove_prefix_spec (p s r : str) :
  remove_prefix p s = Some r -> s = p ++ r.
Proof.
  revert s; induction p as [| c p IH]; intros [| d s]; simpl; try easy.
  - congruence.
  - congruence.
  - destruct (Ascii.eqb_spec d c); [| easy]. subst d. intros H. f_equal. auto.
Qed.

Lemma remove_prefix_app (p r : str) : remove_prefix p (p ++ r) = Some r.
Proof.
  induction p as [| c p IH]; simpl; [reflexivity |].
  rewrite Ascii.eqb_refl. exact IH.
Qed.

Lemma at_end_spec (s : str) : at_end s = true -> s = [] \/ s = ["010"].
Proof.
  destruct s as [| c [| d s]]; simpl; try easy; auto.
  intros H%Ascii.eqb_eq. subst. auto.
Qed.

Lemma span_pair (p : ascii -> bool) (s a b : str) :
  span p s = (a, b) ->
  s = a ++ b /\ forallb p a = true
  /\ match b with [] => True | c :: _ => p c = false end.
Proof. intros E. pose proof (span_spec p s) as H. rewrite E in H. exact H. Qed.

(** What the group of the pattern matches at the head of [t] is a
    justification token, and [t] holds nothing after it but, at most, a
    final line feed. *)
Lemma match_token_spec (t tok : str) :
  match_token t = Some tok ->
  justification_token tok /\ (t = tok \/ t = tok ++ ["010"]).
Proof.
  unfold match_token.
  destruct (alt_premise t) as [g |] eqn:E1.
  { intros [= ->]. unfold alt_premise in E1.
    destruct (remove_prefix _ t) as [r |] eqn:Ep; simpl in E1; [| easy].
    apply remove_prefix_spec in Ep as ->.
    destruct (at_end r) eqn:Ee; [| easy]. injection E1 as <-.
    split; [constructor |].
    apply at_end_spec in Ee as [-> | ->]; [left | right]; reflexivity. }
  destruct (alt_ax t) as [g |] eqn:E2.
  { intros [= ->]. unfold alt_ax in E2.
    destruct (remove_prefix _ t) as [r |] eqn:Ep; simpl in E2; [| easy].
    apply remove_prefix_spec in Ep as ->.
    destruct r as [| c r]; [easy |].
    destruct (_ && _) eqn:Eb; [| easy]. injection E2 as <-.
    apply andb_true_iff in Eb as [Hc Ee].
    split.
    - constructor. rewrite !orb_true_iff, !Ascii.eqb_eq in Hc. tauto.
    - apply at_end_spec in Ee as [-> | ->]; [left | right]; reflexivity. }
  unfold alt_mp. intros E3.
  destruct (remove_prefix _ t) as [r |] eqn:Ep; simpl in E3; [| easy].
  apply remove_prefix_spec in Ep as ->.
  destruct (span is_space r) as [ws r1] eqn:Es.
  destruct (span is_digit r1) as [d1 r2] eqn:Ed1.
  destruct d1 as [| x d1]; [easy |].
  destruct r2 as [| c r3]; [easy |].
  destruct (Ascii.eqb_spec c ","); [subst c | easy].
  destruct (span is_digit r3) as [d2 r4] eqn:Ed2.
  destruct d2 as [| y d2]; [easy |].
  destruct (at_end r4) eqn:Ee; [| easy]. injection E3 as <-.
  apply span_pair in Es as (-> & Hws & _).
  apply span_pair in Ed1 as (-> & Hd1 & _).
  apply span_pair in Ed2 as (-> & Hd2 & _).
  split.
  { exact (token_mp ws (x :: d1) (y :: d2) Hws ltac:(easy) Hd1
                    ltac:(easy) Hd2). }
  apply at_end_spec in Ee as [-> | ->]; [left | right].
  - rewrite app_nil_r. reflexivity.
  -     simpl. rewrite <- app_assoc. simpl. rewrite <- app_assoc. reflexivity.
Qed.

Lemma forallb_last (p : ascii -> bool) (s : str) :
  s <> [] -> forallb p s = true -> exists s' d, s = s' ++ [d] /\ p d = true.
Proof.
  intros Hs H. destruct (exists_last Hs) as (s' & d & ->).
  rewrite forallb_app in H. apply andb_true_iff in H as [_ H]. simpl in H.
  rewrite andb_true_r in H. eauto.
Qed.

(** A justification token neither starts nor ends with white space. *)
Lemma justification_token_ends (tok : str) :
  justification_token tok ->
  exists c s d, tok = c :: s ++ [d] /\ is_space c = false /\ is_space d = false.
Proof.
  intros [| c Hc | ws d1 d2 Hws Hn1 Hd1 Hn2 Hd2].
  - exists "P", (py "remis"), "e". auto.
  - exists "A", (py "X"), c. split; [reflexivity | split; [reflexivity |]].
    destruct Hc as [-> | [-> | ->]]; reflexivity.
  - destruct (forallb_last _ _ Hn2 Hd2) as (s' & d & -> & Hd).
    exists "M", (py "P" ++ ws ++ d1 ++ py "," ++ s'), d.
    split; [| split; [reflexivity | apply digit_not_space; exact Hd]].
    simpl. rewrite <- !app_assoc. reflexivity.
Qed.

Lemma strip_token (w0 w1 tok : str) :
  forallb is_space w0 = true -> forallb is_space w1 = true ->
  justification_token tok -> strip (w0 ++ tok ++ w1) = tok.
Proof.
  intros H0 H1 (c & s & d & -> & Hc & Hd)%justification_token_ends.
  apply strip_core; assumption.
Qed.

Lemma match_justification_here_spec (s g : str) :
  match_justification_here s = Some g ->
  exists ws tok,
    g = ws ++ tok /\ ws <> [] /\ forallb is_space ws = true
    /\ justification_token tok /\ (s = g \/ s = g ++ ["010"]).
Proof.
  unfold match_justification_here.
  destruct (span is_space s) as [ws t] eqn:Es.
  destruct ws as [| w ws]; [easy |].
  destruct (match_token t) as [tok |] eqn:Et; simpl; [| easy].
  intros [= <-]. apply span_pair in Es as (-> & Hws & _).
  apply match_token_spec in Et as [Htok Ht].
  exists (w :: ws), tok. repeat split; try easy.
  destruct Ht as [-> | ->]; [left; reflexivity | right].
  simpl. rewrite app_assoc. reflexivity.
Qed.

Lemma search_justification_spec (s : str) (k start : nat) (g : str) :
  search_justification s k = Some (start, g) ->
  exists ws tok,
    g = ws ++ tok /\ ws <> [] /\ forallb is_space ws = true
    /\ justification_token tok
    /\ k <= start
    /\ (drop (start - k) s = g \/ drop (start - k) s = g ++ ["010"]).
Proof.
  revert k; induction s as [| c s IH]; intros k; simpl.
  - destruct (match_justification_here []) eqn:E; [| easy]. easy.
  - destruct (match_justification_here (c :: s)) as [g' |] eqn:E.
    + intros [= <- <-].
      apply match_justification_here_spec in E
        as (ws & tok & -> & ? & ? & ? & Hs).
      exists ws, tok. rewrite Nat.sub_diag, drop_0. repeat split; auto.
    + intros H. apply IH in H as (ws & tok & -> & ? & ? & ? & Hk & Hd).
      exists ws, tok. repeat split; auto; [lia |].
      replace (start - k) with (S (start - S k)) by lia. exact Hd.
Qed.

Lemma search_justification_strip (s : str) (k start : nat) (g : str) :
  search_justification s k = Some (start, g) -> justification_token (strip g).
Proof.
  intros (ws & tok & -> & _ & Hws & Htok & _)%search_justification_spec.
  rewrite <- (app_nil_r tok) at 1. rewrite strip_token; auto.
Qed.


(** ** The justification dispatch *)

Lemma detaches_spec (f g current_formula : pyobj) :
  exists b,
    detaches f g current_formula = Ok b
    /\ (b = true <-> f = imp g current_formula).
Proof.
  unfold detaches. probe f.
  - exists (py_eqb x g && py_eqb x0 current_formula). split.
    + run_matcher. destruct (py_eqb x g); reflexivity.
    + rewrite andb_true_iff, !py_eqb_eq. unfold imp. split.
      * intros [-> ->]; reflexivity.
      * intros [= -> ->]; auto.
  - exists false. split; [run_matcher; reflexivity |].
    split; [easy |]. intros ->. discriminate.
Qed.

Lemma match_mp_prefix (justification si sj : str) :
  match_mp justification = Some (si, sj) ->
  exists r, justification = "M" :: "P" :: r.
Proof.
  unfold match_mp.
  destruct (remove_prefix _ justification) as [r |] eqn:E; [| easy].
  apply remove_prefix_spec in E as ->. eauto.
Qed.

Lemma match_mp_token (tok : str) :
  justification_token tok -> startswith_str tok (py "MP") = true ->
  exists si sj, match_mp tok = Some (si, sj).
Proof.
  intros [| c Hc | ws d1 d2 Hws Hn1 Hd1 Hn2 Hd2] Hs; [easy | easy |].
  exists d1, d2. unfold match_mp. rewrite remove_prefix_app. simpl.
  destruct d1 as [| x d1]; [easy |]. destruct d2 as [| y d2]; [easy |].
  rewrite (span_app is_space ws); [| exact Hws |].
  2:{ simpl in Hd1. apply andb_true_iff in Hd1 as [Hx _].
      apply digit_not_space. exact Hx. }
  rewrite (span_app is_digit (x :: d1)); [| exact Hd1 | reflexivity].
  rewrite (span_all is_digit (y :: d2) Hd2). reflexivity.
Qed.

(** The dispatch on a Modus Ponens justification: the line is valid exactly
    when both cited numbers are smaller than its own, both are keys of the
    mapping, and one of the two cited formulas is the implication from the
    other to the current formula. *)
Lemma check_justification_mp (proven_formulas : gmap N pyobj) (line_num : N)
    (justification si sj : str) (current_formula : pyobj) :
  match_mp justification = Some (si, sj) ->
  exists is_valid error_detail,
    check_justification proven_formulas line_num justification current_formula
    = Ok (is_valid, error_detail)
    /\ (is_valid = true
        <-> (int si < line_num)%N /\ (int sj < line_num)%N
            /\ exists f_i f_j,
                 proven_formulas !! int si = Some f_i
                 /\ proven_formulas !! int sj = Some f_j
                 /\ (f_j = imp f_i current_formula
                     \/ f_i = imp f_j current_formula)).
Proof.
  intros Hmp. destruct (match_mp_prefix _ _ _ Hmp) as [r ->].
  unfold check_justification. cbn [str_eqb py list_ascii_of_string].
  replace (startswith_str _ _) with true by reflexivity.
  cbn [Ascii.eqb Bool.eqb andb]. rewrite Hmp.
  destruct (N.leb_spec line_num (int si)) as [Hi | Hi].
  { do 2 eexists. split; [reflexivity |]. split; [easy | lia]. }
  destruct (N.leb_spec line_num (int sj)) as [Hj | Hj].
  { do 2 eexists. split; [reflexivity |]. split; [easy | lia]. }
  cbn [orb].
  destruct (proven_formulas !! int si) as [f_i |] eqn:Ei.
  2:{ do 2 eexists. split; [reflexivity |]. split; [easy |].
      intros (_ & _ & ? & ? & ? & _). easy. }
  destruct (proven_formulas !! int sj) as [f_j |] eqn:Ej.
  2:{ do 2 eexists. split; [reflexivity |]. split; [easy |].
      intros (_ & _ & ? & ? & _ & ? & _). easy. }
  destruct (detaches_spec f_j f_i current_formula) as (b1 & E1 & H1).
  destruct (detaches_spec f_i f_j current_formula) as (b2 & E2 & H2).
  unfold or_else. rewrite E1. cbn [bind].
  destruct b1.
  - do 2 eexists. split; [reflexivity |]. split; [| easy].
    intros _. repeat split; try lia. exists f_i, f_j.
    repeat split. left. apply H1. reflexivity.
  - rewrite E2. cbn [bind]. destruct b2.
    + do 2 eexists. split; [reflexivity |]. split; [| easy].
      intros _. repeat split; try lia. exists f_i, f_j.
      repeat split. right. apply H2. reflexivity.
    + do 2 eexists. split; [reflexivity |]. split; [easy |].
      intros (_ & _ & f_i' & f_j' & [= <-] & [= <-] & [H | H]).
      * apply H1 in H. easy.
      * apply H2 in H. easy.
Qed.

(** On a justification token the dispatch raises nothing. *)
Lemma check_justification_total (proven_formulas : gmap N pyobj) (line_num : N)
    (justification : str) (current_formula : pyobj) :
  justification_token justification ->
  exists r,
    check_justification proven_formulas line_num justification current_formula
    = Ok r.
Proof.
  intros Htok.
  destruct (startswith_str justification (py "MP")) eqn:Hs.
  - destruct (match_mp_token _ Htok Hs) as (si & sj & Hmp).
    destruct (check_justification_mp proven_formulas line_num justification
                si sj current_formula Hmp) as (b & d & -> & _).
    eauto.
  - unfold check_justification. rewrite Hs.
    destruct (is_axiom1_total current_formula) as [b1 ->].
    destruct (is_axiom2_total current_formula) as [b2 ->].
    destruct (is_axiom3_total current_formula) as [b3 ->].
    cbn [bind].
    repeat match goal with |- context [if ?c then _ else _] => destruct c end;
      eauto.
Qed.


(** ** One line of the proof *)

Lemma match_line_nonblank (t : str) (x : str * str) :
  match_line t = Some x -> bool_decide (t = []) || startswith t "#" = false.
Proof.
  destruct t as [| c t]; [easy |].
  rewrite bool_decide_eq_false_2 by easy. simpl.
  destruct (Ascii.eqb_spec c "#"); [subst c | reflexivity].
  unfold match_line. simpl. easy.
Qed.

(** A line on which a number, a justification and a formula are read:
    what is left is the dispatch on the justification. *)
Lemma process_line_checked (proven_formulas : gmap N pyobj)
    (line_text line_num_str rest_of_line group0 : str) (start : nat)
    (current_formula : pyobj) :
  match_line (strip line_text) = Some (line_num_str, rest_of_line) ->
  search_justification rest_of_line 0 = Some (start, group0) ->
  parse (strip (take start rest_of_line)) = Ok current_formula ->
  process_line proven_formulas line_text
  = (checked <- check_justification proven_formulas (int line_num_str)
                  (strip group0) current_formula ;;
     let '(is_valid, error_detail) := checked in
     if is_valid : bool then
       Ok (Continue (<[int line_num_str := current_formula]> proven_formulas))
     else
       Ok (Return (InvalidJustification (int line_num_str)
                     (strip (take start rest_of_line)) error_detail))).
Proof.
  intros H1 H2 H3. unfold process_line.
  rewrite (match_line_nonblank _ _ H1), H1, H2, H3. reflexivity.
Qed.

(** One line never raises.  When the loop goes on, the mapping is the same
    or has the number read on the line bound to a formula; when it stops,
    the verdict is a failure on that line. *)
Lemma process_line_total (proven_formulas : gmap N pyobj) (line_text : str) :
  exists s,
    process_line proven_formulas line_text = Ok s
    /\ match s with
       | Continue proven_formulas' =>
           proven_formulas' = proven_formulas
           \/ exists line_num f,
                line_number line_text = Some line_num
                /\ proven_formulas' = <[line_num := f]> proven_formulas
       | Return v => reported_at v line_text
       end.
Proof.
  unfold process_line. set (t := strip line_text).
  destruct (_ || _); [eexists; split; [reflexivity | left; reflexivity] |].
  destruct (match_line t) as [[ds rest] |] eqn:E1.
  2:{ eexists. split; [reflexivity |]. simpl. fold t. unfold line_number.
      fold t. rewrite E1. auto. }
  assert (Hn : line_number line_text = Some (int ds)).
  { unfold line_number. fold t. rewrite E1. reflexivity. }
  destruct (search_justification rest 0) as [[start g] |] eqn:E2.
  2:{ eexists. split; [reflexivity |]. simpl. auto. }
  pose proof (parse_parser_only (strip (take start rest))) as Hp.
  destruct (parse _) as [f | [e | | |]]; try easy.
  2:{ eexists. split; [reflexivity |]. simpl. auto. }
  destruct (check_justification_total proven_formulas (int ds) (strip g) f
              (search_justification_strip _ _ _ _ E2)) as [[b d] ->].
  cbn [bind]. destruct b; eexists; (split; [reflexivity |]); simpl; eauto.
Qed.

Lemma run_total (proof_content : list str) (proven_formulas : gmap N pyobj) :
  exists s,
    run proven_formulas proof_content = Ok s
    /\ forall v, s = Return v ->
         exists line_text, line_text ∈ proof_content /\ reported_at v line_text.
Proof.
  revert proven_formulas;
    induction proof_content as [| line_text rest IH]; intros proven_formulas;
    simpl.
  - eexists. split; [reflexivity | easy].
  - destruct (process_line_total proven_formulas line_text)
      as ([proven_formulas' | v] & -> & H); cbn [bind].
    + destruct (IH proven_formulas') as (s & -> & Hs).
      eexists. split; [reflexivity |].
      intros v Hv. destruct (Hs v Hv) as (l & Hl & Hr).
      exists l. split; [right; exact Hl | exact Hr].
    + eexists. split; [reflexivity |]. intros v' [= <-].
      exists line_text. split; [left | exact H].
Qed.

(** C1. A line whose justification is [MP i,j], read with the mapping
    [proven_formulas], is valid (the loop goes on with the line's formula
    recorded under its number) if and only if [i] and [j] are both strictly
    smaller than the line's number, both are keys of the mapping, and either
    the formula proven at [j] is the implication from the formula proven at
    [i] to the line's formula, or the same with [i] and [j] swapped. *)
Theorem modus_ponens_valid_iff (proven_formulas : gmap N pyobj)
    (line_text line_num_str rest_of_line group0 si sj : str) (start : nat)
    (current_formula : pyobj) :
  match_line (strip line_text) = Some (line_num_str, rest_of_line) ->
  search_justification rest_of_line 0 = Some (start, group0) ->
  match_mp (strip group0) = Some (si, sj) ->
  parse (strip (take start rest_of_line)) = Ok current_formula ->
  process_line proven_formulas line_text
  = Ok (Continue (<[int line_num_str := current_formula]> proven_formulas))
  <-> (int si < int line_num_str)%N /\ (int sj < int line_num_str)%N
      /\ is_Some (proven_formulas !! int si)
      /\ is_Some (proven_formulas !! int sj)
      /\ exists f_i f_j,
           proven_formulas !! int si = Some f_i
           /\ proven_formulas !! int sj = Some f_j
           /\ (f_j = imp f_i current_formula
               \/ f_i = imp f_j current_formula).
Proof.
  intros H1 H2 H3 H4.
  rewrite (process_line_checked _ _ _ _ _ _ _ H1 H2 H4).
  destruct (check_justification_mp proven_formulas (int line_num_str)
              (strip group0) si sj current_formula H3)
    as (is_valid & error_detail & -> & Hv).
  cbn [bind]. destruct is_valid.
  - split; [intros _ | reflexivity].
    destruct Hv as [(Hi & Hj & f_i & f_j & Ei & Ej & Hf) _]; [reflexivity |].
    repeat split; try assumption; eauto.
  - split; [easy |].
    intros (Hi & Hj & _ & _ & Hf).
    destruct Hv as [_ Hv]. discriminate Hv. auto.
Qed.

Lemma modus_ponens_valid_iff_witness :
  process_line (<[2%N := imp (PStr (py "A")) (PStr (py "B"))]>
                  (<[1%N := PStr (py "A")]> ∅))
               (py "3. B MP 2,1")
  = Ok (Continue
          (<[int (py "3") := PStr (py "B")]>
             (<[2%N := imp (PStr (py "A")) (PStr (py "B"))]>
                (<[1%N := PStr (py "A")]> ∅)))).
Proof.
  apply (modus_ponens_valid_iff _ (py "3. B MP 2,1") (py "3") (py "B MP 2,1")
           (py " MP 2,1") (py "2") (py "1") 1 (PStr (py "B")));
    try reflexivity.
  repeat split; try (vm_compute; reflexivity); try (eexists; reflexivity).
  exists (imp (PStr (py "A")) (PStr (py "B"))), (PStr (py "A")).
  repeat split. right. reflexivity.
Defined.

(** C5, counterexample. A line without a readable number fails the proof
    with a verdict that carries no line number. *)
Lemma invalid_line_format_has_no_number :
  verify_proof [py "A Premise"] = Ok (InvalidLineFormat (py "A Premise"))
  /\ reported_line (InvalidLineFormat (py "A Premise")) = None.
Proof. split; reflexivity. Qed.


(** ** The split of an implication *)

(** C4, the code at the failing input. In [(A->B)] the first [->] at depth
    zero is found, at index 2, with the non-empty operands [A] and [B] on
    its sides; but the right operand is cut from index [split_index + 3],
    one character too far, so it comes out empty and [parse] raises.  In
    [(A->~B)] the same cut drops the negation sign. *)
Theorem parse_cuts_right_operand_one_too_far :
  scan (py "(A->B)") (slice (py "(A->B)") 1 (-1)) 0 0 = Ok (Some 2%nat)
  /\ slice (py "(A->B)") 1 2 = py "A"
  /\ slice (py "(A->B)") (2 + 3) (-1) = []
  /\ parse (py "(A->B)")
     = Raise (ParserError (MalformedImplication (py "(A->B)")))
  /\ parse (py "(A->~B)") = Ok (encode (Imp (Var "A") (Var "B"))).
Proof. repeat split; vm_compute; reflexivity. Qed.

(** C9, the code at the failing input. White space after [~] and just
    inside the parentheses does not change the term, and [( A -> B )] is
    parsed to the implication; but [(A->B)], without white space after the
    arrow, is not parsed to the same term: [parse] raises on it. *)
Theorem parse_needs_a_character_after_arrow :
  parse (py "~ A") = Ok (encode (Neg (Var "A")))
  /\ parse (py "~A") = Ok (encode (Neg (Var "A")))
  /\ parse (py "( A -> B )") = Ok (encode (Imp (Var "A") (Var "B")))
  /\ parse (py "(A->B)")
     = Raise (ParserError (MalformedImplication (py "(A->B)"))).
Proof. repeat split; vm_compute; reflexivity. Qed.

(** ** The mapping of proven formulas *)

Lemma run_cons (proven_formulas : gmap N pyobj) (line_text : str)
    (rest : list str) (final : gmap N pyobj) :
  run proven_formulas (line_text :: rest) = Ok (Continue final) ->
  exists proven_formulas',
    process_line proven_formulas line_text = Ok (Continue proven_formulas')
    /\ run proven_formulas' rest = Ok (Continue final).
Proof.
  simpl. destruct (process_line proven_formulas line_text) as [[m | v] | e];
    cbn [bind]; try easy. eauto.
Qed.

(** C7, counterexample. A second valid line numbered 1 replaces the formula
    bound to 1 by the first: the mapping after the first line is not a
    sub-mapping of the mapping after the second. *)
Lemma rebinding_replaces_formula :
  exists m1 m2 : gmap N pyobj,
    run ∅ [py "1. A Premise"] = Ok (Continue m1)
    /\ run m1 [py "1. B Premise"] = Ok (Continue m2)
    /\ m1 !! 1%N = Some (PStr (py "A"))
    /\ m2 !! 1%N = Some (PStr (py "B"))
    /\ ~ m1 ⊆ m2.
Proof.
  exists (<[1%N := PStr (py "A")]> ∅), (<[1%N := PStr (py "B")]> ∅).
  repeat split; try (vm_compute; reflexivity).
  intros H. rewrite map_subseteq_spec in H.
  specialize (H 1%N (PStr (py "A")) eq_refl). discriminate H.
Qed.


(** ** The line format *)

Lemma space_is_dot_or_newline (c : ascii) :
  is_space c = false -> is_dot c = true.
Proof.
  intros H. unfold is_dot. destruct (Ascii.eqb_spec c "010"); [| reflexivity].
  subst c. discriminate H.
Qed.

(** A text all of white space has no last character that is not. *)
Lemma all_space_last (s : str) :
  forallb is_space s = true ->
  match rev s with [] => True | c :: _ => is_space c = true end.
Proof.
  intros H. destruct (rev s) as [| c r] eqn:E; [exact I |].
  rewrite forallb_forall in H. apply H. apply in_rev. rewrite E. left.
  reflexivity.
Qed.

(** On a stripped text: the line pattern matches exactly a non-empty run of
    digits, a dot, and at least one more character. *)
Lemma match_line_some (t ds r : str) :
  match rev t with [] => True | c :: _ => is_space c = false end ->
  ds <> [] -> forallb is_digit ds = true -> r <> [] ->
  t = ds ++ "." :: r ->
  exists rest_of_line, match_line t = Some (ds, rest_of_line).
Proof.
  intros Hlast Hn Hd Hr ->. unfold match_line.
  destruct ds as [| x ds]; [easy |].
  assert (Hx : is_space x = false).
  { simpl in Hd. apply andb_true_iff in Hd as [Hx _].
    apply digit_not_space. exact Hx. }
  change ((x :: ds) ++ "." :: r) with (x :: ds ++ "." :: r).
  rewrite (span_stop is_space x _ Hx).
  change (x :: ds ++ "." :: r) with ((x :: ds) ++ "." :: r).
  rewrite (span_app is_digit (x :: ds) ("." :: r) Hd eq_refl).
  cbn [Ascii.eqb Bool.eqb]. change ("." =? ".") with true. cbv iota.
  destruct (span is_space r) as [ws s4] eqn:Es.
  apply span_pair in Es as (-> & Hws & Hs4).
  destruct s4 as [| c s4].
  - exfalso. rewrite app_nil_r in *.
    assert (E : rev ((x :: ds) ++ "." :: ws) = rev ws ++ rev ((x :: ds) ++ ["."])).
    { rewrite <- rev_app_distr, <- app_assoc. reflexivity. }
    rewrite E in Hlast. pose proof (all_space_last ws Hws) as Hl.
    destruct (rev ws) as [| c rw] eqn:Ew.
    + apply (f_equal (@rev ascii)) in Ew. rewrite rev_involutive in Ew.
      simpl in Ew. easy.
    + simpl in Hlast. congruence.
  - simpl. rewrite (space_is_dot_or_newline c Hs4).
    destruct (span is_dot s4) as [a b]. simpl. eauto.
Qed.

Lemma match_line_inv (t ds rest_of_line : str) :
  match_line t = Some (ds, rest_of_line) ->
  exists ws r,
    t = ws ++ ds ++ "." :: r /\ forallb is_space ws = true
    /\ ds <> [] /\ forallb is_digit ds = true /\ r <> [].
Proof.
  unfold match_line.
  destruct (span is_space t) as [ws s1] eqn:E0.
  destruct (span is_digit s1) as [ds' s2] eqn:E1.
  destruct ds' as [| x ds']; [easy |].
  destruct s2 as [| c s3]; [easy |].
  destruct (Ascii.eqb_spec c "."); [subst c | easy].
  destruct (span is_space s3) as [ws' s4] eqn:E2.
  apply span_pair in E0 as (-> & Hws & _).
  apply span_pair in E1 as (-> & Hds & _).
  intros H. assert (ds = x :: ds' /\ s3 <> []) as [-> Hs3].
  { destruct (span is_dot s4).1 as [| y ys] eqn:E3.
    - destruct (List.filter is_dot (rev ws')) as [| d fs] eqn:E4; [easy |].
      injection H as <- <-. split; [reflexivity |].
      apply span_pair in E2 as (-> & _ & _).
      intros Hnil. apply app_eq_nil in Hnil as [-> _]. discriminate E4.
    - injection H as <- <-. split; [reflexivity |].
      apply span_pair in E2 as (-> & _ & _).
      intros Hnil. apply app_eq_nil in Hnil as [_ ->]. discriminate E3. }
  exists ws, s3. repeat split; easy.
Qed.

(** C6, as the code has it. A non-blank, non-comment line fails with the
    invalid-line-format error exactly when its stripped text is not a
    non-empty run of decimal digits, a dot and at least one more character;
    nothing asks the digits to denote a positive number. *)
Theorem invalid_line_format_iff (proven_formulas : gmap N pyobj)
    (line_text : str) :
  strip line_text <> [] ->
  startswith (strip line_text) "#" = false ->
  process_line proven_formulas line_text
  = Ok (Return (InvalidLineFormat (strip line_text)))
  <-> ~ exists ds r,
          ds <> [] /\ forallb is_digit ds = true /\ r <> []
          /\ strip line_text = ds ++ "." :: r.
Proof.
  intros Hblank Hcomment.
  pose proof (strip_head line_text) as Hhead.
  pose proof (strip_last line_text) as Hlast.
  unfold process_line. set (t := strip line_text) in *.
  rewrite bool_decide_eq_false_2 by exact Hblank. rewrite Hcomment.
  cbn [orb]. split.
  - intros H (ds & r & Hn & Hd & Hr & Ht).
    destruct (match_line_some t ds r Hlast Hn Hd Hr Ht) as [rest E].
    rewrite E in H.
    destruct (search_justification rest 0) as [[start g] |]; [| easy].
    destruct (parse _) as [f | [e | | |]]; try easy.
    destruct (check_justification _ _ _ _) as [[[] d] | e]; easy.
  - intros H. destruct (match_line t) as [[ds rest] |] eqn:E; [| reflexivity].
    exfalso. apply H.
    apply match_line_inv in E as (ws & r & Ht & Hws & Hn & Hd & Hr).
    exists ds, r. repeat split; try assumption.
    destruct ws as [| w ws]; [exact Ht |].
    rewrite Ht in Hhead. simpl in Hhead, Hws.
    apply andb_true_iff in Hws as [Hw _]. congruence.
Qed.

Lemma invalid_line_format_iff_witness :
  process_line ∅ (py " x. A Premise ")
  = Ok (Return (InvalidLineFormat (strip (py " x. A Premise ")))).
Proof.
  apply (invalid_line_format_iff ∅ (py " x. A Premise ")).
  - vm_compute. discriminate.
  - vm_compute. reflexivity.
  - intros (ds & r & Hn & Hd & _ & Ht). vm_compute in Ht.
    destruct ds as [| x ds]; [apply Hn; reflexivity |].
    injection Ht as <- _. vm_compute in Hd. discriminate Hd.
Defined.

(** C6, counterexample. The line [0. A Premise] is accepted: the proof made
    of it is valid, with the premise recorded under the number 0. *)
Lemma line_number_zero_is_accepted :
  verify_proof [py "0. A Premise"] = Ok Valid
  /\ process_line ∅ (py "0. A Premise")
     = Ok (Continue (<[0%N := PStr (py "A")]> ∅)).
Proof. split; vm_compute; reflexivity. Qed.


(** ** A justification with no formula before it *)

Lemma match_token_none (t : str) :
  match t with
  | [] => True
  | c :: _ => is_space c || is_digit c || (c =? ",") = true
  end ->
  match_token t = None.
Proof.
  destruct t as [| c t]; [reflexivity |]. intros H.
  unfold match_token, alt_premise, alt_ax, alt_mp.
  cbn [remove_prefix py list_ascii_of_string].
  destruct (Ascii.eqb_spec c "P"); [subst c; discriminate H |].
  destruct (Ascii.eqb_spec c "A"); [subst c; discriminate H |].
  destruct (Ascii.eqb_spec c "M"); [subst c; discriminate H |].
  reflexivity.
Qed.

Lemma match_justification_here_none (s : str) :
  forallb (fun c => is_space c || is_digit c || (c =? ",")) s = true ->
  match_justification_here s = None.
Proof.
  intros H. unfold match_justification_here.
  pose proof (forallb_snd_span is_space _ s H) as Ht.
  destruct (span is_space s) as [ws t]. simpl in Ht.
  destruct ws as [| w ws]; [reflexivity |].
  rewrite match_token_none; [reflexivity |].
  destruct t as [| c t]; [exact I |].
  simpl in Ht. apply andb_true_iff in Ht as [Hc _]. exact Hc.
Qed.

Lemma search_justification_none (s : str) (k : nat) :
  forallb (fun c => is_space c || is_digit c || (c =? ",")) s = true ->
  search_justification s k = None.
Proof.
  revert k; induction s as [| c s IH]; intros k H.
  - reflexivity.
  - cbn [search_justification].
    rewrite (match_justification_here_none _ H).
    simpl in H. apply andb_true_iff in H as [_ H]. apply IH. exact H.
Qed.

Lemma forallb_impl (p q : ascii -> bool) (s : str) :
  (forall c, p c = true -> q c = true) ->
  forallb p s = true -> forallb q s = true.
Proof.
  intros Hpq. rewrite !forallb_forall. auto.
Qed.

(** With nothing but a justification token after the number, the line
    pattern leaves the token up to its first line feed, in which no
    justification is found. *)
Lemma search_in_token (tok : str) :
  justification_token tok ->
  (span is_dot tok).1 <> []
  /\ search_justification (span is_dot tok).1 0 = None.
Proof.
  intros [| c Hc | ws d1 d2 Hws Hn1 Hd1 Hn2 Hd2].
  - split; [easy | reflexivity].
  - destruct Hc as [-> | [-> | ->]]; (split; [easy | reflexivity]).
  - set (r := ws ++ d1 ++ py "," ++ d2).
    change (py "MP" ++ r) with ("M" :: "P" :: r).
    assert (E : (span is_dot ("M" :: "P" :: r)).1
                = "M" :: "P" :: (span is_dot r).1).
    { simpl. destruct (span is_dot r). reflexivity. }
    rewrite E. split; [easy |].
    assert (Hhere : forall u, match_justification_here ("M" :: u) = None
                              /\ match_justification_here ("P" :: u) = None).
    { intros u. split; reflexivity. }
    cbn [search_justification].
    rewrite (proj1 (Hhere _)), (proj2 (Hhere _)).
    apply search_justification_none.
    apply forallb_fst_span. unfold r. rewrite !forallb_app.
    rewrite (forallb_impl is_space _ ws), (forallb_impl is_digit _ d1),
      (forallb_impl is_digit _ d2); try assumption; try reflexivity.
    + intros c ->. rewrite orb_true_r. reflexivity.
    + intros c ->. rewrite orb_true_r. reflexivity.
    + intros c ->. reflexivity.
Qed.

(** On a stripped line the text left after the number starts with a
    character that is not white space. *)
Lemma match_line_rest_head (t ds rest_of_line : str) :
  match rev t with [] => True | c :: _ => is_space c = false end ->
  match_line t = Some (ds, rest_of_line) ->
  exists c u, rest_of_line = c :: u /\ is_space c = false.
Proof.
  intros Hlast. unfold match_line.
  destruct (span is_space t) as [ws s1] eqn:E0.
  destruct (span is_digit s1) as [ds' s2] eqn:E1.
  destruct ds' as [| x ds']; [easy |].
  destruct s2 as [| c s3]; [easy |].
  destruct (Ascii.eqb_spec c "."); [subst c | easy].
  destruct (span is_space s3) as [ws' s4] eqn:E2.
  apply span_pair in E0 as (-> & _ & _).
  apply span_pair in E1 as (-> & _ & _).
  apply span_pair in E2 as (-> & Hws' & Hs4).
  destruct s4 as [| c s4].
  - simpl. destruct (List.filter is_dot (rev ws')) as [| d fs] eqn:E4; [easy |].
    intros _. exfalso. rewrite app_nil_r in Hlast.
    assert (E : rev (ws ++ (x :: ds') ++ "." :: ws')
                = rev ws' ++ rev (ws ++ (x :: ds') ++ ["."])).
    { rewrite <- rev_app_distr, <- !app_assoc. reflexivity. }
    rewrite E in Hlast. pose proof (all_space_last ws' Hws') as Hl.
    destruct (rev ws') as [| y rw]; [discriminate E4 |].
    simpl in Hlast. congruence.
  - simpl. rewrite (space_is_dot_or_newline c Hs4).
    destruct (span is_dot s4) as [a b]. simpl. intros [= <- <-]. eauto.
Qed.

(** A justification is recognized only after some formula text: the text
    before the match is not empty, even once stripped. *)
Lemma recognized_justification_follows_text (line_text ds rest_of_line : str)
    (start : nat) (group0 : str) :
  match_line (strip line_text) = Some (ds, rest_of_line) ->
  search_justification rest_of_line 0 = Some (start, group0) ->
  strip (take start rest_of_line) <> [].
Proof.
  intros H1 H2.
  destruct (match_line_rest_head _ _ _ (strip_last line_text) H1)
    as (c & u & -> & Hc).
  apply search_justification_spec in H2
    as (ws & tok & -> & Hn & Hws & _ & _ & Hdrop).
  rewrite Nat.sub_0_r in Hdrop.
  destruct start as [| start].
  - exfalso. rewrite drop_0 in Hdrop.
    destruct ws as [| w ws]; [easy |].
    simpl in Hws. apply andb_true_iff in Hws as [Hw _].
    simpl in Hdrop. destruct Hdrop as [E | E]; injection E as -> _;
      congruence.
  - simpl. unfold strip. rewrite (lstrip_id (c :: _)) by exact Hc.
    destruct (rstrip_head (take start u) c Hc) as [x ->]. easy.
Qed.

(** C10. A line made of a line number, its dot and only a justification
    token, with no formula text between them, fails with the
    malformed-justification error and proves nothing; and on any line, a
    justification is recognized only after white space that separates it
    from formula text that is not empty. *)
Theorem justification_without_formula (proven_formulas : gmap N pyobj)
    (w0 ds ws tok w1 : str) :
  forallb is_space w0 = true -> forallb is_space w1 = true ->
  ds <> [] -> forallb is_digit ds = true ->
  forallb is_space ws = true ->
  justification_token tok ->
  process_line proven_formulas (w0 ++ (ds ++ py "." ++ ws ++ tok) ++ w1)
  = Ok (Return (MalformedJustification (int ds)
                  (ds ++ py "." ++ ws ++ tok)))
  /\ forall line_text line_num_str rest_of_line start group0,
       match_line (strip line_text) = Some (line_num_str, rest_of_line) ->
       search_justification rest_of_line 0 = Some (start, group0) ->
       (exists sep token,
           group0 = sep ++ token /\ sep <> []
           /\ forallb is_space sep = true /\ justification_token token)
       /\ strip (take start rest_of_line) <> [].
Proof.
  intros H0 H1 Hn Hd Hws Htok. split.
  2:{ intros line_text line_num_str rest_of_line start group0 Hm Hs. split.
      - apply search_justification_spec in Hs
          as (sep & token & -> & ? & ? & ? & _).
        exists sep, token. repeat split; assumption.
      - exact (recognized_justification_follows_text _ _ _ _ _ Hm Hs). }
  destruct ds as [| x ds]; [easy |].
  assert (Hx : is_digit x = true).
  { simpl in Hd. apply andb_true_iff in Hd as [Hx _]. exact Hx. }
  destruct (justification_token_ends tok Htok) as (c & s & d & Et & Hc & Hd').
  assert (Estrip : strip (w0 ++ ((x :: ds) ++ py "." ++ ws ++ tok) ++ w1)
                   = (x :: ds) ++ py "." ++ ws ++ tok).
  { rewrite Et.
    replace ((x :: ds) ++ py "." ++ ws ++ c :: s ++ [d])
      with (x :: (ds ++ py "." ++ ws ++ c :: s) ++ [d])
      by (simpl; repeat (rewrite <- app_assoc; simpl); reflexivity).
    apply strip_core; try assumption. apply digit_not_space. exact Hx. }
  unfold process_line. rewrite Estrip.
  rewrite bool_decide_eq_false_2 by easy.
  replace (startswith ((x :: ds) ++ py "." ++ ws ++ tok) "#") with false
    by (symmetry; apply digit_is_not; [reflexivity | exact Hx]).
  cbn [orb].
  destruct (search_in_token tok Htok) as [Hrest Hsearch].
  assert (Ematch : match_line ((x :: ds) ++ py "." ++ ws ++ tok)
                   = Some (x :: ds, (span is_dot tok).1)).
  { unfold match_line.
    change ((x :: ds) ++ py "." ++ ws ++ tok)
      with (x :: ds ++ py "." ++ ws ++ tok).
    rewrite (span_stop is_space x _ (digit_not_space x Hx)).
    change (x :: ds ++ py "." ++ ws ++ tok)
      with ((x :: ds) ++ "." :: ws ++ tok).
    rewrite (span_app is_digit (x :: ds) ("." :: ws ++ tok) Hd eq_refl).
    change ("." =? ".") with true. cbv iota.
    rewrite (span_app is_space ws tok Hws); [| rewrite Et; exact Hc].
    destruct (span is_dot tok).1 as [| y ys]; [easy | reflexivity]. }
  rewrite Ematch, Hsearch. reflexivity.
Qed.

Lemma justification_without_formula_witness :
  process_line ∅ (py "1. Premise")
  = Ok (Return (MalformedJustification 1 (py "1. Premise"))).
Proof.
  apply (justification_without_formula ∅ [] (py "1") (py " ") (py "Premise")
           []); try reflexivity; try easy.
  constructor.
Defined.



(** * Further properties *)

(** ** The first axiom schema *)

(** X1. On every formula term, [is_axiom1] answers [True] exactly on the
    instances [A -> (B -> A)] of the first schema. *)
Theorem is_axiom1_iff_instance (f : formula) :
  is_axiom1 (encode f) = Ok true
  <-> exists A B : formula, f = Imp A (Imp B A).
Proof.
  split.
  - destruct (is_axiom1_eval (encode f)) as [(a & b & c & Hv & He) | [_ He]];
      rewrite He; [| discriminate].
    intros H. assert (Hb : py_eqb a c = true) by congruence.
    apply py_eqb_eq in Hb as ->.
    decode Hv.
    match goal with H : encode _ = imp _ _ |- _ => decode H end.
    subst.
    match goal with
    | H : encode ?x = encode ?y |- _ => apply encode_inj in H; subst
    end.
    eauto.
  - intros (A & B & ->). simpl encode. unfold is_axiom1. run_matcher.
    rewrite py_eqb_refl. reflexivity.
Qed.

(** ** More on [strip] *)

Lemma span_app_more (p : ascii -> bool) (a s : str) :
  forallb p a = true ->
  span p (a ++ s) = (a ++ (span p s).1, (span p s).2).
Proof.
  intros Ha. induction a as [| c a IH]; simpl in *.
  - destruct (span p s); reflexivity.
  - apply andb_true_iff in Ha as [-> Ha]. rewrite (IH Ha). reflexivity.
Qed.

Lemma lstrip_pad (w s : str) :
  forallb is_space w = true -> lstrip (w ++ s) = lstrip s.
Proof.
  intros H. unfold lstrip. rewrite span_app_more by exact H. reflexivity.
Qed.

Lemma lstrip_spaces (w : str) : forallb is_space w = true -> lstrip w = [].
Proof. intros H. unfold lstrip. rewrite span_all by exact H. reflexivity. Qed.

Lemma lstrip_app_spaces (s w : str) :
  forallb is_space w = true ->
  lstrip (s ++ w) = match lstrip s with [] => [] | _ :: _ => lstrip s ++ w end.
Proof.
  intros Hw. induction s as [| c s IH].
  - simpl. rewrite (lstrip_spaces w Hw). reflexivity.
  - unfold lstrip in *. simpl. destruct (is_space c) eqn:Ec.
    + destruct (span is_space (s ++ w)) as [a b].
      destruct (span is_space s) as [a' b']. simpl in *. exact IH.
    + reflexivity.
Qed.

Lemma rstrip_pad (s w : str) :
  forallb is_space w = true -> rstrip (s ++ w) = rstrip s.
Proof.
  intros H. unfold rstrip. rewrite rev_app_distr, lstrip_pad; [reflexivity |].
  rewrite forallb_forall in *. intros x Hx. apply H. apply in_rev. exact Hx.
Qed.

Lemma rstrip_nil : rstrip [] = [].
Proof. reflexivity. Qed.

Lemma rstrip_id (t : str) :
  match rev t with [] => True | c :: _ => is_space c = false end ->
  rstrip t = t.
Proof.
  intros H. unfold rstrip. rewrite lstrip_id by exact H. apply rev_involutive.
Qed.

(** What [rstrip] removes is white space. *)
Lemma rstrip_decomp (s : str) :
  exists w, s = rstrip s ++ w /\ forallb is_space w = true.
Proof.
  unfold rstrip, lstrip.
  destruct (span_spec is_space (rev s)) as (E & Ha & _).
  exists (rev (span is_space (rev s)).1). split.
  - rewrite <- rev_app_distr, <- E, rev_involutive. reflexivity.
  - rewrite forallb_forall in *. intros x Hx. apply Ha. apply in_rev.
    exact Hx.
Qed.

Lemma rstrip_cons (c : ascii) (s : str) :
  is_space c = false -> rstrip (c :: s) = c :: rstrip s.
Proof.
  intros Hc. destruct (rstrip_decomp s) as (w & E & Hw).
  rewrite E at 1. change (c :: rstrip s ++ w) with ((c :: rstrip s) ++ w).
  rewrite rstrip_pad by exact Hw. apply rstrip_id.
  pose proof (rstrip_last s) as Hl. simpl.
  destruct (rev (rstrip s)) as [| d r]; simpl; [exact Hc | exact Hl].
Qed.

Lemma strip_pad (w0 s w1 : str) :
  forallb is_space w0 = true -> forallb is_space w1 = true ->
  strip (w0 ++ s ++ w1) = strip s.
Proof.
  intros H0 H1. unfold strip. rewrite lstrip_pad by exact H0.
  rewrite lstrip_app_spaces by exact H1.
  destruct (lstrip s) as [| c u]; [reflexivity |].
  apply rstrip_pad. exact H1.
Qed.

Lemma strip_spaces (w : str) : forallb is_space w = true -> strip w = [].
Proof.
  intros H. unfold strip. rewrite lstrip_spaces by exact H. reflexivity.
Qed.

Lemma strip_idem (s : str) : strip (strip s) = strip s.
Proof.
  unfold strip at 1.
  rewrite (lstrip_id (strip s)) by apply strip_head.
  apply rstrip_id. apply strip_last.
Qed.

Lemma strip_rstrip (s : str) : strip (rstrip s) = strip s.
Proof.
  destruct (rstrip_decomp s) as (w & E & Hw). rewrite E at 2.
  rewrite <- (strip_pad [] (rstrip s) w eq_refl Hw). reflexivity.
Qed.

(** ** The parser and white space *)

Lemma parse_strip (s : str) : parse (strip s) = parse s.
Proof.
  assert (H : Some (parse (strip s)) = Some (parse s)); [| congruence].
  rewrite !parse_unfold. unfold parse_body. rewrite strip_idem. reflexivity.
Qed.

(** X2. White space around a formula text changes nothing: the parser
    returns the same term, or raises the same error with the same offending
    text, as on the text itself. *)
Theorem parse_ignores_outer_space (w0 s w1 : str) :
  forallb is_space w0 = true -> forallb is_space w1 = true ->
  parse (w0 ++ s ++ w1) = parse s.
Proof.
  intros H0 H1. rewrite <- (parse_strip (w0 ++ s ++ w1)), <- (parse_strip s).
  rewrite strip_pad by assumption. reflexivity.
Qed.

Lemma parse_ignores_outer_space_witness :
  parse (py "  " ++ py "(A -> B)" ++ py " ") = parse (py "(A -> B)").
Proof.
  apply (parse_ignores_outer_space (py "  ") (py "(A -> B)") (py " "));
    reflexivity.
Defined.

Lemma parse_pad (w0 s w1 : str) :
  forallb is_space w0 = true -> forallb is_space w1 = true ->
  parse (w0 ++ s ++ w1) = parse s.
Proof.
  intros H0 H1. rewrite <- (parse_strip (w0 ++ s ++ w1)), <- (parse_strip s).
  rewrite strip_pad by assumption. reflexivity.
Qed.

Lemma parse_tilde (s : str) :
  parse ("~" :: s)
  = match parse s with
    | Ok inner => Ok (neg inner)
    | Raise e => Raise e
    end.
Proof.
  assert (H : Some (parse ("~" :: s))
              = Some match parse s with
                     | Ok inner => Ok (neg inner)
                     | Raise e => Raise e
                     end); [| congruence].
  rewrite parse_unfold. unfold parse_body.
  assert (E : strip ("~" :: s) = "~" :: rstrip s).
  { unfold strip. rewrite (lstrip_id ("~" :: s)) by reflexivity.
    apply rstrip_cons. reflexivity. }
  rewrite E.
  replace (is_variable (PStr ("~" :: rstrip s))) with false
    by (destruct (rstrip s) as [| d [| ? ?]]; reflexivity).
  cbn [startswith]. change ("~" =? "~") with true. cbv iota.
  cbn [drop]. rewrite drop_0.
  rewrite <- (parse_strip (rstrip s)), strip_rstrip, parse_strip.
  destruct (parse s); reflexivity.
Qed.

(** X3. A text that starts with [~] is parsed to the negation of what the
    rest of the text is parsed to, whatever white space stands between the
    sign and the rest, and raises what the rest raises. *)
Theorem parse_negation (w s : str) :
  forallb is_space w = true ->
  parse ("~" :: w ++ s)
  = match parse s with
    | Ok inner => Ok (neg inner)
    | Raise e => Raise e
    end.
Proof.
  intros Hw. rewrite parse_tilde.
  rewrite <- (app_nil_r (w ++ s)), <- app_assoc.
  rewrite (parse_pad w s [] Hw eq_refl). reflexivity.
Qed.

Lemma parse_negation_witness :
  parse ("~" :: py "  " ++ py "B")
  = match parse (py "B") with
    | Ok inner => Ok (neg inner)
    | Raise e => Raise e
    end.
Proof. apply (parse_negation (py "  ") (py "B")). reflexivity. Defined.

(** X4. An empty text, or one of white space only, is no formula: the
    parser raises the invalid-syntax error, on the empty text. *)
Theorem parse_blank (s : str) :
  forallb is_space s = true ->
  parse s = Raise (ParserError (InvalidSyntax [])).
Proof.
  intros H.
  assert (E : Some (parse s) = Some (Raise (ParserError (InvalidSyntax []))));
    [| congruence].
  rewrite parse_unfold. unfold parse_body.
  rewrite (strip_spaces s H). reflexivity.
Qed.

Lemma parse_blank_witness :
  parse (py "  ") = Raise (ParserError (InvalidSyntax [])).
Proof. apply (parse_blank (py "  ")). reflexivity. Defined.


(** ** What the parser returns *)

Lemma is_variable_strip (s : str) :
  is_variable (PStr (strip s)) = true ->
  exists c, strip s = [c] /\ is_upper c = true.
Proof.
  pose proof (strip_last s) as Hl.
  destruct (strip s) as [| c [| d [| ? ?]]]; simpl; try easy.
  - eauto.
  - intros [_ ->%Ascii.eqb_eq]%andb_true_iff. simpl in Hl. discriminate Hl.
Qed.

Lemma parse_body_formula (rec : str -> option (outcome pyobj)) (s : str) :
  (forall t v, rec t = Some (Ok v) ->
               exists f, v = encode f /\ well_formed f = true) ->
  forall v, parse_body rec s = Some (Ok v) ->
            exists f, v = encode f /\ well_formed f = true.
Proof.
  intros H v. unfold parse_body.
  destruct (is_variable (PStr (strip s))) eqn:Ev.
  { intros [= <-]. apply is_variable_strip in Ev as (c & -> & Hc).
    exists (Var c). auto. }
  destruct (startswith (strip s) "~").
  { destruct (rec (drop 1 (strip s))) as [[inner | e] |] eqn:E; try easy.
    intros [= <-]. destruct (H _ _ E) as (g & -> & Hg).
    exists (Neg g). auto. }
  destruct (_ && _); [| easy].
  destruct (scan _ _ 0 0) as [[k |] | e]; try easy.
  destruct (slice (strip s) 1 (Z.of_nat k)) as [| c1 l1]; [easy |].
  destruct (slice (strip s) (Z.of_nat k + 3) (-1)) as [| c2 l2]; [easy |].
  destruct (rec (c1 :: l1)) as [[l | e] |] eqn:El; try easy.
  destruct (rec (c2 :: l2)) as [[r | e] |] eqn:Er; try easy.
  intros [= <-].
  destruct (H _ _ El) as (fl & -> & Hl). destruct (H _ _ Er) as (fr & -> & Hr).
  exists (Imp fl fr). simpl. rewrite Hl, Hr. auto.
Qed.

Lemma parse_fuel_formula (fuel : nat) (s : str) (v : pyobj) :
  parse_fuel fuel s = Some (Ok v) ->
  exists f, v = encode f /\ well_formed f = true.
Proof.
  revert s v; induction fuel as [| n IH]; intros s v; simpl; [easy |].
  apply parse_body_formula. exact IH.
Qed.

(** X5. Whatever the parser returns is a formula term: a capital letter,
    the negation tuple of a term, or the implication tuple of two terms. *)
Theorem parse_returns_formula (s : str) (v : pyobj) :
  parse s = Ok v -> exists f, v = encode f /\ well_formed f = true.
Proof.
  intros H. apply (parse_fuel_formula (S (length s)) s).
  rewrite parse_fuel_parse by lia. rewrite H. reflexivity.
Qed.

Lemma parse_returns_formula_witness :
  exists f, PTuple [tilde_tag; PStr (py "A")] = encode f
            /\ well_formed f = true.
Proof. apply (parse_returns_formula (py "~ A")). reflexivity. Defined.

(** ** Reading back a printed formula *)

Lemma upper_is_not (c d : ascii) :
  is_upper d = false -> is_upper c = true -> (c =? d) = false.
Proof.
  intros Hd Hc. destruct (Ascii.eqb_spec c d); [congruence | reflexivity].
Qed.

Lemma upper_not_space (c : ascii) : is_upper c = true -> is_space c = false.
Proof.
  unfold is_space, is_upper. intros H.
  apply andb_true_iff in H as [H1 H2]. apply N.leb_le in H1, H2.
  repeat match goal with
         | |- context [(?a <=? ?b)%N] => destruct (N.leb_spec a b)
         | |- context [(?a =? ?b)%N] => destruct (N.eqb_spec a b)
         end; simpl; try reflexivity; lia.
Qed.

Lemma print_nonempty (f : formula) : print f <> [].
Proof. destruct f; simpl; easy. Qed.

(** A printed formula neither starts nor ends with white space. *)
Lemma print_tight (f : formula) :
  well_formed f = true ->
  match print f with [] => False | c :: _ => is_space c = false end
  /\ match rev (print f) with [] => False | c :: _ => is_space c = false end.
Proof.
  induction f as [c | g IH | l IHl r IHr]; intros H.
  - simpl in *. split; apply upper_not_space; exact H.
  - simpl in *. split; [reflexivity |]. destruct (IH H) as [_ Hr].
    destruct (rev (print g)) as [| d u]; [easy | exact Hr].
  - cbn [print]. split; [reflexivity |].
    rewrite !rev_app_distr. reflexivity.
Qed.

Lemma strip_print (f : formula) (w0 w1 : str) :
  well_formed f = true ->
  forallb is_space w0 = true -> forallb is_space w1 = true ->
  strip (w0 ++ print f ++ w1) = print f.
Proof.
  intros Hf H0 H1. rewrite strip_pad by assumption.
  destruct (print_tight f Hf) as [Hh Hl]. unfold strip.
  rewrite lstrip_id by (destruct (print f); [easy | exact Hh]).
  apply rstrip_id. destruct (rev (print f)); [easy | exact Hl].
Qed.

(** One step of the scan on a character that is neither a parenthesis nor
    a dash, and on a dash met inside parentheses. *)
Lemma scan_plain (fs rest : str) (c : ascii) (i : nat) (balance : Z) :
  (c =? "(") = false -> (c =? ")") = false -> (c =? "-") = false ->
  scan fs (c :: rest) i balance = scan fs rest (S i) balance.
Proof. intros H1 H2 H3. simpl. rewrite H1, H2, H3. reflexivity. Qed.

Lemma scan_dash_inside (fs rest : str) (i : nat) (balance : Z) :
  (balance <> 0)%Z ->
  scan fs ("-" :: rest) i balance = scan fs rest (S i) balance.
Proof.
  intros Hb. cbn [scan]. change ("-" =? "(") with false.
  change ("-" =? ")") with false. change ("-" =? "-") with true. cbv iota.
  cbn [and_then bind].
  destruct (i + 2 <? length fs)%nat eqn:E; cbn [and_then bind];
    [| reflexivity].
  apply Nat.ltb_lt in E. destruct (char_at_in_range fs (i + 2) E) as [c ->].
  cbn [and_then bind]. destruct (c =? ">"); cbn [and_then bind];
    [| reflexivity].
  destruct (Z.eqb_spec balance 0); [contradiction | reflexivity].
Qed.

(** The scan walks over a printed formula without stopping: its arrows are
    all inside its own parentheses. *)
Lemma scan_print (f : formula) :
  well_formed f = true ->
  forall (fs rest : str) (i : nat) (balance : Z),
    (0 <= balance)%Z ->
    scan fs (print f ++ rest) i balance
    = scan fs rest (i + length (print f)) balance.
Proof.
  induction f as [c | g IH | l IHl r IHr]; intros Hf fs rest i balance Hb.
  - simpl in Hf. cbn [print app].
    rewrite scan_plain by (apply upper_is_not; [reflexivity | exact Hf]).
    f_equal. simpl. lia.
  - simpl in Hf. cbn [print app]. rewrite scan_plain by reflexivity.
    rewrite (IH Hf) by exact Hb. f_equal. simpl. lia.
  - simpl in Hf. apply andb_true_iff in Hf as [Hl Hr].
    cbn [print py list_ascii_of_string app].
    rewrite <- !app_assoc. cbn [scan]. change ("(" =? "(") with true. cbv iota.
    rewrite (IHl Hl) by lia.
    cbn [app]. rewrite scan_plain by reflexivity.
    rewrite scan_dash_inside by lia.
    rewrite !scan_plain by reflexivity.
    rewrite <- app_assoc. rewrite (IHr Hr) by lia.
    cbn [app scan]. change (")" =? "(") with false.
    change (")" =? ")") with true. cbv iota.
    replace (balance + 1 - 1 <? 0)%Z with false
      by (symmetry; apply Z.ltb_ge; lia).
    replace (balance + 1 - 1)%Z with balance by lia.
    f_equal. simpl. rewrite !length_app. simpl. rewrite !length_app.
    simpl. lia.
Qed.

Lemma slice_middle (a m b : str) :
  slice (a ++ m ++ b) (Z.of_nat (length a)) (Z.of_nat (length a + length m))
  = m.
Proof.
  unfold slice, slice_bound. rewrite !length_app.
  destruct (Z.ltb_spec (Z.of_nat (length a)) 0); [lia |].
  destruct (Z.ltb_spec (Z.of_nat (length a + length m)) 0); [lia |].
  rewrite !Z.min_l by lia. rewrite !Nat2Z.id.
  rewrite drop_app_length.
  replace (length a + length m - length a) with (length m) by lia.
  apply take_app_length.
Qed.

Lemma slice_to_last (a m : str) (d : ascii) :
  slice (a ++ m ++ [d]) (Z.of_nat (length a)) (-1) = m.
Proof.
  unfold slice, slice_bound. rewrite !length_app. simpl length.
  destruct (Z.ltb_spec (Z.of_nat (length a)) 0); [lia |].
  change (-1 <? 0)%Z with true. cbv iota.
  rewrite Z.min_l by lia. rewrite Z.max_r by lia. rewrite Nat2Z.id.
  rewrite drop_app_length.
  replace (Z.to_nat _ - length a) with (length m) by lia.
  apply take_app_length.
Qed.

(** The parser on two printed formulas with an arrow between them, in
    parentheses: the split is found after the left operand, the character
    [c] that follows the arrow is left out, and the operands are what is
    parsed on each side. *)
Lemma parse_imp_text (c : ascii) (l r : formula) :
  well_formed l = true -> well_formed r = true ->
  parse (py "(" ++ print l ++ py " ->" ++ [c] ++ print r ++ py ")")
  = match parse (print l) with
    | Raise e => Raise e
    | Ok a =>
        match parse (print r) with
        | Raise e => Raise e
        | Ok b => Ok (imp a b)
        end
    end.
Proof.
  intros Hl Hr.
  assert (H : Some (parse (py "(" ++ print l ++ py " ->" ++ [c] ++ print r
                           ++ py ")"))
              = Some match parse (print l) with
                     | Raise e => Raise e
                     | Ok a =>
                         match parse (print r) with
                         | Raise e => Raise e
                         | Ok b => Ok (imp a b)
                         end
                     end); [| congruence].
  rewrite parse_unfold. unfold parse_body.
  cbn [py list_ascii_of_string app].
  set (pl := print l). set (pr := print r).
  set (u := pl ++ " " :: "-" :: ">" :: c :: pr).
  assert (Efs : "(" :: pl ++ " " :: "-" :: ">" :: c :: pr ++ [")"]
                = ["("] ++ u ++ [")"]).
  { unfold u. simpl. rewrite <- app_assoc. reflexivity. }
  rewrite Efs. set (fs := ["("] ++ u ++ [")"]).
  assert (Es : strip fs = fs).
  { unfold strip. rewrite lstrip_id by reflexivity.
    apply rstrip_id. unfold fs. rewrite !rev_app_distr. reflexivity. }
  rewrite Es. clear Es.
  replace (is_variable (PStr fs)) with false
    by (unfold fs; simpl; destruct (u ++ [")"]) as [| ? [| ? ?]]; reflexivity).
  change (startswith fs "~") with false.
  change (startswith fs "(") with true.
  replace (endswith fs ")") with true
    by (unfold endswith, fs; rewrite !rev_app_distr; reflexivity).
  cbv iota. cbn [andb].
  replace (slice fs 1 (-1)) with u by (symmetry; apply (slice_to_last ["("])).
  assert (Escan : scan fs u 0 0 = Ok (Some (length pl + 2))).
  { unfold u. rewrite (scan_print l Hl) by lia. fold pl.
    rewrite scan_plain by reflexivity.
    cbn [scan]. change ("-" =? "(") with false.
    change ("-" =? ")") with false. change ("-" =? "-") with true. cbv iota.
    assert (Hlen : (S (0 + length pl) + 2 <? length fs)%nat = true).
    { apply Nat.ltb_lt. unfold fs, u.
      repeat (rewrite ?length_app; simpl). lia. }
    assert (Hchar : char_at fs (S (0 + length pl) + 2) = Ok ">").
    { unfold char_at, fs, u.
      replace (["("] ++ (pl ++ " " :: "-" :: ">" :: c :: pr) ++ [")"])
        with (("(" :: pl) ++ " " :: "-" :: ">" :: c :: pr ++ [")"])
        by (simpl; rewrite <- app_assoc; reflexivity).
      rewrite nth_error_app2 by (simpl; lia).
      replace (S (0 + length pl) + 2 - length ("(" :: pl)) with 2
        by (simpl; lia).
      reflexivity. }
    cbn [and_then bind]. rewrite Hlen. cbn [and_then bind]. rewrite Hchar.
    cbn [and_then bind]. change (">" =? ">") with true. cbn [and_then bind].
    f_equal. f_equal. lia. }
  rewrite Escan.
  assert (Eleft : slice fs 1 (Z.of_nat (length pl + 2)) = pl ++ [" "]).
  { unfold fs, u.
    replace (["("] ++ (pl ++ " " :: "-" :: ">" :: c :: pr) ++ [")"])
      with (["("] ++ (pl ++ [" "]) ++ ("-" :: ">" :: c :: pr ++ [")"]))
      by (simpl; rewrite <- !app_assoc; reflexivity).
    replace (Z.of_nat (length pl + 2))
      with (Z.of_nat (length ["("] + length (pl ++ [" "])))
      by (rewrite length_app; simpl; lia).
    apply (slice_middle ["("]). }
  assert (Eright : slice fs (Z.of_nat (length pl + 2) + 3) (-1) = pr).
  { unfold fs, u.
    replace (["("] ++ (pl ++ " " :: "-" :: ">" :: c :: pr) ++ [")"])
      with (("(" :: pl ++ py " ->" ++ [c]) ++ pr ++ [")"])
      by (simpl; rewrite <- !app_assoc; reflexivity).
    replace (Z.of_nat (length pl + 2) + 3)%Z
      with (Z.of_nat (length ("(" :: pl ++ py " ->" ++ [c])))
      by (simpl; rewrite length_app; simpl; lia).
    apply slice_to_last. }
  rewrite Eleft, Eright.
  destruct (pl ++ [" "]) as [| c1 l1] eqn:E1;
    [destruct pl; discriminate E1 |]. rewrite <- E1.
  destruct pr as [| c2 l2] eqn:E2; [exfalso; exact (print_nonempty r E2) |].
  rewrite <- E2.
  replace (parse (pl ++ [" "])) with (parse pl)
    by (symmetry; apply (parse_pad [] pl [" "]); reflexivity).
  destruct (parse pl) as [a | e]; [| reflexivity].
  destruct (parse pr) as [b | e]; reflexivity.
Qed.

Lemma parse_print_imp (l r : formula) :
  well_formed l = true -> well_formed r = true ->
  parse (print (Imp l r))
  = match parse (print l) with
    | Raise e => Raise e
    | Ok a =>
        match parse (print r) with
        | Raise e => Raise e
        | Ok b => Ok (imp a b)
        end
    end.
Proof. exact (parse_imp_text " " l r). Qed.

Lemma parse_print_ok (f : formula) :
  well_formed f = true -> parse (print f) = Ok (encode f).
Proof.
  induction f as [c | g IH | l IHl r IHr]; intros Hf.
  - simpl in *.
    assert (H : Some (parse [c]) = Some (Ok (PStr [c]))); [| congruence].
    rewrite parse_unfold. unfold parse_body.
    pose proof (strip_print (Var c) [] [] Hf eq_refl eq_refl) as Es.
    simpl in Es. rewrite Es. simpl. rewrite Hf. reflexivity.
  - simpl in *. rewrite parse_tilde, (IH Hf). reflexivity.
  - simpl in Hf. apply andb_true_iff in Hf as [Hl Hr].
    rewrite (parse_print_imp l r Hl Hr), (IHl Hl), (IHr Hr). reflexivity.
Qed.

(** X6. Every formula term, written in the grammar with each arrow between
    two spaces, is parsed back to the term itself; so two terms written
    alike are the same term. *)
Theorem parse_print (f g : formula) :
  well_formed f = true -> well_formed g = true ->
  parse (print f) = Ok (encode f)
  /\ (print f = print g -> f = g).
Proof.
  intros Hf Hg. split; [exact (parse_print_ok f Hf) |].
  intros E. apply encode_inj.
  pose proof (parse_print_ok f Hf) as H1.
  pose proof (parse_print_ok g Hg) as H2.
  rewrite E in H1. congruence.
Qed.

Lemma parse_print_witness :
  parse (print (Imp (Neg (Var "A")) (Imp (Var "B") (Var "A"))))
  = Ok (encode (Imp (Neg (Var "A")) (Imp (Var "B") (Var "A"))))
  /\ (print (Imp (Neg (Var "A")) (Imp (Var "B") (Var "A")))
      = print (Imp (Neg (Var "A")) (Imp (Var "B") (Var "A")))
      -> Imp (Neg (Var "A")) (Imp (Var "B") (Var "A"))
         = Imp (Neg (Var "A")) (Imp (Var "B") (Var "A"))).
Proof. apply parse_print; reflexivity. Defined.


(** ** Blank lines, comments, and the first failure *)

Lemma process_line_skipped (proven_formulas : gmap N pyobj) (line_text : str) :
  skipped line_text = true ->
  process_line proven_formulas line_text = Ok (Continue proven_formulas).
Proof.
  unfold skipped, process_line. intros ->. reflexivity.
Qed.

Lemma run_filter_skipped (proof_content : list str)
    (proven_formulas : gmap N pyobj) :
  run proven_formulas
      (List.filter (fun line_text => negb (skipped line_text)) proof_content)
  = run proven_formulas proof_content.
Proof.
  revert proven_formulas;
    induction proof_content as [| line_text rest IH]; intros proven_formulas;
    [reflexivity |].
  cbn [List.filter]. destruct (skipped line_text) eqn:E; cbn [negb].
  - cbn [run]. rewrite (process_line_skipped _ _ E). cbn [bind]. apply IH.
  - cbn [run]. destruct (process_line proven_formulas line_text)
      as [[m | v] | e]; cbn [bind]; [apply IH | reflexivity ..].
Qed.

(** X7. Blank lines and comment lines count for nothing: a proof has the
    verdict of the proof left when they are all taken out. *)
Theorem verify_proof_ignores_skipped (proof_content : list str) :
  verify_proof
    (List.filter (fun line_text => negb (skipped line_text)) proof_content)
  = verify_proof proof_content.
Proof. unfold verify_proof. rewrite run_filter_skipped. reflexivity. Qed.

Lemma run_app (l1 l2 : list str) (proven_formulas : gmap N pyobj) :
  run proven_formulas (l1 ++ l2)
  = (s <- run proven_formulas l1 ;;
     match s with
     | Continue proven_formulas' => run proven_formulas' l2
     | Return v => Ok (Return v)
     end).
Proof.
  revert proven_formulas; induction l1 as [| line_text rest IH];
    intros proven_formulas; cbn [app run bind]; [reflexivity |].
  destruct (process_line proven_formulas line_text) as [[m | v] | e];
    cbn [bind]; [apply IH | reflexivity ..].
Qed.

(** X8. The first failure is final: once a proof fails, no line added
    after it changes the verdict. *)
Theorem verify_proof_stops_at_failure (l1 l2 : list str) (v : verdict) :
  verify_proof l1 = Ok v -> v <> Valid -> verify_proof (l1 ++ l2) = Ok v.
Proof.
  unfold verify_proof. rewrite run_app.
  destruct (run ∅ l1) as [[m | v'] | e]; cbn [bind]; try easy.
  intros [= <-]. easy.
Qed.

Lemma verify_proof_stops_at_failure_witness :
  verify_proof ([py "1. A AX1"] ++ [py "2. B Premise"])
  = Ok (InvalidJustification 1 (py "A") NotAX1).
Proof.
  apply (verify_proof_stops_at_failure [py "1. A AX1"] [py "2. B Premise"]);
    [reflexivity | discriminate].
Defined.

(** ** What a valid line records *)

(** A line that is not skipped and is valid binds the number read on it to
    the formula parsed on it, which its justification supports: a stated
    premise, an instance of one of the three schemas, or the conclusion of
    Modus Ponens from two formulas of the mapping. *)
Lemma process_line_valid (proven_formulas proven_formulas' : gmap N pyobj)
    (line_text : str) :
  skipped line_text = false ->
  process_line proven_formulas line_text = Ok (Continue proven_formulas') ->
  exists line_num f,
    line_number line_text = Some line_num
    /\ proven_formulas' = <[line_num := f]> proven_formulas
    /\ (premise_of line_text = Some f
        \/ (exists a b, f = imp a (imp b a))
        \/ (exists a b c,
              f = imp (imp a (imp b c)) (imp (imp a b) (imp a c)))
        \/ (exists a b, f = imp (imp (neg b) (neg a)) (imp a b))
        \/ (exists i j g,
              proven_formulas !! i = Some g
              /\ proven_formulas !! j = Some (imp g f))).
Proof.
  intros Hskip. unfold process_line, line_number, premise_of.
  rewrite Hskip. unfold skipped in Hskip. rewrite Hskip.
  destruct (match_line (strip line_text)) as [[ds rest] |]; [| easy].
  destruct (search_justification rest 0) as [[start g] |] eqn:E2; [| easy].
  pose proof (search_justification_strip _ _ _ _ E2) as Htok.
  destruct (parse _) as [f | [e | | |]]; try easy.
  destruct (check_justification _ _ _ _) as [[[] d] | e] eqn:Ec; try easy.
  cbn [bind]. intros [= <-]. exists (int ds), f.
  split; [reflexivity |]. split; [reflexivity |].
  destruct Htok as [| c Hc | ws d1 d2 Hws Hn1 Hd1 Hn2 Hd2].
  - left. reflexivity.
  - right. unfold check_justification in Ec.
    destruct Hc as [-> | [-> | ->]]; cbn in Ec.
    + left. destruct (is_axiom1_eval f) as [(a & b & c & -> & He) | [_ He]];
        rewrite He in Ec; cbn in Ec; [| easy].
      destruct (py_eqb a c) eqn:Eac; [| easy].
      apply py_eqb_eq in Eac as ->. eauto.
    + right. left.
      destruct (is_axiom2_eval f)
        as [(a & b & c & p & q & r & s & -> & He) | [_ He]];
        rewrite He in Ec; cbn [bind] in Ec; [| easy].
      destruct (py_eqb (imp p q) (imp a b)) eqn:E1; [| easy].
      destruct (py_eqb (imp r s) (imp a c)) eqn:E3; [| easy].
      apply py_eqb_eq in E1, E3. injection E1 as -> ->. injection E3 as -> ->.
      eauto.
    + right. right. left.
      destruct (is_axiom3_eval f) as [(x & y & a & b & -> & He) | [_ He]];
        rewrite He in Ec; cbn [bind] in Ec; [| easy].
      destruct (py_eqb _ _) eqn:E1; [| easy].
      apply py_eqb_eq in E1. injection E1 as -> ->. eauto.
  - right. right. right. right.
    destruct (match_mp_token _ (token_mp ws d1 d2 Hws Hn1 Hd1 Hn2 Hd2)
                eq_refl) as (si & sj & Hmp).
    destruct (check_justification_mp proven_formulas (int ds) _ si sj f Hmp)
      as (b & d' & Ec' & Hv).
    rewrite Ec in Ec'. injection Ec' as <- <-.
    destruct Hv as [(_ & _ & f_i & f_j & Ei & Ej & [-> | ->]) _];
      [reflexivity | eauto ..].
Qed.

Lemma run_sound (premises : list pyobj) (proof_content : list str)
    (proven_formulas final : gmap N pyobj) :
  (forall line_text f,
      line_text ∈ proof_content -> premise_of line_text = Some f ->
      f ∈ premises) ->
  (forall k f, proven_formulas !! k = Some f -> derivable premises f) ->
  run proven_formulas proof_content = Ok (Continue final) ->
  forall k f, final !! k = Some f -> derivable premises f.
Proof.
  revert proven_formulas;
    induction proof_content as [| line_text rest IH];
    intros proven_formulas Hprem Hinv.
  - simpl. intros [= <-]. exact Hinv.
  - intros (m & Hstep & Hrun)%run_cons.
    apply (IH m); [| | exact Hrun].
    { intros l f Hl. apply Hprem. right. exact Hl. }
    destruct (skipped line_text) eqn:Hs.
    { rewrite (process_line_skipped _ _ Hs) in Hstep.
      injection Hstep as <-. exact Hinv. }
    destruct (process_line_valid _ _ _ Hs Hstep)
      as (n & f & _ & -> & Hf).
    assert (Hd : derivable premises f).
    { destruct Hf as [Hp | [(a & b & ->) | [(a & b & c & ->)
                       | [(a & b & ->) | (i & j & g & Hi & Hj)]]]].
      - apply derivable_premise. apply (Hprem line_text); [left | exact Hp].
      - apply derivable_ax1.
      - apply derivable_ax2.
      - apply derivable_ax3.
      - apply (derivable_mp premises g f); [exact (Hinv _ _ Hi) |].
        exact (Hinv _ _ Hj). }
    intros k f'. destruct (decide (n = k)) as [-> | Hne].
    + rewrite lookup_insert_eq. intros [= <-]. exact Hd.
    + rewrite lookup_insert_ne by exact Hne. apply Hinv.
Qed.

(** X9. The verifier is sound for what the parser reads. When all the
    lines of a proof are valid, the proof is reported valid and every
    formula it recorded is derivable in the Hilbert system of the three
    schemas and Modus Ponens from the formulas the parser returned on the
    Premise lines of the proof. *)
Theorem verified_formulas_are_derivable (proof_content : list str)
    (final : gmap N pyobj) :
  run ∅ proof_content = Ok (Continue final) ->
  verify_proof proof_content = Ok Valid
  /\ forall k f,
       final !! k = Some f -> derivable (omap premise_of proof_content) f.
Proof.
  intros Hrun. split.
  - unfold verify_proof. rewrite Hrun. reflexivity.
  - apply (run_sound _ proof_content ∅ final); [| | exact Hrun].
    + intros l f Hl Hf. apply list_elem_of_omap. eauto.
    + intros k f. rewrite lookup_empty. easy.
Qed.

Lemma verified_formulas_are_derivable_witness :
  verify_proof [py "1. A Premise"; py "2. (A -> B) Premise"; py "3. B MP 1,2"]
  = Ok Valid
  /\ forall k f,
       (<[3%N := PStr (py "B")]>
          (<[2%N := imp (PStr (py "A")) (PStr (py "B"))]>
             (<[1%N := PStr (py "A")]> ∅)) : gmap N pyobj) !! k = Some f ->
       derivable
         (omap premise_of
            [py "1. A Premise"; py "2. (A -> B) Premise"; py "3. B MP 1,2"]) f.
Proof.
  apply (verified_formulas_are_derivable
           [py "1. A Premise"; py "2. (A -> B) Premise"; py "3. B MP 1,2"]).
  vm_compute. reflexivity.
Defined.

(** X10. After a proof whose lines are all valid, the numbers bound in the
    mapping are those bound before and those read on the lines that are
    neither blank nor comments. *)
Theorem recorded_line_numbers (proof_content : list str)
    (proven_formulas final : gmap N pyobj) :
  run proven_formulas proof_content = Ok (Continue final) ->
  forall k,
    is_Some (final !! k)
    <-> is_Some (proven_formulas !! k)
        \/ exists line_text,
             line_text ∈ proof_content /\ skipped line_text = false
             /\ line_number line_text = Some k.
Proof.
  revert proven_formulas;
    induction proof_content as [| line_text rest IH]; intros proven_formulas.
  - simpl. intros [= <-] k. split; [auto |].
    intros [H | (l & Hl & _)]; [exact H |]. inversion Hl.
  - intros (m & Hstep & Hrun)%run_cons k. rewrite (IH m Hrun k).
    destruct (skipped line_text) eqn:Hs.
    { rewrite (process_line_skipped _ _ Hs) in Hstep. injection Hstep as <-.
      split; (intros [H | (l & Hl & Hl' & Hn)]; [left; exact H | right]).
      - exists l. split; [right; exact Hl | auto].
      - exists l. apply elem_of_cons in Hl as [-> | Hl]; [congruence | auto]. }
    destruct (process_line_valid _ _ _ Hs Hstep) as (n & f & Hn & -> & _).
    split.
    + intros [H | (l & Hl & Hl' & Hk)].
      * destruct (decide (n = k)) as [-> | Hne].
        -- right. exists line_text. split; [left | auto].
        -- rewrite lookup_insert_ne in H by exact Hne. left. exact H.
      * right. exists l. split; [right; exact Hl | auto].
    + intros [H | (l & Hl & Hl' & Hk)].
      * left. destruct (decide (n = k)) as [-> | Hne].
        -- rewrite lookup_insert_eq. eauto.
        -- rewrite lookup_insert_ne by exact Hne. exact H.
      * apply elem_of_cons in Hl as [-> | Hl].
        -- left. assert (n = k) as -> by congruence.
           rewrite lookup_insert_eq. eauto.
        -- right. exists l. auto.
Qed.

Lemma recorded_line_numbers_witness :
  is_Some ((<[7%N := PStr (py "A")]> ∅ : gmap N pyobj) !! 7%N)
  <-> is_Some ((∅ : gmap N pyobj) !! 7%N)
      \/ exists line_text,
           line_text ∈ [py "# premise"; py "7. A Premise"]
           /\ skipped line_text = false
           /\ line_number line_text = Some 7%N.
Proof.
  apply (recorded_line_numbers [py "# premise"; py "7. A Premise"] ∅).
  vm_compute. reflexivity.
Defined.


(** ** Premises and Modus Ponens, line by line *)

(** X11. A line that states a premise is valid whatever was proven before:
    the formula is recorded under the number of the line, unchecked. *)
Theorem premise_line_is_valid (line_text : str) (f : pyobj) :
  premise_of line_text = Some f ->
  exists line_num,
    line_number line_text = Some line_num
    /\ forall proven_formulas : gmap N pyobj,
         process_line proven_formulas line_text
         = Ok (Continue (<[line_num := f]> proven_formulas)).
Proof.
  unfold premise_of, line_number, process_line, skipped.
  destruct (_ || _); [easy |].
  destruct (match_line (strip line_text)) as [[ds rest] |]; [| easy].
  destruct (search_justification rest 0) as [[start g] |]; [| easy].
  destruct (str_eqb (strip g) (py "Premise")) eqn:E; [| easy].
  destruct (parse _) as [f' | e]; [| easy].
  intros [= ->]. exists (int ds). split; [reflexivity |].
  intros proven_formulas. unfold check_justification. rewrite E. reflexivity.
Qed.

Lemma premise_line_is_valid_witness :
  exists line_num,
    line_number (py "4. ~A Premise") = Some line_num
    /\ forall proven_formulas : gmap N pyobj,
         process_line proven_formulas (py "4. ~A Premise")
         = Ok (Continue (<[line_num := neg (PStr (py "A"))]> proven_formulas)).
Proof.
  apply (premise_line_is_valid (py "4. ~A Premise")). reflexivity.
Defined.

Lemma detaches_eval (f g current_formula : pyobj) :
  detaches f g current_formula = Ok (py_eqb f (imp g current_formula)).
Proof.
  destruct (detaches_spec f g current_formula) as (b & -> & Hb).
  f_equal. destruct b.
  - symmetry. apply py_eqb_eq. apply Hb. reflexivity.
  - symmetry. apply py_eqb_neq. intros H. apply Hb in H. discriminate H.
Qed.

(** The dispatch on a Modus Ponens justification, in closed form. *)
Lemma check_justification_mp_eval (proven_formulas : gmap N pyobj)
    (line_num : N) (justification si sj : str) (current_formula : pyobj) :
  match_mp justification = Some (si, sj) ->
  check_justification proven_formulas line_num justification current_formula
  = Ok (if (line_num <=? int si)%N || (line_num <=? int sj)%N
        then (false, FutureLines (int si) (int sj))
        else
          match proven_formulas !! int si, proven_formulas !! int sj with
          | Some f_i, Some f_j =>
              if py_eqb f_j (imp f_i current_formula)
                 || py_eqb f_i (imp f_j current_formula)
              then (true, NoDetail)
              else (false, NotModusPonens (int si) (int sj))
          | _, _ => (false, NonExistentLines (int si) (int sj))
          end).
Proof.
  intros Hmp. destruct (match_mp_prefix _ _ _ Hmp) as [r ->].
  unfold check_justification. cbn [str_eqb py list_ascii_of_string].
  replace (startswith_str _ _) with true by reflexivity.
  cbn [Ascii.eqb Bool.eqb andb]. rewrite Hmp.
  destruct (_ || _); [reflexivity |].
  destruct (proven_formulas !! int si) as [f_i |]; [| reflexivity].
  destruct (proven_formulas !! int sj) as [f_j |]; [| reflexivity].
  unfold or_else. rewrite !detaches_eval. cbn [bind].
  destruct (py_eqb f_j _); [reflexivity |]. cbn [bind orb].
  destruct (py_eqb f_i _); reflexivity.
Qed.

(** X12. Which failure a Modus Ponens line gets. A cited number that is not
    below the line's own gives the future-lines failure, even when the
    number is bound; otherwise a cited number that is not bound gives the
    non-existent-lines failure; otherwise, when neither cited formula is
    the implication from the other to the line's formula, the failure says
    that the conclusion does not follow. *)
Theorem modus_ponens_failures (proven_formulas : gmap N pyobj)
    (line_text line_num_str rest_of_line group0 si sj : str) (start : nat)
    (current_formula : pyobj) :
  match_line (strip line_text) = Some (line_num_str, rest_of_line) ->
  search_justification rest_of_line 0 = Some (start, group0) ->
  match_mp (strip group0) = Some (si, sj) ->
  parse (strip (take start rest_of_line)) = Ok current_formula ->
  let failure detail :=
    process_line proven_formulas line_text
    = Ok (Return (InvalidJustification (int line_num_str)
                    (strip (take start rest_of_line)) detail)) in
  ((int line_num_str <= int si)%N \/ (int line_num_str <= int sj)%N ->
   failure (FutureLines (int si) (int sj)))
  /\ ((int si < int line_num_str)%N -> (int sj < int line_num_str)%N ->
      proven_formulas !! int si = None \/ proven_formulas !! int sj = None ->
      failure (NonExistentLines (int si) (int sj)))
  /\ (forall f_i f_j,
        (int si < int line_num_str)%N -> (int sj < int line_num_str)%N ->
        proven_formulas !! int si = Some f_i ->
        proven_formulas !! int sj = Some f_j ->
        f_j <> imp f_i current_formula -> f_i <> imp f_j current_formula ->
        failure (NotModusPonens (int si) (int sj))).
Proof.
  intros H1 H2 H3 H4 failure. unfold failure.
  rewrite (process_line_checked _ _ _ _ _ _ _ H1 H2 H4).
  rewrite (check_justification_mp_eval _ _ _ _ _ _ H3). cbn [bind].
  split; [| split].
  - intros H.
    replace (_ || _) with true; [reflexivity |].
    symmetry. apply orb_true_iff. rewrite !N.leb_le. exact H.
  - intros Hi Hj H.
    replace (_ || _) with false
      by (symmetry; apply orb_false_iff; rewrite !N.leb_gt; auto).
    destruct H as [-> | ->]; [reflexivity |].
    destruct (proven_formulas !! int si); reflexivity.
  - intros f_i f_j Hi Hj -> -> Hne1 Hne2.
    replace ((_ <=? _)%N || _) with false
      by (symmetry; apply orb_false_iff; rewrite !N.leb_gt; auto).
    apply py_eqb_neq in Hne1, Hne2. rewrite Hne1, Hne2. reflexivity.
Qed.

Lemma modus_ponens_failures_witness :
  process_line (<[2%N := PStr (py "A")]> ∅) (py "2. B MP 2,3")
  = Ok (Return (InvalidJustification (int (py "2")) (py "B")
                  (FutureLines (int (py "2")) (int (py "3"))))).
Proof.
  apply (modus_ponens_failures (<[2%N := PStr (py "A")]> ∅) (py "2. B MP 2,3")
           (py "2") (py "B MP 2,3") (py " MP 2,3") (py "2") (py "3") 1
           (PStr (py "B"))); try reflexivity.
  left. vm_compute. discriminate.
Defined.

Lemma no_self_implication (v c : pyobj) : v <> imp v c.
Proof.
  revert c; induction v as [s | items IH] using pyobj_ind'; intros c;
    [discriminate |].
  unfold imp. intros [= H].
  rewrite H in IH. inversion IH as [| ? ? _ IH']. subst.
  inversion IH' as [| ? ? Hself _]. subst.
  apply (Hself c). unfold imp. rewrite <- H. reflexivity.
Qed.

(** X13. Modus Ponens never goes through on one line cited twice: a line
    justified by [MP i,i] is always invalid. *)
Theorem modus_ponens_needs_two_lines (proven_formulas : gmap N pyobj)
    (line_text line_num_str rest_of_line group0 si sj : str) (start : nat)
    (current_formula : pyobj) :
  match_line (strip line_text) = Some (line_num_str, rest_of_line) ->
  search_justification rest_of_line 0 = Some (start, group0) ->
  match_mp (strip group0) = Some (si, sj) ->
  parse (strip (take start rest_of_line)) = Ok current_formula ->
  int si = int sj ->
  exists detail,
    process_line proven_formulas line_text
    = Ok (Return (InvalidJustification (int line_num_str)
                    (strip (take start rest_of_line)) detail)).
Proof.
  intros H1 H2 H3 H4 Hij.
  rewrite (process_line_checked _ _ _ _ _ _ _ H1 H2 H4).
  rewrite (check_justification_mp_eval _ _ _ _ _ _ H3). cbn [bind].
  rewrite <- Hij.
  destruct (_ || _); [eauto |].
  destruct (proven_formulas !! int si) as [g |]; [| eauto].
  replace (py_eqb g (imp g current_formula)) with false
    by (symmetry; apply py_eqb_neq; apply no_self_implication).
  cbn [orb]. eauto.
Qed.

Lemma modus_ponens_needs_two_lines_witness :
  exists detail,
    process_line (<[1%N := imp (PStr (py "A")) (PStr (py "A"))]> ∅)
                 (py "2. A MP 1,1")
    = Ok (Return (InvalidJustification (int (py "2")) (py "A") detail)).
Proof.
  apply (modus_ponens_needs_two_lines _ (py "2. A MP 1,1") (py "2")
           (py "A MP 1,1") (py " MP 1,1") (py "1") (py "1") 1 (PStr (py "A")));
    reflexivity.
Defined.


(** ** The batch runner *)

Lemma flush_content (content : list str) (name : str) :
  concat (map snd (flush content name)) = content.
Proof.
  destruct content; simpl; [reflexivity | rewrite app_nil_r; reflexivity].
Qed.

Lemma flush_nonempty (content : list str) (name : str) :
  Forall (fun p : str * list str => p.2 <> []) (flush content name).
Proof.
  destruct content; simpl; [constructor |].
  constructor; [easy | constructor].
Qed.

Lemma split_proofs_content (lines content : list str) (name : str) :
  concat (map snd (split_proofs lines content name))
  = content
    ++ List.filter (fun line => negb (startswith_str line DELIMITER)) lines.
Proof.
  revert content name; induction lines as [| line lines IH];
    intros content name; cbn [split_proofs List.filter].
  - rewrite flush_content, app_nil_r. reflexivity.
  - destruct (startswith_str line DELIMITER); cbn [negb].
    + rewrite map_app, concat_app, flush_content, IH. reflexivity.
    + rewrite IH, <- app_assoc. reflexivity.
Qed.

Lemma split_proofs_nonempty (lines content : list str) (name : str) :
  Forall (fun p : str * list str => p.2 <> [])
         (split_proofs lines content name).
Proof.
  revert content name; induction lines as [| line lines IH];
    intros content name; cbn [split_proofs].
  - apply flush_nonempty.
  - destruct (startswith_str line DELIMITER); [| apply IH].
    apply Forall_app. split; [apply flush_nonempty | apply IH].
Qed.

(** X14. The batch runner loses no line and invents none: the lines given
    to the successive calls of [verify_proof], put end to end, are the
    lines of the file that do not start with the delimiter, in order; and
    no call is made on an empty list of lines. *)
Theorem split_proofs_keeps_lines (lines : list str) :
  concat (map snd (split_proofs lines [] (py "Unnamed Proof")))
  = List.filter (fun line => negb (startswith_str line DELIMITER)) lines
  /\ Forall (fun p : str * list str => p.2 <> [])
            (split_proofs lines [] (py "Unnamed Proof")).
Proof.
  split; [apply split_proofs_content | apply split_proofs_nonempty].
Qed.

Lemma verify_proof_ok (proof_content : list str) :
  exists v, verify_proof proof_content = Ok v.
Proof.
  unfold verify_proof.
  destruct (run_total proof_content ∅) as ([m | v] & -> & _); cbn [bind];
    eauto.
Qed.

Lemma run_proofs_total (proofs : list (str * list str)) :
  exists reports,
    run_proofs proofs = Ok reports
    /\ Forall2 (fun (p : str * list str) (r : str * verdict) =>
                  r.1 = p.1 /\ verify_proof p.2 = Ok r.2)
               proofs reports.
Proof.
  induction proofs as [| [name content] proofs (reports & IH & HF)].
  - exists []. split; [reflexivity | constructor].
  - destruct (verify_proof_ok content) as [v Hv].
    exists ((name, v) :: reports). cbn [run_proofs]. rewrite Hv, IH.
    split; [reflexivity |]. constructor; [split; [reflexivity | exact Hv] |].
    exact HF.
Qed.

Lemma split_proofs_no_delimiter (lines content : list str) (name : str) :
  Forall (fun line => startswith_str line DELIMITER = false) lines ->
  split_proofs lines content name = flush (content ++ lines) name.
Proof.
  intros H; revert content; induction H as [| line lines Hl _ IH];
    intros content; cbn [split_proofs].
  - rewrite app_nil_r. reflexivity.
  - rewrite Hl, IH, <- app_assoc. reflexivity.
Qed.

(** X16. A file with no delimiter line and at least one line is verified
    as one proof, named [Unnamed Proof]. *)
Theorem file_without_delimiter (lines : list str) :
  lines <> [] ->
  Forall (fun line => startswith_str line DELIMITER = false) lines ->
  load_and_run_tests_from_file (Some lines)
  = (v <- verify_proof lines ;; Ok (Verified [(py "Unnamed Proof", v)])).
Proof.
  intros Hne H. unfold load_and_run_tests_from_file.
  rewrite (split_proofs_no_delimiter lines [] _ H). cbn [app].
  destruct lines as [| line lines]; [easy |]. cbn [flush run_proofs].
  destruct (verify_proof (line :: lines)); reflexivity.
Qed.

Lemma file_without_delimiter_witness :
  load_and_run_tests_from_file (Some [py "1. A Premise"; py "2. A AX1"])
  = (v <- verify_proof [py "1. A Premise"; py "2. A AX1"] ;;
     Ok (Verified [(py "Unnamed Proof", v)])).
Proof.
  apply (file_without_delimiter [py "1. A Premise"; py "2. A AX1"]);
    [discriminate |].
  repeat constructor.
Defined.

(** ** The name of a proof *)

Lemma startswith_str_chars (s p : str) :
  startswith_str s p = true -> forall x, In x p -> In x s.
Proof.
  revert s; induction p as [| c p IH]; intros s H x Hx; [easy |].
  destruct s as [| d s]; [discriminate H |]. simpl in H.
  apply andb_true_iff in H as [->%Ascii.eqb_eq H].
  destruct Hx as [-> | Hx]; [left; reflexivity | right; exact (IH s H x Hx)].
Qed.

(** Nothing is removed from a text that lacks one of the characters of
    [old]. *)
Lemma remove_all_absent (old s : str) (x : ascii) :
  In x old -> ~ In x s -> remove_all_from old s 0 = s.
Proof.
  intros Hx. induction s as [| c s IH]; intros Hs; [reflexivity |].
  cbn [remove_all_from].
  destruct (startswith_str (c :: s) old) eqn:E.
  - exfalso. apply Hs. exact (startswith_str_chars _ _ E x Hx).
  - rewrite IH; [reflexivity |]. intros H. apply Hs. right. exact H.
Qed.

(** Nothing is removed from a prefix that lacks the first character of
    [old]. *)
Lemma remove_all_keep (d : ascii) (old a b : str) :
  forallb (fun c => negb (c =? d)) a = true ->
  remove_all_from (d :: old) (a ++ b) 0
  = a ++ remove_all_from (d :: old) b 0.
Proof.
  intros H. induction a as [| c a IH]; [reflexivity |].
  simpl in H. apply andb_true_iff in H as [Hc Ha].
  cbn [app remove_all_from startswith_str].
  apply negb_true_iff in Hc. rewrite Hc. cbn [andb]. rewrite (IH Ha).
  reflexivity.
Qed.

Lemma spaces_have_no (x : ascii) (w : str) :
  is_space x = false -> forallb is_space w = true -> ~ In x w.
Proof.
  intros Hx Hw H. rewrite forallb_forall in Hw. apply Hw in H. congruence.
Qed.

(** X17. The name of a proof is read off its header line: on the line
    [--- TEST: name ---], the name is [name], when it holds no dash and
    neither starts nor ends with white space. *)
Theorem proof_name_of_header (name w : str) :
  name <> [] -> strip name = name ->
  forallb (fun c => negb (c =? "-")) name = true ->
  forallb is_space w = true ->
  proof_name_of (DELIMITER ++ py " " ++ name ++ py " ---" ++ w) = name.
Proof.
  intros Hne Hs Hd Hw. unfold proof_name_of, remove_all.
  assert (E1 : remove_all_from DELIMITER
                 (DELIMITER ++ py " " ++ name ++ py " ---" ++ w) 0
               = py " " ++ name ++ py " ---" ++ w).
  { change (remove_all_from DELIMITER
              (DELIMITER ++ py " " ++ name ++ py " ---" ++ w) 0)
      with (remove_all_from DELIMITER
              ((" " :: name) ++ py " ---" ++ w) 0).
    unfold DELIMITER at 1. cbn [py list_ascii_of_string].
    rewrite remove_all_keep by exact Hd.
    rewrite (remove_all_absent _ (py " ---" ++ w) "T");
      [reflexivity | simpl; tauto |].
    intros [H | [H | [H | [H | H]]]]; try discriminate H.
    exact (spaces_have_no "T" w eq_refl Hw H). }
  rewrite E1.
  assert (Hhead : match name with
                  | [] => True
                  | c :: _ => is_space c = false
                  end).
  { rewrite <- Hs. apply strip_head. }
  assert (E2 : strip (py " " ++ name ++ py " ---" ++ w) = name ++ py " ---").
  { replace (py " " ++ name ++ py " ---" ++ w)
      with (py " " ++ (name ++ py " ---") ++ w)
      by (rewrite <- app_assoc; reflexivity).
    rewrite strip_pad by (reflexivity || exact Hw).
    unfold strip. rewrite lstrip_id.
    - apply rstrip_id. rewrite rev_app_distr. reflexivity.
    - destruct name; [easy | exact Hhead]. }
  rewrite E2.
  assert (E3 : remove_all_from (py "---") (name ++ py " ---") 0
               = name ++ py " ").
  { cbn [py list_ascii_of_string]. rewrite remove_all_keep by exact Hd.
    reflexivity. }
  rewrite E3.
  rewrite <- (strip_pad [] name (py " ") eq_refl eq_refl) in Hs.
  exact Hs.
Qed.

Lemma proof_name_of_header_witness :
  proof_name_of (DELIMITER ++ py " " ++ py "Axiom 1, twice" ++ py " ---"
                 ++ ["010"])
  = py "Axiom 1, twice".
Proof.
  apply (proof_name_of_header (py "Axiom 1, twice") ["010"]);
    try reflexivity. discriminate.
Defined.


(** ** Reading a well-written line *)

(** The pattern of the justification matches every token in full. *)
Lemma match_token_complete (tok : str) :
  justification_token tok -> match_token tok = Some tok.
Proof.
  intros [| c Hc | ws d1 d2 Hws Hn1 Hd1 Hn2 Hd2].
  - reflexivity.
  - destruct Hc as [-> | [-> | ->]]; reflexivity.
  - unfold match_token.
    replace (alt_premise _) with (@None str) by reflexivity.
    replace (alt_ax _) with (@None str) by reflexivity.
    unfold alt_mp. rewrite remove_prefix_app. simpl.
    destruct d1 as [| x d1]; [easy |]. destruct d2 as [| y d2]; [easy |].
    rewrite (span_app is_space ws); [| exact Hws |].
    2:{ simpl in Hd1. apply andb_true_iff in Hd1 as [Hx _].
        apply digit_not_space. exact Hx. }
    rewrite (span_app is_digit (x :: d1)); [| exact Hd1 | reflexivity].
    change ("," =? ",") with true. cbv iota.
    rewrite (span_all is_digit (y :: d2) Hd2). reflexivity.
Qed.

(** A token starts with one of three capital letters, none of them a
    character of the inside of a Modus Ponens token. *)
Lemma justification_token_head (tok : str) :
  justification_token tok ->
  exists c rest,
    tok = c :: rest
    /\ is_space c || is_digit c || (c =? ",") = false.
Proof.
  intros [| c Hc | ws d1 d2 _ _ _ _ _]; do 2 eexists; split;
    reflexivity.
Qed.

(** No token holds white space followed by a token. *)
Lemma justification_token_no_inner (b tok : str) :
  justification_token tok -> ~ justification_token (b ++ " " :: tok).
Proof.
  intros Htok H.
  destruct (justification_token_head tok Htok) as (c & rest & -> & Hc).
  inversion H as [E | x Hx E | ws d1 d2 Hws _ Hd1 _ Hd2 E].
  - assert (Hin : In " " (b ++ " " :: c :: rest))
      by (apply in_or_app; right; left; reflexivity).
    rewrite <- E in Hin. simpl in Hin. intuition discriminate.
  - assert (Hin : In " " (b ++ " " :: c :: rest))
      by (apply in_or_app; right; left; reflexivity).
    rewrite <- E in Hin. simpl in Hin.
    destruct Hx as [-> | [-> | ->]]; intuition discriminate.
  - destruct b as [| b0 [| b1 b]]; try discriminate E.
    injection E as _ _ E.
    assert (Hin : In c (b ++ " " :: c :: rest))
      by (apply in_or_app; right; right; left; reflexivity).
    rewrite <- E in Hin.
    assert (Hall : forallb (fun c => is_space c || is_digit c || (c =? ","))
                     (ws ++ d1 ++ py "," ++ d2) = true).
    { rewrite !forallb_app.
      rewrite (forallb_impl is_space _ ws), (forallb_impl is_digit _ d1),
        (forallb_impl is_digit _ d2); try assumption; try reflexivity.
      - intros ? ->. rewrite orb_true_r. reflexivity.
      - intros ? ->. rewrite orb_true_r. reflexivity.
      - intros ? ->. reflexivity. }
    rewrite forallb_forall in Hall. apply Hall in Hin. congruence.
Qed.

Lemma span_unique (p : ascii -> bool) (a b a' b' : str) :
  forallb p a = true -> forallb p a' = true ->
  match b with [] => True | c :: _ => p c = false end ->
  match b' with [] => True | c :: _ => p c = false end ->
  a ++ b = a' ++ b' -> a = a' /\ b = b'.
Proof.
  intros Ha Ha' Hb Hb' E.
  pose proof (span_app p a b Ha Hb) as H1.
  pose proof (span_app p a' b' Ha' Hb') as H2.
  rewrite E in H1. rewrite H1 in H2. injection H2 as -> ->. auto.
Qed.

(** Before the white space that ends the formula text, no justification is
    found, whatever the text. *)
Lemma no_match_inside (s tok : str) (k : nat) :
  match rev s with [] => False | c :: _ => is_space c = false end ->
  justification_token tok ->
  k < length s ->
  match_justification_here (drop k (s ++ " " :: tok)) = None.
Proof.
  intros Hlast Htok Hk.
  destruct (match_justification_here _) as [g |] eqn:E; [| reflexivity].
  exfalso.
  apply match_justification_here_spec in E
    as (ws & tok' & -> & Hne & Hws & Htok' & E).
  rewrite drop_app_le in E by lia.
  destruct (justification_token_ends tok Htok) as (c & x & d & Et & _ & Hd).
  assert (Hnl : forall u, u ++ " " :: tok <> (ws ++ tok') ++ ["010"]).
  { intros u Hu. rewrite Et in Hu.
    replace (u ++ " " :: c :: x ++ [d]) with ((u ++ " " :: c :: x) ++ [d])
      in Hu by (rewrite <- app_assoc; reflexivity).
    apply app_inj_tail in Hu as [_ ->]. discriminate Hd. }
  destruct E as [E | E]; [| exact (Hnl _ E)].
  set (Y := drop k s) in *.
  destruct (span_spec is_space Y) as (EY & Ha & Hb).
  set (a := (span is_space Y).1) in *. set (b := (span is_space Y).2) in *.
  assert (Hbne : b <> []).
  { intros Hb0. rewrite Hb0, app_nil_r in EY.
    assert (Hs : s = take k s ++ a)
      by (rewrite <- EY; symmetry; apply take_drop).
    assert (Hane : a <> []).
    { intros Ha0. rewrite <- EY in Ha0. unfold Y in Ha0.
      apply (f_equal length) in Ha0. rewrite length_drop in Ha0. simpl in Ha0.
      lia. }
    rewrite Hs, rev_app_distr in Hlast.
    pose proof (all_space_last a Ha) as Hl.
    destruct (rev a) as [| z ra] eqn:Era.
    - apply (f_equal (@rev ascii)) in Era. rewrite rev_involutive in Era.
      easy.
    - simpl in Hlast. congruence. }
  rewrite EY, <- app_assoc in E.
  destruct (justification_token_ends tok' Htok')
    as (c' & x' & d' & Et' & Hc' & _).
  destruct (span_unique is_space a (b ++ " " :: tok) ws tok') as [_ E'];
    try assumption.
  - destruct b as [| b0 b]; [easy | exact Hb].
  - rewrite Et'. exact Hc'.
  - rewrite <- E' in Htok'.
    exact (justification_token_no_inner b tok Htok Htok').
Qed.

Lemma search_justification_skip (s : str) (n k : nat) :
  (forall j, j < n -> match_justification_here (drop j s) = None) ->
  search_justification s k = search_justification (drop n s) (k + n).
Proof.
  revert s k; induction n as [| n IH]; intros s k H.
  - rewrite drop_0, Nat.add_0_r. reflexivity.
  - destruct s as [| c s].
    + simpl. reflexivity.
    + cbn [search_justification].
      pose proof (H 0 ltac:(lia)) as H0. rewrite drop_0 in H0. rewrite H0.
      cbn [drop]. rewrite (IH s (S k)).
      * f_equal. lia.
      * intros j Hj. apply (H (S j)). lia.
Qed.

(** The search finds the justification where the formula text ends. *)
Lemma search_justification_found (s tok : str) :
  match rev s with [] => False | c :: _ => is_space c = false end ->
  justification_token tok ->
  search_justification (s ++ " " :: tok) 0 = Some (length s, " " :: tok).
Proof.
  intros Hlast Htok.
  rewrite (search_justification_skip _ (length s) 0).
  2:{ intros j Hj. apply no_match_inside; assumption. }
  rewrite drop_app_length. cbn [search_justification Nat.add].
  unfold match_justification_here.
  destruct (justification_token_ends tok Htok) as (c & x & d & Et & Hc & _).
  pose proof (span_app is_space [" "] tok eq_refl) as Hsp.
  cbn [app] in Hsp. rewrite Hsp by (rewrite Et; exact Hc).
  rewrite (match_token_complete tok Htok). reflexivity.
Qed.

Lemma match_line_written (ds s tok : str) :
  ds <> [] -> forallb is_digit ds = true ->
  match s with [] => False | c :: _ => is_space c = false end ->
  forallb is_dot s = true -> forallb is_dot tok = true ->
  match_line (ds ++ py ". " ++ s ++ py " " ++ tok)
  = Some (ds, s ++ " " :: tok).
Proof.
  intros Hn Hd Hs Hds Hdt. unfold match_line.
  destruct ds as [| x ds]; [easy |].
  assert (Hx : is_space x = false).
  { simpl in Hd. apply andb_true_iff in Hd as [Hx _].
    apply digit_not_space. exact Hx. }
  change ((x :: ds) ++ py ". " ++ s ++ py " " ++ tok)
    with (x :: ds ++ "." :: " " :: s ++ " " :: tok).
  rewrite (span_stop is_space x _ Hx).
  change (x :: ds ++ "." :: " " :: s ++ " " :: tok)
    with ((x :: ds) ++ "." :: " " :: s ++ " " :: tok).
  rewrite (span_app is_digit (x :: ds) ("." :: " " :: s ++ " " :: tok) Hd
             eq_refl).
  change ("." =? ".") with true. cbv iota.
  pose proof (span_app is_space [" "] (s ++ " " :: tok) eq_refl) as Hsp.
  cbn [app] in Hsp. rewrite Hsp by (destruct s; [easy | exact Hs]).
  rewrite (span_all is_dot (s ++ " " :: tok)).
  - cbn [fst]. destruct s; [easy | reflexivity].
  - rewrite forallb_app. rewrite Hds. simpl. exact Hdt.
Qed.

(** A line written as a number, a dot, a space, a formula text, a space and
    a justification token, all on one line: the verifier reads that number,
    parses that text and dispatches on that token. *)
Lemma read_line (proven_formulas : gmap N pyobj) (ds s tok : str) :
  ds <> [] -> forallb is_digit ds = true ->
  s <> [] -> strip s = s -> forallb is_dot s = true ->
  justification_token tok -> forallb is_dot tok = true ->
  process_line proven_formulas (ds ++ py ". " ++ s ++ py " " ++ tok)
  = match parse s with
    | Raise (ParserError e) => Ok (Return (SyntaxErrorOnLine (int ds) e))
    | Raise e => Raise e
    | Ok current_formula =>
        checked <- check_justification proven_formulas (int ds) tok
                     current_formula ;;
        let '(is_valid, error_detail) := checked in
        if is_valid : bool then
          Ok (Continue (<[int ds := current_formula]> proven_formulas))
        else
          Ok (Return (InvalidJustification (int ds) s error_detail))
    end.
Proof.
  intros Hn Hd Hsne Hs Hds Htok Hdt.
  assert (Hhead : match s with [] => False | c :: _ => is_space c = false end).
  { pose proof (strip_head s) as H. rewrite Hs in H.
    destruct s; [easy | exact H]. }
  assert (Hlast : match rev s with
                  | [] => False
                  | c :: _ => is_space c = false
                  end).
  { pose proof (strip_last s) as H. rewrite Hs in H.
    destruct (rev s) as [| c r] eqn:E; [| exact H].
    apply (f_equal (@rev ascii)) in E. rewrite rev_involutive in E. easy. }
  set (line := ds ++ py ". " ++ s ++ py " " ++ tok).
  assert (Hx : match line with [] => False | c :: _ => is_digit c = true end).
  { unfold line. destruct ds as [| x ds]; [easy |]. simpl in *.
    apply andb_true_iff in Hd as [Hx _]. exact Hx. }
  assert (Estrip : strip line = line).
  { unfold strip. rewrite lstrip_id.
    - apply rstrip_id. unfold line.
      destruct (justification_token_ends tok Htok)
        as (c & x & d & -> & _ & Hd').
      replace (ds ++ py ". " ++ s ++ py " " ++ c :: x ++ [d])
        with ((ds ++ py ". " ++ s ++ py " " ++ c :: x) ++ [d])
        by (repeat (rewrite <- app_assoc; simpl); reflexivity).
      rewrite rev_app_distr. exact Hd'.
    - destruct line as [| c l]; [easy |]. apply digit_not_space. exact Hx. }
  unfold process_line. rewrite Estrip.
  replace (bool_decide (line = [])) with false
    by (destruct line; [easy | reflexivity]).
  replace (startswith line "#") with false
    by (destruct line as [| c l]; [easy |]; symmetry;
        apply digit_is_not; [reflexivity | exact Hx]).
  cbn [orb]. unfold line.
  rewrite (match_line_written ds s tok Hn Hd Hhead Hds Hdt).
  rewrite (search_justification_found s tok Hlast Htok).
  rewrite take_app_length, Hs.
  pose proof (strip_token [" "] [] tok eq_refl eq_refl Htok) as Et.
  rewrite app_nil_r in Et. cbn [app] in Et. rewrite Et.
  reflexivity.
Qed.

(** A printed formula holds no line feed. *)
Lemma print_one_line (f : formula) :
  well_formed f = true -> forallb is_dot (print f) = true.
Proof.
  induction f as [c | g IH | l IHl r IHr]; intros Hf.
  - simpl in *. rewrite andb_true_r. apply space_is_dot_or_newline.
    apply upper_not_space. exact Hf.
  - simpl in *. exact (IH Hf).
  - simpl in Hf. apply andb_true_iff in Hf as [Hl Hr].
    cbn [print]. rewrite !forallb_app, (IHl Hl), (IHr Hr). reflexivity.
Qed.

(** A line written with a printed formula. *)
Lemma read_printed_line (proven_formulas : gmap N pyobj) (ds tok : str)
    (f : formula) :
  ds <> [] -> forallb is_digit ds = true -> well_formed f = true ->
  justification_token tok -> forallb is_dot tok = true ->
  process_line proven_formulas (ds ++ py ". " ++ print f ++ py " " ++ tok)
  = (checked <- check_justification proven_formulas (int ds) tok (encode f) ;;
     let '(is_valid, error_detail) := checked in
     if is_valid : bool then
       Ok (Continue (<[int ds := encode f]> proven_formulas))
     else
       Ok (Return (InvalidJustification (int ds) (print f) error_detail))).
Proof.
  intros Hn Hd Hf Htok Hdt.
  rewrite read_line; try assumption.
  - rewrite (parse_print_ok f Hf). reflexivity.
  - apply print_nonempty.
  - pose proof (strip_print f [] [] Hf eq_refl eq_refl) as H.
    rewrite app_nil_r in H. exact H.
  - apply print_one_line. exact Hf.
Qed.


(** X18. A syntax error is reported with the number of the line and the
    error of the parser, whatever the justification and whatever was proven
    before: on a line written as a number, a dot, a space, a formula text,
    a space and a justification token, when the parser raises on the
    formula text. *)
Theorem syntax_error_on_line (proven_formulas : gmap N pyobj) (ds s tok : str)
    (e : parser_error) :
  ds <> [] -> forallb is_digit ds = true ->
  s <> [] -> strip s = s -> forallb is_dot s = true ->
  justification_token tok -> forallb is_dot tok = true ->
  parse s = Raise (ParserError e) ->
  process_line proven_formulas (ds ++ py ". " ++ s ++ py " " ++ tok)
  = Ok (Return (SyntaxErrorOnLine (int ds) e)).
Proof.
  intros Hn Hd Hsne Hs Hds Htok Hdt Hp.
  rewrite read_line by assumption. rewrite Hp. reflexivity.
Qed.

Lemma syntax_error_on_line_witness :
  process_line ∅ (py "12" ++ py ". " ++ py "(A->B)" ++ py " " ++ py "Premise")
  = Ok (Return (SyntaxErrorOnLine (int (py "12"))
                  (MalformedImplication (py "(A->B)")))).
Proof.
  apply (syntax_error_on_line ∅ (py "12") (py "(A->B)") (py "Premise"));
    try reflexivity; try discriminate.
  constructor.
Defined.

(** X19. Lines with a printed formula and a justification that cites no
    line. A [Premise] line is valid. A line justified by [AX1], [AX2] or
    [AX3] is valid exactly when the checker of that schema accepts the
    formula, and otherwise the proof fails at that line with the mismatch
    of that schema. *)
Theorem premise_and_axiom_lines (proven_formulas : gmap N pyobj) (ds : str)
    (f : formula) :
  ds <> [] -> forallb is_digit ds = true -> well_formed f = true ->
  let line tok := ds ++ py ". " ++ print f ++ py " " ++ tok in
  let checked (accepted : outcome bool) (mismatch : detail) :=
    b <- accepted ;;
    if b : bool then Ok (Continue (<[int ds := encode f]> proven_formulas))
    else Ok (Return (InvalidJustification (int ds) (print f) mismatch)) in
  process_line proven_formulas (line (py "Premise"))
  = Ok (Continue (<[int ds := encode f]> proven_formulas))
  /\ process_line proven_formulas (line (py "AX1"))
     = checked (is_axiom1 (encode f)) NotAX1
  /\ process_line proven_formulas (line (py "AX2"))
     = checked (is_axiom2 (encode f)) NotAX2
  /\ process_line proven_formulas (line (py "AX3"))
     = checked (is_axiom3 (encode f)) NotAX3.
Proof.
  intros Hn Hd Hf line checked. unfold line, checked.
  repeat split.
  - rewrite read_printed_line; try assumption; [reflexivity | constructor |].
    reflexivity.
  - rewrite read_printed_line; try assumption;
      [| apply (token_ax "1"); auto | reflexivity].
    unfold check_justification. cbn [str_eqb py list_ascii_of_string].
    cbn. destruct (is_axiom1 (encode f)) as [[] |]; reflexivity.
  - rewrite read_printed_line; try assumption;
      [| apply (token_ax "2"); auto | reflexivity].
    unfold check_justification. cbn [str_eqb py list_ascii_of_string].
    cbn. destruct (is_axiom2 (encode f)) as [[] |]; reflexivity.
  - rewrite read_printed_line; try assumption;
      [| apply (token_ax "3"); auto | reflexivity].
    unfold check_justification. cbn [str_eqb py list_ascii_of_string].
    cbn. destruct (is_axiom3 (encode f)) as [[] |]; reflexivity.
Qed.

Lemma premise_and_axiom_lines_witness :
  process_line ∅
    (py "2" ++ py ". " ++ print (Imp (Var "A") (Imp (Var "B") (Var "A")))
     ++ py " " ++ py "AX1")
  = Ok (Continue
          (<[int (py "2")
               := encode (Imp (Var "A") (Imp (Var "B") (Var "A")))]> ∅)).
Proof.
  destruct (premise_and_axiom_lines ∅ (py "2")
              (Imp (Var "A") (Imp (Var "B") (Var "A"))))
    as (_ & H & _); [discriminate | reflexivity | reflexivity |].
  rewrite H. reflexivity.
Defined.

Lemma match_mp_written (ws d1 d2 : str) :
  forallb is_space ws = true ->
  d1 <> [] -> forallb is_digit d1 = true ->
  d2 <> [] -> forallb is_digit d2 = true ->
  match_mp (py "MP" ++ ws ++ d1 ++ py "," ++ d2) = Some (d1, d2).
Proof.
  intros Hws Hn1 Hd1 Hn2 Hd2.
  unfold match_mp. rewrite remove_prefix_app. simpl.
  destruct d1 as [| x d1]; [easy |]. destruct d2 as [| y d2]; [easy |].
  rewrite (span_app is_space ws); [| exact Hws |].
  2:{ simpl in Hd1. apply andb_true_iff in Hd1 as [Hx _].
      apply digit_not_space. exact Hx. }
  rewrite (span_app is_digit (x :: d1)); [| exact Hd1 | reflexivity].
  rewrite (span_all is_digit (y :: d2) Hd2). reflexivity.
Qed.

Lemma digits_one_line (ds : str) :
  forallb is_digit ds = true -> forallb is_dot ds = true.
Proof.
  apply forallb_impl. intros c Hc. apply space_is_dot_or_newline.
  apply digit_not_space. exact Hc.
Qed.

(** X20. Modus Ponens does not care in which order the two lines are
    cited: a line justified by [MP i,j] is valid exactly when it is with
    [MP j,i], with the same mapping after it. *)
Theorem modus_ponens_either_order (proven_formulas final : gmap N pyobj)
    (ds di dj : str) (f : formula) :
  ds <> [] -> forallb is_digit ds = true ->
  di <> [] -> forallb is_digit di = true ->
  dj <> [] -> forallb is_digit dj = true ->
  well_formed f = true ->
  process_line proven_formulas
    (ds ++ py ". " ++ print f ++ py " " ++ py "MP " ++ di ++ py "," ++ dj)
  = Ok (Continue final)
  <-> process_line proven_formulas
        (ds ++ py ". " ++ print f ++ py " " ++ py "MP " ++ dj ++ py "," ++ di)
      = Ok (Continue final).
Proof.
  intros Hn Hd Hni Hdi Hnj Hdj Hf.
  assert (Htok : forall d1 d2,
             d1 <> [] -> forallb is_digit d1 = true ->
             d2 <> [] -> forallb is_digit d2 = true ->
             justification_token (py "MP " ++ d1 ++ py "," ++ d2)
             /\ forallb is_dot (py "MP " ++ d1 ++ py "," ++ d2) = true
             /\ match_mp (py "MP " ++ d1 ++ py "," ++ d2) = Some (d1, d2)).
  { intros d1 d2 H1 H2 H3 H4. split; [| split].
    - exact (token_mp [" "] d1 d2 eq_refl H1 H2 H3 H4).
    - cbn [py list_ascii_of_string app forallb is_dot].
      rewrite forallb_app, (digits_one_line d1 H2). simpl.
      exact (digits_one_line d2 H4).
    - exact (match_mp_written [" "] d1 d2 eq_refl H1 H2 H3 H4). }
  destruct (Htok di dj Hni Hdi Hnj Hdj) as (T1 & D1 & M1).
  destruct (Htok dj di Hnj Hdj Hni Hdi) as (T2 & D2 & M2).
  rewrite !read_printed_line by assumption.
  rewrite (check_justification_mp_eval _ _ _ _ _ _ M1).
  rewrite (check_justification_mp_eval _ _ _ _ _ _ M2).
  rewrite (orb_comm (int ds <=? int dj)%N).
  destruct (_ || _); [cbn [bind]; split; discriminate |].
  destruct (proven_formulas !! int di) as [f_i |],
           (proven_formulas !! int dj) as [f_j |];
    try (cbn [bind]; split; discriminate).
  rewrite (orb_comm (py_eqb f_i _)).
  destruct (_ || _); cbn [bind]; [reflexivity | split; discriminate].
Qed.

Lemma modus_ponens_either_order_witness :
  process_line (<[2%N := imp (PStr (py "A")) (PStr (py "B"))]>
                  (<[1%N := PStr (py "A")]> ∅))
    (py "3" ++ py ". " ++ print (Var "B") ++ py " " ++ py "MP " ++ py "1"
     ++ py "," ++ py "2")
  = Ok (Continue
          (<[3%N := PStr (py "B")]>
             (<[2%N := imp (PStr (py "A")) (PStr (py "B"))]>
                (<[1%N := PStr (py "A")]> ∅))))
  <-> process_line (<[2%N := imp (PStr (py "A")) (PStr (py "B"))]>
                      (<[1%N := PStr (py "A")]> ∅))
        (py "3" ++ py ". " ++ print (Var "B") ++ py " " ++ py "MP " ++ py "2"
         ++ py "," ++ py "1")
      = Ok (Continue
              (<[3%N := PStr (py "B")]>
                 (<[2%N := imp (PStr (py "A")) (PStr (py "B"))]>
                    (<[1%N := PStr (py "A")]> ∅)))).
Proof.
  apply (modus_ponens_either_order _ _ (py "3") (py "1") (py "2") (Var "B"));
    try reflexivity; discriminate.
Defined.

(** ** More parentheses than the grammar has *)

(** X21. A pair of parentheses around a formula is no formula: the parser
    finds no arrow of its own between them and raises the
    malformed-implication error. *)
Theorem parse_rejects_extra_parentheses (f : formula) :
  well_formed f = true ->
  parse (py "(" ++ print f ++ py ")")
  = Raise (ParserError (MalformedImplication (py "(" ++ print f ++ py ")"))).
Proof.
  intros Hf.
  assert (H : Some (parse (py "(" ++ print f ++ py ")"))
              = Some (Raise (ParserError
                        (MalformedImplication (py "(" ++ print f ++ py ")")))));
    [| congruence].
  rewrite parse_unfold. unfold parse_body.
  set (fs := py "(" ++ print f ++ py ")").
  assert (Es : strip fs = fs).
  { unfold strip. rewrite lstrip_id by reflexivity.
    apply rstrip_id. unfold fs. rewrite !rev_app_distr. reflexivity. }
  rewrite Es.
  replace (is_variable (PStr fs)) with false
    by (unfold fs; simpl; destruct (print f ++ [")"]) as [| ? [| ? ?]];
        reflexivity).
  change (startswith fs "~") with false.
  change (startswith fs "(") with true.
  replace (endswith fs ")") with true
    by (unfold endswith, fs; rewrite !rev_app_distr; reflexivity).
  cbv iota. cbn [andb].
  replace (slice fs 1 (-1)) with (print f)
    by (symmetry; apply (slice_to_last ["("])).
  rewrite <- (app_nil_r (print f)) at 1.
  rewrite (scan_print f Hf) by lia. reflexivity.
Qed.

Lemma parse_rejects_extra_parentheses_witness :
  parse (py "(" ++ print (Imp (Var "A") (Var "B")) ++ py ")")
  = Raise (ParserError
             (MalformedImplication
                (py "(" ++ print (Imp (Var "A") (Var "B")) ++ py ")"))).
Proof. apply parse_rejects_extra_parentheses. reflexivity. Defined.

(** ** The three shapes *)

(** X22. The three helpers tell the shapes apart: no Python value is
    accepted by two of them, and a formula term is accepted by the one of
    its own shape, a variable when its name is a capital letter. *)
Theorem formula_helpers_partition (v : pyobj) (f : formula) :
  (is_variable v && is_negation v = false)
  /\ (is_variable v && is_implication v = false)
  /\ (is_negation v && is_implication v = false)
  /\ match f with
     | Var name => is_variable (encode f) = is_upper name
     | Neg _ => is_negation (encode f) = true
     | Imp _ _ => is_implication (encode f) = true
     end.
Proof.
  repeat split.
  - destruct v as [[| ? [| ? [| ? ?]]] | items]; simpl;
      rewrite ?andb_false_r; reflexivity.
  - destruct v as [[| ? [| ? [| ? ?]]] | items]; simpl;
      rewrite ?andb_false_r; reflexivity.
  - destruct v as [s | [| x [| y [| z [| ? ?]]]]]; simpl;
      rewrite ?andb_false_r; reflexivity.
  - destruct f; reflexivity.
Qed.


(** ** The character after the arrow *)

(** X23. As the code cuts the right operand, the character that follows
    the arrow is never read: whatever it is, two printed formulas with
    [ ->], that character and nothing else between them, in parentheses,
    are parsed to their implication. *)
Theorem parse_skips_character_after_arrow (c : ascii) (l r : formula) :
  well_formed l = true -> well_formed r = true ->
  parse (py "(" ++ print l ++ py " ->" ++ [c] ++ print r ++ py ")")
  = Ok (encode (Imp l r)).
Proof.
  intros Hl Hr.
  rewrite (parse_imp_text c l r Hl Hr).
  rewrite (parse_print_ok l Hl), (parse_print_ok r Hr). reflexivity.
Qed.

Lemma parse_skips_character_after_arrow_witness :
  parse (py "(" ++ print (Var "A") ++ py " ->" ++ ["~"] ++ print (Var "B")
         ++ py ")")
  = Ok (encode (Imp (Var "A") (Var "B"))).
Proof. apply parse_skips_character_after_arrow; reflexivity. Defined.


(** * The limits of the interpreter *)

(** ** Agreement with the unlimited model *)

Lemma parse_body_mono (rec1 rec2 : str -> option (outcome pyobj)) (s : str)
    (r : outcome pyobj) :
  (forall t r', rec1 t = Some r' -> rec2 t = Some r') ->
  parse_body rec1 s = Some r -> parse_body rec2 s = Some r.
Proof.
  intros H. unfold parse_body.
  destruct (is_variable _); [easy |].
  destruct (startswith (strip s) "~").
  { destruct (rec1 (drop 1 (strip s))) as [r1 |] eqn:E; [| easy].
    rewrite (H _ _ E). easy. }
  destruct (_ && _); [| easy].
  destruct (scan _ _ 0 0) as [[k |] | e]; try easy.
  destruct (slice (strip s) 1 (Z.of_nat k)) as [| c1 l1]; [easy |].
  destruct (slice (strip s) (Z.of_nat k + 3) (-1)) as [| c2 l2]; [easy |].
  destruct (rec1 (c1 :: l1)) as [r1 |] eqn:E1; [| easy].
  rewrite (H _ _ E1). destruct r1 as [l | e]; [| easy].
  destruct (rec1 (c2 :: l2)) as [r2 |] eqn:E2; [| easy].
  rewrite (H _ _ E2). easy.
Qed.

Lemma parse_fuel_mono (n m : nat) (s : str) (r : outcome pyobj) :
  n <= m -> parse_fuel n s = Some r -> parse_fuel m s = Some r.
Proof.
  revert m s r; induction n as [| n IH]; intros m s r Hnm; [easy |].
  destruct m as [| m]; [lia |]. simpl.
  apply parse_body_mono. intros t r'. apply IH. lia.
Qed.

(** A call of [parse] that returns within the depth it is given returns
    what [parse] returns. *)
Lemma parse_limited_agrees (depth : nat) (s : str) (r : outcome pyobj) :
  parse_limited depth s = Within r -> r = parse s.
Proof.
  unfold parse_limited.
  destruct (parse_fuel depth s) as [r' |] eqn:E; [| easy].
  intros [= <-].
  pose proof (parse_fuel_mono depth (depth + S (length s)) s r'
                ltac:(lia) E) as H.
  rewrite parse_fuel_parse in H by lia. congruence.
Qed.

Lemma parse_limited_enough (depth : nat) (s : str) :
  length s < depth -> parse_limited depth s = Within (parse s).
Proof.
  intros H. unfold parse_limited. rewrite parse_fuel_parse by exact H.
  reflexivity.
Qed.

Lemma int_limited_agrees (max_str_digits : nat) (s : str) (n : N) :
  int_limited max_str_digits s = Within n -> n = int s.
Proof. unfold int_limited. destruct (_ && _); congruence. Qed.

Lemma int_limited_enough (max_str_digits : nat) (s : str) :
  max_str_digits = 0 \/ length s <= max_str_digits ->
  int_limited max_str_digits s = Within (int s).
Proof.
  intros H. unfold int_limited.
  replace (_ && _) with false; [reflexivity |].
  symmetry. apply andb_false_iff. rewrite Nat.ltb_ge, Nat.ltb_ge. lia.
Qed.

Lemma check_justification_limited_agrees (max_str_digits : nat)
    (proven_formulas : gmap N pyobj) (line_num : N) (justification : str)
    (current_formula : pyobj) (c : outcome (bool * detail)) :
  check_justification_limited max_str_digits proven_formulas line_num
    justification current_formula = Within c ->
  c = check_justification proven_formulas line_num justification
        current_formula.
Proof.
  unfold check_justification_limited.
  destruct (startswith_str _ _); [| congruence].
  destruct (match_mp justification) as [[si sj] |]; [| congruence].
  destruct (int_limited _ si); try easy.
  destruct (int_limited _ sj); try easy. congruence.
Qed.

Lemma process_line_limited_agrees (depth max_str_digits : nat)
    (proven_formulas : gmap N pyobj) (line_text : str) (r : outcome step) :
  process_line_limited depth max_str_digits proven_formulas line_text
  = Within r ->
  r = process_line proven_formulas line_text.
Proof.
  unfold process_line_limited, process_line.
  destruct (_ || _); [congruence |].
  destruct (match_line _) as [[ds rest] |]; [| congruence].
  destruct (int_limited _ ds) as [n | |] eqn:En; try easy.
  apply int_limited_agrees in En as ->.
  destruct (search_justification rest 0) as [[start g] |]; [| congruence].
  destruct (parse_limited _ _) as [p | |] eqn:Ep; try easy.
  apply parse_limited_agrees in Ep as <-.
  destruct p as [f | e].
  - destruct (check_justification_limited _ _ _ _ _) as [c | |] eqn:Ec;
      try easy.
    apply check_justification_limited_agrees in Ec as <-. congruence.
  - destruct e; congruence.
Qed.

Lemma run_limited_agrees (depth max_str_digits : nat)
    (proof_content : list str) (proven_formulas : gmap N pyobj)
    (r : outcome step) :
  run_limited depth max_str_digits proven_formulas proof_content = Within r ->
  r = run proven_formulas proof_content.
Proof.
  revert proven_formulas; induction proof_content as [| line_text rest IH];
    intros proven_formulas; cbn [run_limited run]; [congruence |].
  destruct (process_line_limited _ _ _ _) as [p | |] eqn:E; try easy.
  apply process_line_limited_agrees in E as <-.
  destruct p as [[m | v] | e]; cbn [bind]; [apply IH | congruence ..].
Qed.

Lemma verify_proof_limited_agrees (depth max_str_digits : nat)
    (proof_content : list str) (r : outcome verdict) :
  verify_proof_limited depth max_str_digits proof_content = Within r ->
  r = verify_proof proof_content.
Proof.
  unfold verify_proof_limited, verify_proof.
  destruct (run_limited _ _ _ _) as [s | |] eqn:E; try easy.
  apply run_limited_agrees in E as <-. congruence.
Qed.


(** ** Lines short enough hit no limit *)

Lemma span_lengths (p : ascii -> bool) (s a b : str) :
  span p s = (a, b) -> length a + length b = length s.
Proof.
  intros E. pose proof (span_length p s) as H. rewrite E in H. exact H.
Qed.

Lemma match_line_lengths (t ds rest_of_line : str) :
  match_line t = Some (ds, rest_of_line) ->
  length ds <= length t /\ length rest_of_line <= length t.
Proof.
  unfold match_line.
  destruct (span is_space t) as [ws s1] eqn:E0.
  destruct (span is_digit s1) as [ds' s2] eqn:E1.
  destruct ds' as [| x ds']; [easy |].
  destruct s2 as [| c s3]; [easy |].
  destruct (c =? "."); [| easy].
  destruct (span is_space s3) as [ws' s4] eqn:E2.
  apply span_lengths in E0, E1, E2. simpl in E1.
  pose proof (span_length is_dot s4) as E3.
  destruct (span is_dot s4).1 as [| y ys] eqn:E4.
  - destruct (List.filter is_dot (rev ws')) as [| d fs] eqn:E5; [easy |].
    intros [= <- <-]. simpl.
    assert (0 < length ws').
    { destruct ws'; [discriminate E5 | simpl; lia]. }
    lia.
  - intros [= <- <-]. simpl in *. lia.
Qed.

Lemma search_justification_length (s : str) (k start : nat) (g : str) :
  search_justification s k = Some (start, g) -> length g <= length s.
Proof.
  intros (ws & tok & -> & _ & _ & _ & _ & Hd)%search_justification_spec.
  assert (H := length_drop s (start - k)).
  destruct Hd as [E | E]; rewrite E in H; rewrite ?length_app in *;
    simpl in *; lia.
Qed.

Lemma match_mp_lengths (justification si sj : str) :
  match_mp justification = Some (si, sj) ->
  length si <= length justification /\ length sj <= length justification.
Proof.
  unfold match_mp.
  destruct (remove_prefix _ justification) as [r |] eqn:E; [| easy].
  apply remove_prefix_spec in E as ->. simpl.
  destruct (span is_space r) as [ws r1] eqn:E0.
  destruct (span is_digit r1) as [d1 r2] eqn:E1.
  destruct d1 as [| x d1]; [easy |].
  destruct r2 as [| c r3]; [easy |].
  destruct (c =? ","); [| easy].
  apply span_lengths in E0, E1. simpl in E1.
  pose proof (span_length is_digit r3) as E3.
  destruct (span is_digit r3).1 as [| y ys] eqn:E4; [easy |].
  intros [= <- <-]. simpl in *. lia.
Qed.

Lemma process_line_limited_within (depth max_str_digits : nat)
    (proven_formulas : gmap N pyobj) (line_text : str) :
  length line_text < depth ->
  max_str_digits = 0 \/ length line_text <= max_str_digits ->
  process_line_limited depth max_str_digits proven_formulas line_text
  = Within (process_line proven_formulas line_text).
Proof.
  intros Hdepth Hdigits. unfold process_line_limited, process_line.
  pose proof (strip_length line_text) as Hs.
  destruct (_ || _); [reflexivity |].
  destruct (match_line _) as [[ds rest] |] eqn:E1; [| reflexivity].
  apply match_line_lengths in E1 as [Hds Hrest].
  rewrite int_limited_enough by lia.
  destruct (search_justification rest 0) as [[start g] |] eqn:E2;
    [| reflexivity].
  apply search_justification_length in E2.
  pose proof (strip_length (take start rest)) as Hf.
  pose proof (length_take rest start) as Ht.
  rewrite parse_limited_enough by lia.
  destruct (parse _) as [f | e]; [| destruct e; reflexivity].
  unfold check_justification_limited.
  destruct (startswith_str _ _); [| reflexivity].
  destruct (match_mp (strip g)) as [[si sj] |] eqn:E3; [| reflexivity].
  apply match_mp_lengths in E3 as [Hsi Hsj].
  pose proof (strip_length g) as Hg.
  rewrite !int_limited_enough by lia. reflexivity.
Qed.

Lemma run_limited_within (depth max_str_digits : nat)
    (proof_content : list str) (proven_formulas : gmap N pyobj) :
  (forall line_text,
      line_text ∈ proof_content ->
      length line_text < depth
      /\ (max_str_digits = 0 \/ length line_text <= max_str_digits)) ->
  run_limited depth max_str_digits proven_formulas proof_content
  = Within (run proven_formulas proof_content).
Proof.
  revert proven_formulas; induction proof_content as [| line_text rest IH];
    intros proven_formulas H; cbn [run_limited run]; [reflexivity |].
  destruct (H line_text ltac:(left)) as [H1 H2].
  rewrite (process_line_limited_within _ _ _ _ H1 H2).
  destruct (process_line proven_formulas line_text) as [[m | v] | e];
    cbn [bind]; [| reflexivity ..].
  apply IH. intros l Hl. apply H. right. exact Hl.
Qed.

(** ** Lines on which a limit is hit *)

Lemma parse_fuel_tildes (n : nat) :
  parse_fuel n (repeat "~" n ++ py "A") = None.
Proof.
  induction n as [| n IH]; [reflexivity |].
  cbn [parse_fuel repeat app]. unfold parse_body.
  assert (E : strip ("~" :: repeat "~" n ++ py "A")
              = "~" :: repeat "~" n ++ py "A").
  { unfold strip. rewrite lstrip_id by reflexivity.
    apply rstrip_id. simpl. rewrite rev_app_distr. reflexivity. }
  rewrite E.
  replace (is_variable (PStr ("~" :: repeat "~" n ++ py "A"))) with false
    by (destruct n as [| [| n]]; reflexivity).
  cbn [startswith]. change ("~" =? "~") with true. cbv iota.
  cbn [drop]. rewrite drop_0, IH. reflexivity.
Qed.

Lemma tildes_tight (n : nat) :
  repeat "~" n ++ py "A" <> []
  /\ strip (repeat "~" n ++ py "A") = repeat "~" n ++ py "A"
  /\ forallb is_dot (repeat "~" n ++ py "A") = true.
Proof.
  split; [destruct n; discriminate |]. split.
  - unfold strip. rewrite lstrip_id by (destruct n; reflexivity).
    apply rstrip_id. rewrite rev_app_distr. reflexivity.
  - rewrite forallb_app. rewrite andb_true_r.
    induction n as [| n IH]; [reflexivity | exact IH].
Qed.

(** Whatever the depth allowed, a formula nested one level deeper makes
    [RecursionError] escape. *)
Lemma recursion_error_escapes (depth max_str_digits : nat) :
  verify_proof_limited depth max_str_digits
    [py "1" ++ py ". " ++ (repeat "~" depth ++ py "A") ++ py " "
     ++ py "Premise"]
  = RecursionError.
Proof.
  destruct (tildes_tight depth) as (Hne & Hs & Hd).
  set (s := repeat "~" depth ++ py "A") in *.
  assert (Hhead : match s with [] => False | c :: _ => is_space c = false end).
  { unfold s. destruct depth; reflexivity. }
  assert (Hlast : match rev s with
                  | [] => False
                  | c :: _ => is_space c = false
                  end).
  { unfold s. rewrite rev_app_distr. reflexivity. }
  set (line := py "1" ++ py ". " ++ s ++ py " " ++ py "Premise").
  assert (Estrip : strip line = line).
  { unfold strip. rewrite lstrip_id by reflexivity.
    apply rstrip_id. unfold line.
    replace (py "1" ++ py ". " ++ s ++ py " " ++ py "Premise")
      with ((py "1" ++ py ". " ++ s ++ py " " ++ py "Premis") ++ py "e")
      by (repeat (rewrite <- app_assoc; simpl); reflexivity).
    rewrite rev_app_distr. reflexivity. }
  unfold verify_proof_limited. cbn [run_limited].
  unfold process_line_limited. rewrite Estrip.
  replace (bool_decide (line = [])) with false by reflexivity.
  replace (startswith line "#") with false by reflexivity.
  cbn [orb]. unfold line.
  rewrite (match_line_written (py "1") s (py "Premise")); try easy.
  replace (int_limited max_str_digits (py "1")) with (Within (int (py "1")))
    by (destruct max_str_digits as [| [| ?]]; reflexivity).
  rewrite (search_justification_found s (py "Premise") Hlast token_premise).
  rewrite take_app_length, Hs.
  unfold parse_limited, s. rewrite parse_fuel_tildes. reflexivity.
Qed.

(** Under a limit on the digits, a line number one digit longer makes
    [ValueError] escape. *)
Lemma value_error_escapes (depth max_str_digits : nat) :
  0 < max_str_digits ->
  verify_proof_limited depth max_str_digits
    [repeat "1" (S max_str_digits) ++ py ". " ++ py "A" ++ py " "
     ++ py "Premise"]
  = ValueError.
Proof.
  intros Hpos.
  set (ds := repeat "1" (S max_str_digits)).
  assert (Hd : forallb is_digit ds = true).
  { unfold ds. generalize (S max_str_digits). intros n.
    induction n as [| n IH]; [reflexivity | exact IH]. }
  set (line := ds ++ py ". " ++ py "A" ++ py " " ++ py "Premise").
  assert (Estrip : strip line = line).
  { unfold strip. rewrite lstrip_id by reflexivity.
    apply rstrip_id. unfold line.
    replace (ds ++ py ". " ++ py "A" ++ py " " ++ py "Premise")
      with ((ds ++ py ". A Premis") ++ py "e")
      by (rewrite <- app_assoc; reflexivity).
    rewrite rev_app_distr. reflexivity. }
  unfold verify_proof_limited. cbn [run_limited].
  unfold process_line_limited. rewrite Estrip.
  replace (bool_decide (line = [])) with false by reflexivity.
  replace (startswith line "#") with false by reflexivity.
  cbn [orb]. unfold line.
  rewrite (match_line_written ds (py "A") (py "Premise")); try easy.
  unfold int_limited.
  replace (_ && _) with true; [reflexivity |].
  symmetry. apply andb_true_iff. rewrite !Nat.ltb_lt.
  unfold ds. rewrite repeat_length. lia.
Qed.


(** ** The verdict and the line it names *)

Lemma run_first_failure (proof_content : list str)
    (proven_formulas : gmap N pyobj) (v : verdict) :
  run proven_formulas proof_content = Ok (Return v) ->
  exists before line_text after m,
    proof_content = before ++ line_text :: after
    /\ run proven_formulas before = Ok (Continue m)
    /\ process_line m line_text = Ok (Return v)
    /\ reported_at v line_text.
Proof.
  revert proven_formulas;
    induction proof_content as [| line_text rest IH]; intros proven_formulas;
    cbn [run]; [easy |].
  destruct (process_line_total proven_formulas line_text)
    as ([m | v'] & Hs & Hm); rewrite Hs; cbn [bind].
  - intros (before & l & after & m' & -> & Hb & Hl & Hr)%IH.
    exists (line_text :: before), l, after, m'.
    cbn [app run]. rewrite Hs. cbn [bind]. auto.
  - intros [= <-]. exists [], line_text, rest, proven_formulas. auto.
Qed.

(** C5, as the code has it. [depth] is the number of nested calls of
    [parse] the interpreter allows and [max_str_digits] its limit on the
    digits [int] converts (0: none).  For every ordered sequence of proof
    lines: a run that ends within the two limits ends with exactly one
    verdict and raises nothing; the verdict is [Valid] when every line is
    passed, and else it is the failure of the first line that is not
    passed, carrying the number read on that very line, or its stripped
    text when no number is read on it.  A sequence whose lines are all
    shorter than [depth] and no longer than [max_str_digits] ends within
    the limits.  But not every run does: whatever [depth], some sequence
    makes [RecursionError] escape, and under any limit on the digits some
    sequence makes [ValueError] escape. *)
Theorem verify_proof_returns_verdict (depth max_str_digits : nat)
    (proof_content : list str) :
  (forall r,
      verify_proof_limited depth max_str_digits proof_content = Within r ->
      exists v,
        r = Ok v
        /\ verify_proof proof_content = Ok v
        /\ ((v = Valid
             /\ exists final, run ∅ proof_content = Ok (Continue final))
            \/ exists before line_text after m,
                 proof_content = before ++ line_text :: after
                 /\ run ∅ before = Ok (Continue m)
                 /\ process_line m line_text = Ok (Return v)
                 /\ reported_at v line_text))
  /\ ((forall line_text,
          line_text ∈ proof_content ->
          length line_text < depth
          /\ (max_str_digits = 0 \/ length line_text <= max_str_digits)) ->
      exists r,
        verify_proof_limited depth max_str_digits proof_content = Within r)
  /\ (exists lines,
        verify_proof_limited depth max_str_digits lines = RecursionError)
  /\ (0 < max_str_digits ->
      exists lines,
        verify_proof_limited depth max_str_digits lines = ValueError).
Proof.
  split; [| split; [| split]].
  - intros r ->%verify_proof_limited_agrees. unfold verify_proof.
    destruct (run_total proof_content ∅) as ([final | v] & Hs & _);
      rewrite Hs; cbn [bind]; eexists;
      (split; [reflexivity |]); (split; [reflexivity |]).
    + left. eauto.
    + right. apply run_first_failure. exact Hs.
  - intros H. unfold verify_proof_limited.
    rewrite (run_limited_within _ _ _ _ H). eauto.
  - eexists. apply recursion_error_escapes.
  - intros H. eexists. apply value_error_escapes. exact H.
Qed.

Lemma verify_proof_returns_verdict_witness :
  verify_proof_limited 1000 4300
    [py "1. A Premise"; py "B"; py "3. C Premise"]
  = Within (Ok (InvalidLineFormat (py "B")))
  /\ (exists before line_text after m,
        [py "1. A Premise"; py "B"; py "3. C Premise"]
        = before ++ line_text :: after
        /\ run ∅ before = Ok (Continue m)
        /\ process_line m line_text = Ok (Return (InvalidLineFormat (py "B")))
        /\ reported_at (InvalidLineFormat (py "B")) line_text)
  /\ (exists r,
        verify_proof_limited 1000 4300
          [py "1. A Premise"; py "B"; py "3. C Premise"]
        = Within r).
Proof.
  assert (E : verify_proof_limited 1000 4300
                [py "1. A Premise"; py "B"; py "3. C Premise"]
              = Within (Ok (InvalidLineFormat (py "B"))))
    by (vm_compute; reflexivity).
  destruct (verify_proof_returns_verdict 1000 4300
              [py "1. A Premise"; py "B"; py "3. C Premise"])
    as (H1 & H2 & _).
  split; [exact E |]. split.
  - destruct (H1 _ E) as (v & Hv & _ & [[-> _] | H]).
    + discriminate Hv.
    + injection Hv as <-. exact H.
  - apply H2. intros l Hl.
    repeat (apply elem_of_cons in Hl as [-> | Hl]);
      [| | | apply elem_of_nil in Hl; destruct Hl];
      (split; [vm_compute; lia | right; vm_compute; lia]).
Defined.


(** * The bindings of the proven formulas *)

Lemma line_number_not_skipped (line_text : str) (k : N) :
  line_number line_text = Some k -> skipped line_text = false.
Proof.
  unfold line_number, skipped.
  destruct (match_line (strip line_text)) as [x |] eqn:E; [| easy].
  intros _. exact (match_line_nonblank _ _ E).
Qed.

(** A line that is passed is skipped, and leaves the mapping as it is, or
    binds the number read on it to the formula parsed on it. *)
Lemma process_line_records (proven_formulas proven_formulas' : gmap N pyobj)
    (line_text : str) :
  process_line proven_formulas line_text = Ok (Continue proven_formulas') ->
  (line_number line_text = None /\ proven_formulas' = proven_formulas)
  \/ exists line_num f,
       line_number line_text = Some line_num
       /\ formula_of line_text = Some f
       /\ proven_formulas' = <[line_num := f]> proven_formulas.
Proof.
  unfold process_line, line_number, formula_of.
  destruct (_ || _) eqn:Hskip.
  - intros [= <-]. left. split; [| reflexivity].
    destruct (match_line (strip line_text)) as [x |] eqn:E; [| reflexivity].
    rewrite (match_line_nonblank _ _ E) in Hskip. discriminate Hskip.
  - destruct (match_line (strip line_text)) as [[ds rest] |]; [| easy].
    destruct (search_justification rest 0) as [[start g] |]; [| easy].
    destruct (parse _) as [f | [e | | |]]; try easy.
    destruct (check_justification _ _ _ _) as [[[] d] | e]; try easy.
    cbn [bind]. intros [= <-]. right. exists (int ds), f. auto.
Qed.

Lemma run_untouched (proof_content : list str)
    (proven_formulas final : gmap N pyobj) (k : N) :
  run proven_formulas proof_content = Ok (Continue final) ->
  (forall line_text,
      line_text ∈ proof_content -> line_number line_text <> Some k) ->
  final !! k = proven_formulas !! k.
Proof.
  revert proven_formulas;
    induction proof_content as [| line_text rest IH]; intros proven_formulas.
  - simpl. intros [= <-] _. reflexivity.
  - intros (m & Hstep & Hrun)%run_cons Hfresh.
    rewrite (IH m Hrun) by (intros l Hl; apply Hfresh; right; exact Hl).
    apply process_line_records in Hstep
      as [[_ ->] | (n & f & Hn & _ & ->)]; [reflexivity |].
    apply lookup_insert_ne. intros ->.
    apply (Hfresh line_text); [left | exact Hn].
Qed.

Lemma run_bound (proof_content : list str)
    (proven_formulas final : gmap N pyobj) (k : N) :
  run proven_formulas proof_content = Ok (Continue final) ->
  is_Some (proven_formulas !! k) -> is_Some (final !! k).
Proof.
  revert proven_formulas;
    induction proof_content as [| line_text rest IH]; intros proven_formulas.
  - simpl. intros [= <-]. auto.
  - intros (m & Hstep & Hrun)%run_cons Hk. apply (IH m Hrun).
    apply process_line_records in Hstep
      as [[_ ->] | (n & f & _ & _ & ->)]; [exact Hk |].
    destruct (decide (n = k)) as [-> | Hne].
    + rewrite lookup_insert_eq. eauto.
    + rewrite lookup_insert_ne by exact Hne. exact Hk.
Qed.

Lemma run_app_continue (before after : list str)
    (proven_formulas final : gmap N pyobj) :
  run proven_formulas (before ++ after) = Ok (Continue final) ->
  exists m,
    run proven_formulas before = Ok (Continue m)
    /\ run m after = Ok (Continue final).
Proof.
  rewrite run_app.
  destruct (run proven_formulas before) as [[m | v] | e]; cbn [bind];
    try easy. eauto.
Qed.

(** C7, as the code has it. While the lines of one proof are read, a line
    number once bound stays bound, but not to the same formula: at the end
    of a run in which every line is passed, a number carried by none of
    the lines is bound as it was at the start, and a number carried by
    some line is bound to the formula parsed on the last line that
    carries it, whatever was bound to it before. *)
Theorem proven_formulas_keep_bindings (proven_formulas : gmap N pyobj)
    (proof_content : list str) (final : gmap N pyobj) :
  run proven_formulas proof_content = Ok (Continue final) ->
  (forall k, is_Some (proven_formulas !! k) -> is_Some (final !! k))
  /\ (forall k,
        (forall line_text,
            line_text ∈ proof_content -> line_number line_text <> Some k) ->
        final !! k = proven_formulas !! k)
  /\ (forall before line_text after k,
        proof_content = before ++ line_text :: after ->
        line_number line_text = Some k ->
        (forall later, later ∈ after -> line_number later <> Some k) ->
        exists f, formula_of line_text = Some f /\ final !! k = Some f).
Proof.
  intros Hrun. split; [| split].
  - intros k. exact (run_bound _ _ _ k Hrun).
  - intros k. exact (run_untouched _ _ _ k Hrun).
  - intros before line_text after k -> Hk Hlater.
    apply run_app_continue in Hrun as (m & _ & Hrun).
    apply run_cons in Hrun as (m' & Hstep & Hrun).
    rewrite (run_untouched _ _ _ k Hrun Hlater).
    apply process_line_records in Hstep
      as [[Hn _] | (n & f & Hn & Hf & ->)]; [congruence |].
    rewrite Hk in Hn. injection Hn as <-.
    exists f. split; [exact Hf | apply lookup_insert_eq].
Qed.

Lemma proven_formulas_keep_bindings_witness :
  run (<[1%N := PStr (py "A")]> (<[2%N := PStr (py "C")]> ∅))
      [py "1. B Premise"]
  = Ok (Continue (<[1%N := PStr (py "B")]>
                    (<[1%N := PStr (py "A")]> (<[2%N := PStr (py "C")]> ∅))))
  /\ (<[1%N := PStr (py "B")]>
        (<[1%N := PStr (py "A")]> (<[2%N := PStr (py "C")]> ∅))
      : gmap N pyobj) !! 2%N
     = (<[1%N := PStr (py "A")]> (<[2%N := PStr (py "C")]> ∅)
        : gmap N pyobj) !! 2%N
  /\ (exists f,
        formula_of (py "1. B Premise") = Some f
        /\ (<[1%N := PStr (py "B")]>
              (<[1%N := PStr (py "A")]> (<[2%N := PStr (py "C")]> ∅))
            : gmap N pyobj) !! 1%N = Some f).
Proof.
  assert (E : run (<[1%N := PStr (py "A")]> (<[2%N := PStr (py "C")]> ∅))
                  [py "1. B Premise"]
              = Ok (Continue
                      (<[1%N := PStr (py "B")]>
                         (<[1%N := PStr (py "A")]>
                            (<[2%N := PStr (py "C")]> ∅)))))
    by (vm_compute; reflexivity).
  destruct (proven_formulas_keep_bindings _ _ _ E) as (_ & H2 & H3).
  split; [exact E |]. split.
  - apply H2. intros l Hl.
    apply elem_of_cons in Hl as [-> | Hl];
      [vm_compute; discriminate | apply elem_of_nil in Hl; destruct Hl].
  - apply (H3 [] (py "1. B Premise") [] 1%N); [reflexivity | |].
    + vm_compute. reflexivity.
    + intros l Hl. apply elem_of_nil in Hl. destruct Hl.
Defined.


(** * The batch runner under the limits *)

Lemma run_proofs_limited_within (depth max_str_digits : nat)
    (proofs : list (str * list str)) :
  Forall (fun p : str * list str =>
            exists r, verify_proof_limited depth max_str_digits p.2 = Within r)
         proofs ->
  exists reports,
    run_proofs_limited depth max_str_digits proofs = Within (Ok reports)
    /\ Forall2 (fun (p : str * list str) (r : str * verdict) =>
                  r.1 = p.1
                  /\ verify_proof_limited depth max_str_digits p.2
                     = Within (Ok r.2))
               proofs reports.
Proof.
  induction 1 as [| [name content] proofs [r Hr] _ (reports & IH & HF)].
  - exists []. split; [reflexivity | constructor].
  - cbn [snd] in Hr.
    pose proof (verify_proof_limited_agrees _ _ _ _ Hr) as Hv.
    destruct (verify_proof_ok content) as [v Ev]. rewrite Ev in Hv. subst r.
    exists ((name, v) :: reports). cbn [run_proofs_limited].
    rewrite Hr, IH. split; [reflexivity |].
    constructor; [split; [reflexivity | exact Hr] | exact HF].
Qed.

Lemma run_proofs_limited_escapes (depth max_str_digits : nat)
    (before : list (str * list str)) (p : str * list str)
    (after : list (str * list str)) :
  Forall (fun q : str * list str =>
            exists r, verify_proof_limited depth max_str_digits q.2 = Within r)
         before ->
  (verify_proof_limited depth max_str_digits p.2 = RecursionError ->
   run_proofs_limited depth max_str_digits (before ++ p :: after)
   = RecursionError)
  /\ (verify_proof_limited depth max_str_digits p.2 = ValueError ->
      run_proofs_limited depth max_str_digits (before ++ p :: after)
      = ValueError).
Proof.
  induction 1 as [| [name content] before [r Hr] _ [IH1 IH2]].
  - destruct p as [name content]. cbn [app run_proofs_limited snd].
    split; intros ->; reflexivity.
  - cbn [snd] in Hr.
    pose proof (verify_proof_limited_agrees _ _ _ _ Hr) as Hv.
    destruct (verify_proof_ok content) as [v Ev]. rewrite Ev in Hv. subst r.
    cbn [app run_proofs_limited]. rewrite Hr.
    split; intros E; [rewrite (IH1 E) | rewrite (IH2 E)]; reflexivity.
Qed.

Lemma split_proofs_lines (lines : list str) (p : str * list str)
    (line_text : str) :
  p ∈ split_proofs lines [] (py "Unnamed Proof") ->
  line_text ∈ p.2 -> line_text ∈ lines.
Proof.
  intros Hp Hl.
  assert (H : line_text
              ∈ concat (map snd (split_proofs lines [] (py "Unnamed Proof")))).
  { apply list_elem_of_In, in_concat. exists p.2.
    split; [apply in_map | ]; apply list_elem_of_In; assumption. }
  rewrite split_proofs_content in H. cbn [app] in H.
  apply list_elem_of_In, filter_In in H as [H _].
  apply list_elem_of_In. exact H.
Qed.

(** X15. On a file that could be read, the batch runner calls
    [verify_proof] once for each proof of the file, in order.  When every
    call ends within the limits of the interpreter, which it does when
    every line of the file is shorter than the depth of recursion allowed
    and no longer than the limit on digits, the runner raises nothing and
    reports one verdict for each proof, under the proof's name, a failed
    proof not keeping the next ones from being verified.  When a call hits
    a limit, the [RecursionError] or [ValueError] of the first such call
    escapes the runner, and the proofs after it are not verified. *)
Theorem load_and_run_reports_every_proof (depth max_str_digits : nat)
    (lines : list str) :
  (Forall (fun p : str * list str =>
             exists r,
               verify_proof_limited depth max_str_digits p.2 = Within r)
          (split_proofs lines [] (py "Unnamed Proof")) ->
   exists reports,
     load_and_run_tests_from_file_limited depth max_str_digits (Some lines)
     = Within (Ok (Verified reports))
     /\ Forall2 (fun (p : str * list str) (r : str * verdict) =>
                   r.1 = p.1
                   /\ verify_proof_limited depth max_str_digits p.2
                      = Within (Ok r.2))
                (split_proofs lines [] (py "Unnamed Proof")) reports)
  /\ ((forall line_text,
          line_text ∈ lines ->
          length line_text < depth
          /\ (max_str_digits = 0 \/ length line_text <= max_str_digits)) ->
      exists reports,
        load_and_run_tests_from_file_limited depth max_str_digits (Some lines)
        = Within (Ok (Verified reports)))
  /\ (forall before p after,
        split_proofs lines [] (py "Unnamed Proof") = before ++ p :: after ->
        Forall (fun q : str * list str =>
                  exists r,
                    verify_proof_limited depth max_str_digits q.2 = Within r)
               before ->
        (verify_proof_limited depth max_str_digits p.2 = RecursionError ->
         load_and_run_tests_from_file_limited depth max_str_digits
           (Some lines)
         = RecursionError)
        /\ (verify_proof_limited depth max_str_digits p.2 = ValueError ->
            load_and_run_tests_from_file_limited depth max_str_digits
              (Some lines)
            = ValueError)).
Proof.
  assert (Hwithin :
    Forall (fun p : str * list str =>
              exists r,
                verify_proof_limited depth max_str_digits p.2 = Within r)
           (split_proofs lines [] (py "Unnamed Proof")) ->
    exists reports,
      load_and_run_tests_from_file_limited depth max_str_digits (Some lines)
      = Within (Ok (Verified reports))
      /\ Forall2 (fun (p : str * list str) (r : str * verdict) =>
                    r.1 = p.1
                    /\ verify_proof_limited depth max_str_digits p.2
                       = Within (Ok r.2))
                 (split_proofs lines [] (py "Unnamed Proof")) reports).
  { intros (reports & E & HF)%run_proofs_limited_within.
    exists reports. unfold load_and_run_tests_from_file_limited.
    rewrite E. split; [reflexivity | exact HF]. }
  split; [exact Hwithin |]. split.
  - intros Hshort.
    destruct Hwithin as (reports & E & _); [| eauto].
    apply Forall_forall. intros p Hp. unfold verify_proof_limited.
    rewrite run_limited_within; [eauto |].
    intros l Hl. apply Hshort. exact (split_proofs_lines _ _ _ Hp Hl).
  - intros before p after E Hbefore.
    unfold load_and_run_tests_from_file_limited. rewrite E.
    destruct (run_proofs_limited_escapes depth max_str_digits before p after
                Hbefore) as [H1 H2].
    split; intros Hp; [rewrite (H1 Hp) | rewrite (H2 Hp)]; reflexivity.
Qed.

Lemma load_and_run_reports_every_proof_witness :
  (exists reports,
     load_and_run_tests_from_file_limited 50 0
       (Some [py "--- TEST: one ---"; py "1. A Premise"; py "B";
              py "--- TEST: two ---"; py "1. ~~~~~~A Premise";
              py "--- TEST: three ---"; py "1. A Premise"])
     = Within (Ok (Verified reports)))
  /\ load_and_run_tests_from_file_limited 5 0
       (Some [py "--- TEST: one ---"; py "1. A Premise"; py "B";
              py "--- TEST: two ---"; py "1. ~~~~~~A Premise";
              py "--- TEST: three ---"; py "1. A Premise"])
     = RecursionError.
Proof.
  split.
  - apply (load_and_run_reports_every_proof 50 0). intros l Hl.
    repeat (apply elem_of_cons in Hl as [-> | Hl]);
      try (split; [vm_compute; lia | left; reflexivity]).
    apply elem_of_nil in Hl. destruct Hl.
  - destruct (load_and_run_reports_every_proof 5 0
                [py "--- TEST: one ---"; py "1. A Premise"; py "B";
                 py "--- TEST: two ---"; py "1. ~~~~~~A Premise";
                 py "--- TEST: three ---"; py "1. A Premise"])
      as (_ & _ & H).
    apply (H [(py "one", [py "1. A Premise"; py "B"])]
             (py "two", [py "1. ~~~~~~A Premise"])
             [(py "three", [py "1. A Premise"])]).
    + vm_compute. reflexivity.
    + constructor; [| constructor]. eexists. vm_compute. reflexivity.
    + vm_compute. reflexivity.
Defined.
